(** * Cardinality analysis of Prometheus metrics against dashboard and alert queries

    A shallow embedding of [cardinality_analysis_script.py] and of
    [get_all_dashboards.py], with the properties of the analysis pipeline:
    query text extraction, label cardinality, usage reconciliation, report
    ordering, console digest and the JSON artifact; and with those of the
    dashboard script: the queries of a dashboard, the loop over the listing,
    the questions, the files it leaves and the ones it removes.

    Modelling conventions.
    - A Python [str] is a [string]; a character is its code point in the
      range 0..255.
    - A [dict] used as a map is a [gmap], a [set] a [gset]; the iteration
      order of either is left to the library, as Python leaves the order of a
      set to the hash seed.
    - Python [int] is [Z]; [len] is a [nat].
    - The HTTP back ends and the file system are explicit; prints and the
      written artifact are threaded through a state and exception monad.
      A [backend] is any Prometheus: a request to it fails, or it is
      answered with a body that has the members the script indexes, or with
      a body whose indexing raises. A [world] is a back end that keeps to
      the HTTP API, whose answers all have the documented members; it is
      read as a [backend] wherever the script runs against it. *)

From Stdlib Require Import Ascii String ZArith Lia Permutation.
From Stdlib Require Import DecimalString DecimalZ DecimalPos DecimalFacts.
From stdpp Require Import gmap strings list fin_maps sorting.

#[local] Set Warnings "-clear-no-such-hyp".

Local Open Scope Z_scope.
Local Open Scope nat_scope.

(** ** Strings *)

Module Str.

Fixpoint take (n : nat) (s : string) : string :=
  match n, s with
  | S n', String c s' => String c (take n' s')
  | _, _ => EmptyString
  end.

Fixpoint drop (n : nat) (s : string) : string :=
  match n, s with
  | S n', String _ s' => drop n' s'
  | _, _ => s
  end.

Fixpoint forallb (p : ascii → bool) (s : string) : bool :=
  match s with
  | EmptyString => true
  | String c s' => p c && forallb p s'
  end.

(** [needle in hay] of Python. *)
Fixpoint contains (needle hay : string) : bool :=
  String.prefix needle hay ||
  match hay with
  | EmptyString => false
  | String _ hay' => contains needle hay'
  end.

(** [sep.join(parts)] of Python. *)
Fixpoint join (sep : string) (parts : list string) : string :=
  match parts with
  | [] => ""
  | [p] => p
  | p :: ps => p +:+ sep +:+ join sep ps
  end.

(** The longest prefix of [s] whose characters all satisfy [p], and what
    follows it. *)
Fixpoint span (p : ascii → bool) (s : string) : string * string :=
  match s with
  | EmptyString => (EmptyString, EmptyString)
  | String c s' =>
      if p c then let '(w, r) := span p s' in (String c w, r)
      else (EmptyString, s)
  end.

End Str.

(** ** Character classes of the two patterns *)

Definition code (c : ascii) : N := N_of_ascii c.

Definition in_range (lo hi : N) (c : ascii) : bool :=
  ((lo <=? code c) && (code c <=? hi))%N.

Definition is_lower (c : ascii) : bool := in_range 97 122 c.
Definition is_upper (c : ascii) : bool := in_range 65 90 c.
Definition is_digit (c : ascii) : bool := in_range 48 57 c.
Definition is_char (x c : ascii) : bool := Ascii.eqb c x.

(** [[a-zA-Z_:]] *)
Definition metric_first (c : ascii) : bool :=
  is_lower c || is_upper c || is_char "_" c || is_char ":" c.

(** [[a-zA-Z0-9_:]] *)
Definition metric_rest (c : ascii) : bool :=
  is_lower c || is_upper c || is_digit c || is_char "_" c || is_char ":" c.

(** [[a-zA-Z_]] *)
Definition label_first (c : ascii) : bool :=
  is_lower c || is_upper c || is_char "_" c.

(** [[a-zA-Z0-9_]] *)
Definition label_rest (c : ascii) : bool :=
  is_lower c || is_upper c || is_digit c || is_char "_" c.

(** [\s] of a [str] pattern: TAB..CR, FS..US, space, NEL and NBSP (the
    white space of Unicode below 256). *)
Definition is_space (c : ascii) : bool :=
  in_range 9 13 c || in_range 28 32 c || (code c =? 133)%N || (code c =? 160)%N.

(** ** The fragment of [re] the script uses

    Both patterns are a sequence of character classes, each taken once or
    under a greedy star, with one capture group around a prefix of the
    sequence. [match_here] is the backtracking matcher anchored at the
    head of the text: it returns how many characters each atom took in the
    first successful alternative, the star trying the longest run first. *)

Inductive atom : Type :=
  | One (p : ascii → bool)
  | Many (p : ascii → bool).

Fixpoint match_here (atoms : list atom) : string → option (list nat) :=
  match atoms with
  | [] => λ _, Some []
  | One p :: k => λ s,
      match s with
      | String c s' => if p c then cons 1 <$> match_here k s' else None
      | EmptyString => None
      end
  | Many p :: k =>
      fix many (s : string) : option (list nat) :=
        let stop := cons 0 <$> match_here k s in
        match s with
        | String c s' =>
            if p c then
              match many s' with
              | Some (n :: ns) => Some (S n :: ns)
              | _ => stop
              end
            else stop
        | EmptyString => stop
        end
  end.

Record pattern : Type := Pattern {
  pat_atoms : list atom;
  pat_group : nat    (* the capture group spans the first [pat_group] atoms *)
}.

(** [pattern.findall(line)] for a pattern with one group whose matches are
    never empty: the text is scanned from left to right, a match is tried at
    every position that the previous match does not cover, and each match
    contributes its group. [skip] counts the characters still covered. *)
Fixpoint findall_from (pat : pattern) (skip : nat) (s : string) : list string :=
  match s with
  | EmptyString => []
  | String _ s' =>
      match skip with
      | S k => findall_from pat k s'
      | O =>
          match match_here (pat_atoms pat) s with
          | Some ns =>
              Str.take (sum_list (firstn (pat_group pat) ns)) s
                :: findall_from pat (sum_list ns - 1) s'
          | None => findall_from pat 0 s'
          end
      end
  end.

Definition findall (pat : pattern) (s : string) : list string :=
  findall_from pat 0 s.

(** [metric_pattern]: the group ( [a-zA-Z_:] [a-zA-Z0-9_:]* ). *)
Definition metric_pattern : pattern :=
  Pattern [One metric_first; Many metric_rest] 2.

(** [label_pattern]: the group ( [a-zA-Z_] [a-zA-Z0-9_]* ), then \s* and
    an equals sign. *)
Definition label_pattern : pattern :=
  Pattern [One label_first; Many label_rest; Many is_space; One (is_char "=")] 2.

(** ** Numbers as text *)

(** [str(n)] of a Python [int]. *)
Definition int_str (z : Z) : string := NilZero.string_of_int (Z.to_int z).

(** [str(n)] of a length or a count. *)
Definition len_str (n : nat) : string := int_str (Z.of_nat n).

(** ** JSON values and [json.dump(obj, f, indent=2)] *)

#[local] Unset Elimination Schemes.
Inductive json : Type :=
  | JNull
  | JBool (b : bool)
  | JInt (z : Z)
  | JStr (s : string)
  | JList (items : list json)
  | JDict (members : list (string * json)).
#[local] Set Elimination Schemes.

Definition nl : string := String "010" "".
Definition dquote : string := String "034" "".
Definition backslash : string := String "092" "".

Definition hex_digit (n : N) : ascii :=
  ascii_of_N (if (n <? 10)%N then 48 + n else 87 + n).

(** [ESCAPE_DCT] and the [\uXXXX] fallback of [py_encode_basestring_ascii]:
    quote and backslash are escaped, so is every character outside
    space..tilde. *)
Definition escape_char (c : ascii) : string :=
  if is_char "034" c then backslash +:+ dquote
  else if is_char "092" c then backslash +:+ backslash
  else if is_char "010" c then backslash +:+ "n"
  else if is_char "013" c then backslash +:+ "r"
  else if is_char "009" c then backslash +:+ "t"
  else if is_char "008" c then backslash +:+ "b"
  else if is_char "012" c then backslash +:+ "f"
  else if in_range 32 126 c then String c ""
  else backslash +:+ "u00"
       +:+ String (hex_digit (code c / 16)) (String (hex_digit (code c mod 16)) "").

Fixpoint escape (s : string) : string :=
  match s with
  | EmptyString => ""
  | String c s' => escape_char c +:+ escape s'
  end.

Definition encode_str (s : string) : string := dquote +:+ escape s +:+ dquote.

Fixpoint spaces (n : nat) : string :=
  match n with
  | O => ""
  | S n' => String " " (spaces n')
  end.

(** A line break followed by the indentation of nesting depth [level]. *)
Definition newline_indent (level : nat) : string := nl +:+ spaces (2 * level).

Fixpoint dump (level : nat) (j : json) : string :=
  match j with
  | JNull => "null"
  | JBool true => "true"
  | JBool false => "false"
  | JInt z => int_str z
  | JStr s => encode_str s
  | JList [] => "[]"
  | JList items =>
      "[" +:+ newline_indent (S level)
      +:+ Str.join ("," +:+ newline_indent (S level)) (map (dump (S level)) items)
      +:+ newline_indent level +:+ "]"
  | JDict [] => "{}"
  | JDict members =>
      "{" +:+ newline_indent (S level)
      +:+ Str.join ("," +:+ newline_indent (S level))
            (map (λ kv, encode_str (fst kv) +:+ ": " +:+ dump (S level) (snd kv))
                 members)
      +:+ newline_indent level +:+ "}"
  end.

Definition dumps (j : json) : string := dump 0 j.

(** ** [json.load] *)

(** JSON white space. *)
Definition is_json_space (c : ascii) : bool :=
  is_char " " c || is_char "009" c || is_char "010" c || is_char "013" c.

Definition skip_space (s : string) : string := (Str.span is_json_space s).2.

Definition hex_value (c : ascii) : option N :=
  if is_digit c then Some (code c - 48)%N
  else if in_range 97 102 c then Some (code c - 87)%N
  else if in_range 65 70 c then Some (code c - 55)%N
  else None.

(** The character written [\uXXXX]; code points from 256 on are outside the
    character range of the model. *)
Definition unicode_escape (h1 h2 h3 h4 : ascii) : option ascii :=
  a ← hex_value h1; b ← hex_value h2; c ← hex_value h3; d ← hex_value h4;
  if ((a =? 0) && (b =? 0))%N then Some (ascii_of_N (16 * c + d)) else None.

(** The character written by a backslash and [e] ([BACKSLASH] of the
    decoder). *)
Definition simple_escape (e : ascii) : option ascii :=
  if is_char "034" e then Some "034"%char
  else if is_char "092" e then Some "092"%char
  else if is_char "/" e then Some "/"%char
  else if is_char "b" e then Some "008"%char
  else if is_char "f" e then Some "012"%char
  else if is_char "n" e then Some "010"%char
  else if is_char "r" e then Some "013"%char
  else if is_char "t" e then Some "009"%char
  else None.

(** The text of a string literal from behind its opening quote up to the
    closing quote, decoded, and what follows the closing quote. Control
    characters must be escaped (the decoder is strict). *)
Fixpoint parse_chars (s : string) : option (string * string) :=
  match s with
  | EmptyString => None
  | String c s1 =>
      if is_char "034" c then Some (EmptyString, s1)
      else if is_char "092" c then
        match s1 with
        | String e s2 =>
            if is_char "u" e then
              match s2 with
              | String h1 (String h2 (String h3 (String h4 s3))) =>
                  ch ← unicode_escape h1 h2 h3 h4;
                  '(text, rest) ← parse_chars s3;
                  Some (String ch text, rest)
              | _ => None
              end
            else
              ch ← simple_escape e;
              '(text, rest) ← parse_chars s2;
              Some (String ch text, rest)
        | EmptyString => None
        end
      else if (code c <? 32)%N then None
      else '(text, rest) ← parse_chars s1; Some (String c text, rest)
  end.

(** The digits at the head of the text as a number: a zero, or a run of
    digits that starts with another digit. *)
Definition parse_natural (s : string) : option (Z * string) :=
  let '(digits, rest) := Str.span is_digit s in
  match digits with
  | EmptyString => None
  | String d more =>
      if is_char "0" d then Some (0%Z, more +:+ rest)
      else u ← NilEmpty.uint_of_string digits; Some (Z.of_uint u, rest)
  end.

(** A fraction or an exponent behind the digits would make the literal a
    float, which the model leaves out. *)
Definition integer_only (r : Z * string) : option (Z * string) :=
  match r.2 with
  | String c _ =>
      if is_char "." c || is_char "e" c || is_char "E" c then None else Some r
  | EmptyString => Some r
  end.

(** The integer literal at the head of the text, with its optional minus
    sign. *)
Definition parse_int (s : string) : option (Z * string) :=
  match s with
  | String c s' =>
      if is_char "-" c
      then r ← parse_natural s'; integer_only ((- r.1)%Z, r.2)
      else parse_natural s ≫= integer_only
  | EmptyString => None
  end.

(** [d[k] = v] on a dict kept as the list of its items in insertion order. *)
Fixpoint dict_set (members : list (string * json)) (k : string) (v : json)
    : list (string * json) :=
  match members with
  | [] => [(k, v)]
  | (k', v') :: members' =>
      if String.eqb k k' then (k', v) :: members'
      else (k', v') :: dict_set members' k v
  end.

(** [dict(pairs)]: a later value for a key replaces the earlier one. *)
Definition dict_of_pairs (pairs : list (string * json)) : list (string * json) :=
  foldl (λ d kv, dict_set d kv.1 kv.2) [] pairs.

(** The recursive descent of the decoder. [fuel] bounds the depth of the
    calls; [loads] gives more than a text can use. [parse_value] reads the
    value at the head of the text, [parse_items] the items of an array up
    to its closing bracket, [parse_members] the pairs of an object up to its
    closing brace. *)
Fixpoint parse_value (fuel : nat) (s : string) : option (json * string) :=
  match fuel with
  | O => None
  | S fuel' =>
      match s with
      | String c s1 =>
          if is_char "034" c then
            '(text, rest) ← parse_chars s1; Some (JStr text, rest)
          else if is_char "[" c then
            match skip_space s1 with
            | String e s2 =>
                if is_char "]" e then Some (JList [], s2)
                else '(items, rest) ← parse_items fuel' (String e s2);
                     Some (JList items, rest)
            | EmptyString => None
            end
          else if is_char "{" c then
            match skip_space s1 with
            | String e s2 =>
                if is_char "}" e then Some (JDict [], s2)
                else '(pairs, rest) ← parse_members fuel' (String e s2);
                     Some (JDict (dict_of_pairs pairs), rest)
            | EmptyString => None
            end
          else if String.prefix "null" s then Some (JNull, Str.drop 4 s)
          else if String.prefix "true" s then Some (JBool true, Str.drop 4 s)
          else if String.prefix "false" s then Some (JBool false, Str.drop 5 s)
          else '(n, rest) ← parse_int s; Some (JInt n, rest)
      | EmptyString => None
      end
  end
with parse_items (fuel : nat) (s : string) : option (list json * string) :=
  match fuel with
  | O => None
  | S fuel' =>
      '(item, rest) ← parse_value fuel' s;
      match skip_space rest with
      | String c s1 =>
          if is_char "," c then
            '(items, rest') ← parse_items fuel' (skip_space s1);
            Some (item :: items, rest')
          else if is_char "]" c then Some ([item], s1)
          else None
      | EmptyString => None
      end
  end
with parse_members (fuel : nat) (s : string) : option (list (string * json) * string) :=
  match fuel with
  | O => None
  | S fuel' =>
      match s with
      | String q s1 =>
          if is_char "034" q then
            '(key, rest) ← parse_chars s1;
            match skip_space rest with
            | String c s2 =>
                if is_char ":" c then
                  '(value, rest') ← parse_value fuel' (skip_space s2);
                  match skip_space rest' with
                  | String d s3 =>
                      if is_char "," d then
                        '(pairs, rest'') ← parse_members fuel' (skip_space s3);
                        Some ((key, value) :: pairs, rest'')
                      else if is_char "}" d then Some ([(key, value)], s3)
                      else None
                  | EmptyString => None
                  end
                else None
            | EmptyString => None
            end
          else None
      | EmptyString => None
      end
  end.

(** [json.loads(text)]: one value, white space around it allowed. *)
Definition loads (text : string) : option json :=
  '(j, rest) ← parse_value (2 * String.length text + 1) (skip_space text);
  match skip_space rest with
  | EmptyString => Some j
  | String _ _ => None
  end.

(** ** Data model *)

(** One series of a metric: its label set, [__name__] included, as the
    Prometheus series API returns it. *)
Abbreviation series := (gmap string string).

Record top_item : Type := TopItem {
  item_metric : string;
  item_series_count : Z
}.

Record label_usage : Type := LabelUsage {
  cardinality : nat;
  label_in_use : bool
}.

Record MetricReport : Type := Report {
  metric : string;
  series_count : Z;
  in_use : bool;
  used_in : list string;
  labels : gmap string label_usage
}.

Definition label_usage_json (u : label_usage) : json :=
  JDict [("cardinality", JInt (Z.of_nat (cardinality u)));
         ("in_use", JBool (label_in_use u))].

(** The dict the main loop appends to [summary], as a JSON object. *)
Definition report_json (r : MetricReport) : json :=
  JDict [("metric", JStr (metric r));
         ("series_count", JInt (series_count r));
         ("in_use", JBool (in_use r));
         ("used_in", JList (JStr <$> used_in r));
         ("labels", JDict (prod_map id label_usage_json <$> map_to_list (labels r)))].

Definition summary_json (summary : list MetricReport) : json :=
  JList (report_json <$> summary).

(** *** Reading a summary back *)

(** [d.get(k)]. *)
Fixpoint dict_get (k : string) (members : list (string * json)) : option json :=
  match members with
  | [] => None
  | (k', v) :: members' => if String.eqb k k' then Some v else dict_get k members'
  end.

Definition as_str (j : json) : option string :=
  match j with JStr s => Some s | _ => None end.
Definition as_int (j : json) : option Z :=
  match j with JInt z => Some z | _ => None end.
Definition as_bool (j : json) : option bool :=
  match j with JBool b => Some b | _ => None end.
Definition as_list (j : json) : option (list json) :=
  match j with JList items => Some items | _ => None end.
Definition as_dict (j : json) : option (list (string * json)) :=
  match j with JDict members => Some members | _ => None end.

(** [[f x for x in l]], failing when [f] fails on an item. *)
Fixpoint all_of {A B} (f : A → option B) (l : list A) : option (list B) :=
  match l with
  | [] => Some []
  | x :: l' =>
      match f x, all_of f l' with
      | Some y, Some ys => Some (y :: ys)
      | _, _ => None
      end
  end.

Definition as_len (j : json) : option nat :=
  z ← as_int j; if (0 <=? z)%Z then Some (Z.to_nat z) else None.

Definition label_usage_of_json (j : json) : option label_usage :=
  members ← as_dict j;
  count ← dict_get "cardinality" members ≫= as_len;
  used ← dict_get "in_use" members ≫= as_bool;
  Some (LabelUsage count used).

Definition label_entry_of_json (kv : string * json) : option (string * label_usage) :=
  match label_usage_of_json kv.2 with
  | Some u => Some (kv.1, u)
  | None => None
  end.

Definition report_of_json (j : json) : option MetricReport :=
  members ← as_dict j;
  name ← dict_get "metric" members ≫= as_str;
  count ← dict_get "series_count" members ≫= as_int;
  used ← dict_get "in_use" members ≫= as_bool;
  source_items ← dict_get "used_in" members ≫= as_list;
  sources ← all_of as_str source_items;
  label_members ← dict_get "labels" members ≫= as_dict;
  label_list ← all_of label_entry_of_json label_members;
  Some (Report name count used sources (list_to_map label_list)).

Definition summary_of_json (j : json) : option (list MetricReport) :=
  as_list j ≫= all_of report_of_json.

(** Reading the artifact: parse the text, then rebuild the reports. *)
Definition load_summary (text : string) : option (list MetricReport) :=
  loads text ≫= summary_of_json.

(** ** The world and the effects *)

Inductive http_result (A : Type) : Type :=
  | Response (payload : A)      (* status 2xx, and what the answer holds *)
  | Failed (msg : string).      (* [requests.RequestException], its text *)
Arguments Response {A} payload.
Arguments Failed {A} msg.

(** A query file: missing, read to its end, or read up to a failure. The
    lines are what [for line in f] yields. *)
Inductive file : Type :=
  | Absent
  | Readable (lines : list string)
  | Failing (lines : list string) (err : string).

(** A Prometheus that keeps to its HTTP API: a request to it fails, or it
    is answered with the documented payload. With it, the query files. *)
Record world : Type := World {
  env_PROMETHEUS_URL : option string;
  get_healthy : http_result unit;
  get_top : nat → http_result (list top_item);
  get_series : string → http_result (list series);
  fs : string → file
}.

(** The exceptions of a run, each with its text [str(e)]. The last four
    are what the indexing of a decoded body raises when a member is
    missing, is of another type or, where a number is read, is no number;
    none of them is a [requests.RequestException]. *)
Inductive exn : Type :=
  | EnvironmentError (msg : string)
  | RequestException (msg : string)
  | KeyError (msg : string)
  | IndexError (msg : string)
  | TypeError (msg : string)
  | ValueError (msg : string).

(** The body of a 2xx answer, as the expression that indexes it finds it
    ([response.json()["data"]]): the payload, when the body has the members
    that the expression names, or the exception that the expression raises
    ([KeyError] for an object without the member, [TypeError] for a body
    that is no object). A body that is no JSON text raises, with the
    version of [requests], a [ValueError] or a [RequestException]. A body
    whose members are there with values of other types than the documented
    ones is outside the model. *)
Inductive decoded (A : Type) : Type :=
  | Shaped (payload : A)
  | Misshapen (e : exn).
Arguments Shaped {A} payload.
Arguments Misshapen {A} e.

(** Any Prometheus and the query files. The health probe only looks at the
    status; the two queries index the body of the answer. *)
Record backend : Type := Backend {
  PROMETHEUS_URL : option string;
  answer_healthy : http_result unit;
  answer_top : nat → http_result (decoded (list top_item));
  answer_series : string → http_result (decoded (list series));
  query_files : string → file
}.

(** An answer of a back end that keeps to the API. *)
Definition documented {A} (r : http_result A) : http_result (decoded A) :=
  match r with
  | Response payload => Response (Shaped payload)
  | Failed msg => Failed msg
  end.

(** A [world] is the back end whose answers all have the documented
    members. *)
Definition backend_of (w : world) : backend :=
  Backend (env_PROMETHEUS_URL w)
          (get_healthy w)
          (λ limit, documented (get_top w limit))
          (λ metric_name, documented (get_series w metric_name))
          (fs w).
Coercion backend_of : world >-> backend.

Record state : Type := State {
  stdout : list string;           (* one entry per [print] *)
  disk : gmap string string       (* files written: path to content *)
}.

Definition M (A : Type) : Type := state → (exn + A) * state.

Definition ret {A} (a : A) : M A := λ st, (inr a, st).

Definition bind {A B} (m : M A) (k : A → M B) : M B :=
  λ st, match m st with
        | (inr a, st') => k a st'
        | (inl e, st') => (inl e, st')
        end.

Definition raise {A} (e : exn) : M A := λ st, (inl e, st).

Definition print (text : string) : M unit :=
  λ st, (inr tt, State (stdout st ++ [text]) (disk st)).

Definition write_file (path content : string) : M unit :=
  λ st, (inr tt, State (stdout st) (<[path := content]> (disk st))).

(** [try: body / except <class> as e: handler e]. *)
Definition try_except {A} (body : M A) (caught : exn → bool) (handler : exn → M A) : M A :=
  λ st, match body st with
        | (inl e, st') => if caught e then handler e st' else (inl e, st')
        | r => r
        end.

#[global] Instance M_ret : MRet M := @ret.
#[global] Instance M_bind : MBind M := λ A B k m, bind m k.

(** [for x in xs: acc = body acc x], with the effects of [body]. *)
Fixpoint for_each {A B} (xs : list A) (acc : B) (body : B → A → M B) : M B :=
  match xs with
  | [] => ret acc
  | x :: xs' => acc' ← body acc x; for_each xs' acc' body
  end.

Definition is_request_exception (e : exn) : bool :=
  match e with RequestException _ => true | _ => false end.

Definition is_exception (e : exn) : bool := true.

Definition exn_text (e : exn) : string :=
  match e with
  | EnvironmentError msg | RequestException msg
  | KeyError msg | IndexError msg | TypeError msg | ValueError msg => msg
  end.

(** [requests.get(...)] with [raise_for_status]: the answer, or the
    exception of a request that failed or was answered with an error
    status. *)
Definition request {A} (r : http_result A) : M A :=
  match r with
  | Response a => ret a
  | Failed msg => raise (RequestException msg)
  end.

(** The indexing of the body of an answer, [response.json()[...]]. *)
Definition decode {A} (d : decoded A) : M A :=
  match d with
  | Shaped payload => ret payload
  | Misshapen e => raise e
  end.

(** Truth value of [os.getenv(name)]: unset and empty are both false. *)
Definition truthy (v : option string) : bool :=
  match v with
  | Some s => negb (String.eqb s "")
  | None => false
  end.

(** ** [cardinality_analysis_script.py] *)

Definition QUERIES_PATHS : list string :=
  ["results/grafana_promql_queries.txt";
   "results/grafana_specific_metric.txt";
   "results/alertmanager_promql_expressions.txt"].

Definition METRICS_SUMMARY_PATH : string := "results/metric_cardinality_summary.json".

Definition NUMBER_TOP_METRICS : nat := 10.

(** The glyphs that open some messages, as the bytes of the source text. *)
Definition SKIP_MARK : string := "‚ö†Ô∏è".
Definition ERROR_MARK : string := "‚ùå".
Definition USED_MARK : string := "‚úÖ".
Definition UNUSED_MARK : string := "‚ùå".
Definition SAVED_MARK : string := "üíæ".

Definition is_prometheus_healthy (b : backend) : M bool :=
  try_except
    (request (answer_healthy b);; mret true)
    is_request_exception
    (λ e, print ("Error connecting to Prometheus: " +:+ exn_text e);; mret false).

(** Only [requests.RequestException] is caught: what the indexing of the
    body raises leaves the function, unless it is of that class. *)
Definition fetch_top_cardinality_metrics (b : backend) (limit : nat) : M (list top_item) :=
  print ("Fetching top " +:+ len_str limit +:+ " high-cardinality metrics via PromQL...");;
  try_except
    (response ← request (answer_top b limit);
     decode response)
    is_request_exception
    (λ e, print ("Error fetching top metrics: " +:+ exn_text e);; mret []).

Definition fetch_series_for_metric (b : backend) (metric_name : string) : M (list series) :=
  try_except
    (response ← request (answer_series b metric_name);
     decode response)
    is_request_exception
    (λ e, print ("Warning: Could not fetch series for metric " +:+ metric_name
                 +:+ ": " +:+ exn_text e);;
          mret []).

(** [label_counter[label].add(value)] unless the label is [__name__]. *)
Definition count_label (label_counter : gmap string (gset string)) (kv : string * string)
    : gmap string (gset string) :=
  if decide (kv.1 ≠ "__name__")
  then <[kv.1 := default ∅ (label_counter !! kv.1) ∪ {[kv.2]}]> label_counter
  else label_counter.

(** [for label, value in series.items(): ...] *)
Definition count_series (label_counter : gmap string (gset string)) (s : series)
    : gmap string (gset string) :=
  foldl count_label label_counter (map_to_list s).

Definition label_counter_of (series_data : list series) : gmap string (gset string) :=
  foldl count_series ∅ series_data.

Definition analyze_labels (series_data : list series) : M (gmap string nat) :=
  print ("Analyzing labels for " +:+ len_str (length series_data) +:+ " series...");;
  try_except
    (let label_counter := label_counter_of series_data in
     print ("Found " +:+ len_str (size label_counter) +:+ " unique labels.");;
     mret (size <$> label_counter))
    is_exception
    (λ e, print ("Error analyzing labels: " +:+ exn_text e);; mret ∅).

(** [used_metrics[match].add(source)] *)
Definition add_metric (source : string) (used_metrics : gmap string (gset string))
    (m : string) : gmap string (gset string) :=
  <[m := default ∅ (used_metrics !! m) ∪ {[source]}]> used_metrics.

(** The body of [for line in f]. *)
Definition scan_line (source : string) (u : gmap string (gset string) * gset string)
    (line : string) : gmap string (gset string) * gset string :=
  (foldl (add_metric source) u.1 (findall metric_pattern line),
   u.2 ∪ list_to_set (findall label_pattern line)).

Definition source_of (path : string) : string :=
  if Str.contains "grafana_promql_queries.txt" path then "grafana"
  else if Str.contains "alertmanager_promql_expressions.txt" path then "alertmanager"
  else if Str.contains "specific_metric.txt" path then "specific"
  else "".

(** The body of [for path in paths]. The two accumulators are mutated in
    place, so the lines read before a failure have been counted when the
    handler prints its message. *)
Definition scan_file (b : backend) (u : gmap string (gset string) * gset string)
    (path : string) : M (gmap string (gset string) * gset string) :=
  match query_files b path with
  | Absent =>
      print (SKIP_MARK +:+ " Skipping missing query file: " +:+ path);; mret u
  | Readable lines =>
      mret (foldl (scan_line (source_of path)) u lines)
  | Failing lines err =>
      print (ERROR_MARK +:+ " Error reading " +:+ path +:+ ": " +:+ err);;
      mret (foldl (scan_line (source_of path)) u lines)
  end.

Definition extract_metrics_and_labels_from_queries (b : backend) (paths : list string)
    : M (gmap string (list string) * gset string) :=
  try_except
    (u ← for_each paths (∅, ∅) (scan_file b);
     mret (elements <$> u.1, u.2))
    is_exception
    (λ e, print ("Error extracting metrics and labels: " +:+ exn_text e);;
          mret (∅, ∅)).

(** The dict comprehension [label_usage] of [main]. *)
Definition label_usage_of (used_labels : gset string) (label_cardinality : gmap string nat)
    : gmap string label_usage :=
  map_imap (λ label count, Some (LabelUsage count (bool_decide (label ∈ used_labels))))
           label_cardinality.

Definition make_report (used_metrics : gmap string (list string)) (used_labels : gset string)
    (item : top_item) (label_cardinality : gmap string nat) : MetricReport :=
  Report (item_metric item)
         (item_series_count item)
         (bool_decide (is_Some (used_metrics !! item_metric item)))
         (default [] (used_metrics !! item_metric item))
         (label_usage_of used_labels label_cardinality).

(** The body of [for item in top_metrics]. *)
Definition analyze_metric (b : backend) (used_metrics : gmap string (list string))
    (used_labels : gset string) (summary : list MetricReport) (item : top_item)
    : M (list MetricReport) :=
  series_data ← fetch_series_for_metric b (item_metric item);
  label_cardinality ← analyze_labels series_data;
  mret (summary ++ [make_report used_metrics used_labels item label_cardinality]).

(** [sorted(l, key=key)]: the stable sort by ascending key. *)
Fixpoint insort {A} (key : A → Z) (x : A) (l : list A) : list A :=
  match l with
  | [] => [x]
  | y :: l' => if (key x <=? key y)%Z then x :: l else y :: insort key x l'
  end.

Definition sorted {A} (key : A → Z) (l : list A) : list A :=
  foldr (insort key) [] l.

Definition status_of (item : MetricReport) : string :=
  if in_use item then USED_MARK +:+ " USED" else UNUSED_MARK +:+ " UNUSED".

Definition console_line (item : MetricReport) : string :=
  metric item +:+ ": " +:+ int_str (series_count item) +:+ " series - "
  +:+ status_of item +:+ " ("
  +:+ (match used_in item with
       | [] => "not used"
       | _ => Str.join ", " (used_in item)
       end)
  +:+ ")".

Definition main (b : backend) : M unit :=
  if negb (truthy (PROMETHEUS_URL b))
  then raise (EnvironmentError "PROMETHEUS_URL must be set")
  else
    healthy ← is_prometheus_healthy b;
    if negb healthy
    then print "Prometheus is not healthy. Exiting..."
    else
      print "Prometheus is healthy. Proceeding with cardinality analysis...";;
      top_metrics ← fetch_top_cardinality_metrics b NUMBER_TOP_METRICS;
      u ← extract_metrics_and_labels_from_queries b QUERIES_PATHS;
      summary ← for_each top_metrics [] (analyze_metric b u.1 u.2);
      print (nl +:+ "High-cardinality metrics in use:");;
      for_each (sorted (λ x, - series_count x)%Z summary) tt
               (λ _ item, print (console_line item));;
      write_file METRICS_SUMMARY_PATH (dumps (summary_json summary));;
      print (nl +:+ SAVED_MARK +:+ " Saved metric summary to " +:+ METRICS_SUMMARY_PATH).

Definition start : state := State [] ∅.

(** ** Start-up of [get_all_dashboards.py] *)

Module Dashboards.

Record environ : Type := Environ {
  GRAFANA_URL : option string;
  GRAFANA_SESSION_COOKIE : option string;
  ALERTMANAGER_URL : option string;
  ALERTMANAGER_SESSION_COOKIE : option string
}.

(** The module-level [headers] sent with every Grafana request. *)
Definition headers (e : environ) : gmap string string :=
  if truthy (GRAFANA_SESSION_COOKIE e)
  then {["Cookie" := "grafana_session=" +:+ default "" (GRAFANA_SESSION_COOKIE e)]}
  else ∅.

(** The [headers] local to [get_alertmanager_metrics]. *)
Definition alertmanager_headers (e : environ) : gmap string string :=
  if truthy (ALERTMANAGER_SESSION_COOKIE e)
  then {["Cookie" := "alertmanager_session="
                     +:+ default "" (ALERTMANAGER_SESSION_COOKIE e)]}
  else ∅.

(** The alert step of [main], after the prompt was answered [answer]:
    the headers of the request it sends, if it sends one. *)
Definition alert_step (e : environ) (answer : bool) : M (option (gmap string string)) :=
  if answer
  then if negb (truthy (ALERTMANAGER_URL e))
       then raise (EnvironmentError "ALERTMANAGER_URL must be set")
       else mret (Some (alertmanager_headers e))
  else mret None.

(** The [__main__] guard in front of [main]. *)
Definition guarded {A} (e : environ) (main : M A) : M A :=
  if negb (truthy (GRAFANA_URL e)) || negb (truthy (GRAFANA_SESSION_COOKIE e))
  then raise (EnvironmentError "GRAFANA_URL and GRAFANA_SESSION_COOKIE must be set")
  else main.

(** The script from its start to the headers of its requests: the Grafana
    ones and, when the alert prompt is answered yes, the AlertManager
    ones. *)
Definition run (e : environ) (answer : bool)
    : M (gmap string string * option (gmap string string)) :=
  guarded e (am ← alert_step e answer; mret (headers e, am)).

End Dashboards.

(** ** What a run computes, as pure functions of the world

    The values and the console output of the effectful functions above;
    the run lemmas below prove that the functions produce exactly these. *)

(** What the series request of [fetch_series_for_metric] hands to the
    analysis. *)
Definition series_of (w : world) (metric_name : string) : list series :=
  match get_series w metric_name with
  | Response data => data
  | Failed _ => []
  end.

Definition fetch_series_log (w : world) (metric_name : string) : list string :=
  match get_series w metric_name with
  | Response _ => []
  | Failed msg =>
      ["Warning: Could not fetch series for metric " +:+ metric_name +:+ ": " +:+ msg]
  end.

Definition top_metrics_of (w : world) : list top_item :=
  match get_top w NUMBER_TOP_METRICS with
  | Response items => items
  | Failed _ => []
  end.

Definition top_metrics_log (w : world) : list string :=
  ("Fetching top " +:+ len_str NUMBER_TOP_METRICS +:+ " high-cardinality metrics via PromQL...")
  :: match get_top w NUMBER_TOP_METRICS with
     | Response _ => []
     | Failed msg => ["Error fetching top metrics: " +:+ msg]
     end.

Definition label_cardinality_of (series_data : list series) : gmap string nat :=
  size <$> label_counter_of series_data.

Definition analyze_labels_log (series_data : list series) : list string :=
  ["Analyzing labels for " +:+ len_str (length series_data) +:+ " series...";
   "Found " +:+ len_str (size (label_counter_of series_data)) +:+ " unique labels."].

(** The lines of a query file that take part in the extraction. *)
Definition lines_of (f : file) : list string :=
  match f with
  | Absent => []
  | Readable lines | Failing lines _ => lines
  end.

Definition scan_file_log (w : world) (path : string) : list string :=
  match fs w path with
  | Absent => [SKIP_MARK +:+ " Skipping missing query file: " +:+ path]
  | Readable _ => []
  | Failing _ err => [ERROR_MARK +:+ " Error reading " +:+ path +:+ ": " +:+ err]
  end.

(** The two accumulators after the files at [paths]. *)
Definition usage_of (w : world) (paths : list string)
    : gmap string (gset string) * gset string :=
  foldl (λ u path, foldl (scan_line (source_of path)) u (lines_of (fs w path)))
        (∅, ∅) paths.

(** MetricUsageIndex and LabelUsageSet of a run. *)
Definition used_metrics_of (w : world) : gmap string (list string) :=
  elements <$> (usage_of w QUERIES_PATHS).1.

Definition used_labels_of (w : world) : gset string :=
  (usage_of w QUERIES_PATHS).2.

Definition report_of (w : world) (item : top_item) : MetricReport :=
  make_report (used_metrics_of w) (used_labels_of w) item
              (label_cardinality_of (series_of w (item_metric item))).

(** The list [summary] at the end of the main loop. *)
Definition summary_of (w : world) : list MetricReport :=
  report_of w <$> top_metrics_of w.

(** The lines of the console digest. *)
Definition digest_of (summary : list MetricReport) : list string :=
  console_line <$> sorted (λ x, - series_count x)%Z summary.

Definition analyze_metric_log (w : world) (item : top_item) : list string :=
  fetch_series_log w (item_metric item)
  ++ analyze_labels_log (series_of w (item_metric item)).

Definition main_log (w : world) : list string :=
  ["Prometheus is healthy. Proceeding with cardinality analysis..."]
  ++ top_metrics_log w
  ++ concat (scan_file_log w <$> QUERIES_PATHS)
  ++ concat (analyze_metric_log w <$> top_metrics_of w)
  ++ [nl +:+ "High-cardinality metrics in use:"]
  ++ digest_of (summary_of w)
  ++ [nl +:+ SAVED_MARK +:+ " Saved metric summary to " +:+ METRICS_SUMMARY_PATH].

(** The verdicts of a report agree with the two usage views. *)
Definition flags_reconciled (used_metrics : gmap string (list string))
    (used_labels : gset string) (r : MetricReport) : Prop :=
  (in_use r = true ↔ metric r ∈ dom used_metrics)
  ∧ used_in r = default [] (used_metrics !! metric r)
  ∧ (metric r ∉ dom used_metrics → used_in r = [])
  ∧ map_Forall (λ l u, label_in_use u = true ↔ l ∈ used_labels) (labels r).

(** Descending by [series_count]. *)
Definition count_ge (x y : MetricReport) : Prop :=
  (series_count y ≤ series_count x)%Z.

(** [ordered] is the stable rearrangement of [summary] by descending
    [series_count]: the same reports, larger counts first, reports of equal
    count in the order they have in [summary]. *)
Definition stably_descending (summary ordered : list MetricReport) : Prop :=
  ordered ≡ₚ summary
  ∧ StronglySorted count_ge ordered
  ∧ ∀ c : Z, filter (λ r, series_count r = c) ordered
             = filter (λ r, series_count r = c) summary.

(** Every metric of the index has at least one source. *)
Definition sources_nonempty (used_metrics : gmap string (gset string)) : Prop :=
  map_Forall (λ _ sources, sources ≠ (∅ : gset string)) used_metrics.

(** Some line of the file at [path], one of [paths], has [tok] among the
    matches of [pat]. *)
Definition found_in (pat : pattern) (w : world) (paths : list string)
    (path tok : string) : Prop :=
  path ∈ paths ∧ ∃ line, line ∈ lines_of (fs w path) ∧ tok ∈ findall pat line.

(** The console line of a report, by its verdict. *)
Definition line_form (r : MetricReport) : string :=
  metric r +:+ ": " +:+ int_str (series_count r) +:+ " series - "
  +:+ (if in_use r then USED_MARK +:+ " USED" else UNUSED_MARK +:+ " UNUSED")
  +:+ " ("
  +:+ (if in_use r then Str.join ", " (used_in r) else "not used")
  +:+ ")".

(** A back end whose one top metric no query file mentions. *)
Definition probe_world : world :=
  World (Some "http://localhost:9090") (Response ())
        (λ _, Response [TopItem "debug_probe_total" 50])
        (λ _, Response [])
        (λ _, Absent).

(** A back end that ranks [a] with one series before [b] with two. *)
Definition unranked_world : world :=
  World (Some "http://localhost:9090") (Response ())
        (λ _, Response [TopItem "a" 1; TopItem "b" 2])
        (λ _, Response [])
        (λ _, Absent).

(** The texts of the shape of a group: a first character in [first], then
    characters in [rest]. *)
Definition is_name (first rest : ascii → bool) (t : string) : bool :=
  match t with
  | String c r => first c && Str.forallb rest r
  | EmptyString => false
  end.

(** The texts that the group of [metric_pattern] can capture. *)
Definition is_metric_name : string → bool := is_name metric_first metric_rest.

(** The texts that the group of [label_pattern] can capture. *)
Definition is_label_name : string → bool := is_name label_first label_rest.

(** No longer text that ends where [t] ends, after [pre], is a [name]. *)
Definition maximal_left (name : string → bool) (pre t : string) : Prop :=
  ∀ p u, pre = p +:+ u → u ≠ "" → name (u +:+ t) = false.

(** No longer text that starts where [t] starts, before [post], is a [name]. *)
Definition maximal_right (name : string → bool) (t post : string) : Prop :=
  ∀ v q, post = v +:+ q → v ≠ "" → name (t +:+ v) = false.

(** A JSON value as [json.load] builds it: no dict holds a key twice. *)
#[local] Unset Elimination Schemes.
Inductive wf_json : json → Prop :=
  | wf_null : wf_json JNull
  | wf_bool b : wf_json (JBool b)
  | wf_int z : wf_json (JInt z)
  | wf_str s : wf_json (JStr s)
  | wf_list items : Forall wf_json items → wf_json (JList items)
  | wf_dict members :
      NoDup members.*1 → Forall (λ kv, wf_json kv.2) members → wf_json (JDict members).
#[local] Set Elimination Schemes.

(** A number that ends in front of [rest] is an integer and goes no
    further. *)
Definition number_stops (rest : string) : Prop :=
  ∀ c r, rest = String c r →
    is_digit c = false ∧ is_char "." c = false
    ∧ is_char "e" c = false ∧ is_char "E" c = false.

(** The character a value starts with: not white space, and none of the
    marks that end an item. *)
Definition starts_value (c : ascii) : Prop :=
  is_json_space c = false ∧ is_char "]" c = false ∧ is_char "}" c = false.

(** [parse_value] reads [j] back from its text at every depth of
    indentation, in front of every text that a number cannot run into, with
    any fuel above twice the length of the text. *)
Definition reads_back (j : json) : Prop :=
  ∀ level rest fuel,
    number_stops rest →
    2 * String.length (dump level j) < fuel →
    parse_value fuel (dump level j +:+ rest) = Some (j, rest).

(** [m] returns [a], prints [out] and leaves the disk alone, from every
    state. *)
Definition emits {A} (m : M A) (a : A) (out : list string) : Prop :=
  ∀ st, m st = (inr a, State (stdout st ++ out) (disk st)).

(** ** Further worlds and notions of the analysis *)

(** A back end whose first query file breaks after one line. *)
Definition torn_world : world :=
  World (Some "http://localhost:9090") (Response ())
        (λ _, Response [TopItem "up" 3])
        (λ _, Response [])
        (λ path, if String.eqb path "results/grafana_promql_queries.txt"
                 then Failing ["up{job='api'}"] "bad byte" else Absent).

(** A back end that is healthy but does not answer the ranking query. *)
Definition deaf_world : world :=
  World (Some "http://localhost:9090") (Response ())
        (λ _, Failed "timeout")
        (λ _, Response [])
        (λ _, Absent).

(** A series of the job [api]. *)
Definition api_series : series := {["job" := "api"]}.

(** The values that the label [l] takes in the series. *)
Definition label_values (series_data : list series) (l : string) : gset string :=
  list_to_set (omap (λ s : series, s !! l) series_data).

(** The characters of an ASCII text file: line feed and space to tilde. *)
Definition is_plain (c : ascii) : bool := is_char "010" c || in_range 32 126 c.

(** A back end with a metric that a dashboard queries and one that no file
    mentions; of the labels of the first, a query selects on [job] and none
    on [instance]. *)
Definition mixed_world : world :=
  World (Some "http://localhost:9090") (Response ())
        (λ _, Response [TopItem "up" 2; TopItem "debug_probe_total" 50])
        (λ metric_name,
           if String.eqb metric_name "up"
           then Response [{["__name__" := "up"; "job" := "api"; "instance" := "a"]};
                          {["__name__" := "up"; "job" := "api"; "instance" := "b"]}]
           else Response [{["__name__" := "debug_probe_total"; "pod" := "p"]}])
        (λ path, if String.eqb path "results/grafana_promql_queries.txt"
                 then Readable ["Node: sum by (instance) (up{job='api'})"]
                 else Absent).

(** The report [r] is the one of the ranked item [item]: it carries the
    name and the count of the item, its verdict and its sources are those
    of that name in the index, and its labels are the labels counted in the
    series of that name, each with the verdict of the usage set. *)
Definition reconciled (w : world) (item : top_item) (r : MetricReport) : Prop :=
  metric r = item_metric item
  ∧ series_count r = item_series_count item
  ∧ (in_use r = true ↔ item_metric item ∈ dom (used_metrics_of w))
  ∧ used_in r = default [] (used_metrics_of w !! item_metric item)
  ∧ (item_metric item ∉ dom (used_metrics_of w) → used_in r = [])
  ∧ cardinality <$> labels r = label_cardinality_of (series_of w (item_metric item))
  ∧ map_Forall (λ l u, label_in_use u = true ↔ l ∈ used_labels_of w) (labels r).

(** ** Back ends that do not keep to the API *)





(** ** [get_all_dashboards.py]: dashboards, queries, prompts and files *)

Module GetAllDashboards.

(** *** Python values

    A decoded response is a [json] value; its numbers are integers, a
    response with a fraction in it is outside the model. The operations
    below are the ones the script applies to such values, with the
    exceptions that Python raises when the value has another type than the
    script expects. *)

Inductive error : Type :=
  | Raised (e : exn)        (* [EnvironmentError], [requests.RequestException] *)
  | AttributeError
  | TypeError
  | KeyError (key : string)
  | ValueError
  | OSError
  | EOFError.

(** A computation that returns or raises. *)
Definition res (A : Type) : Type := error + A.

#[global] Instance res_ret : MRet res := λ A a, inr a.
#[global] Instance res_bind : MBind res :=
  λ A B k m, match m with inl e => inl e | inr a => k a end.

(** [for x in xs: acc = body acc x] *)
Fixpoint fold_res {A B} (body : B → A → res B) (acc : B) (xs : list A) : res B :=
  match xs with
  | [] => inr acc
  | x :: xs' =>
      match body acc x with
      | inr acc' => fold_res body acc' xs'
      | inl e => inl e
      end
  end.

(** [bool(v)] *)
Definition py_truthy (v : json) : bool :=
  match v with
  | JNull => false
  | JBool b => b
  | JInt z => negb (z =? 0)%Z
  | JStr s => negb (String.eqb s "")
  | JList items => match items with [] => false | _ => true end
  | JDict members => match members with [] => false | _ => true end
  end.

(** [v.get(key, default)]: only a dict has the method. *)
Definition py_get (v : json) (key : string) (dflt : json) : res json :=
  match v with
  | JDict members => inr (default dflt (dict_get key members))
  | _ => inl AttributeError
  end.

(** [v[key]] for a [str] key: a dict without the key raises [KeyError], a
    list or a string refuses the index, the other values have no items. *)
Definition py_item (v : json) (key : string) : res json :=
  match v with
  | JDict members =>
      match dict_get key members with
      | Some x => inr x
      | None => inl (KeyError key)
      end
  | _ => inl TypeError
  end.

Fixpoint chars (s : string) : list string :=
  match s with
  | EmptyString => []
  | String c s' => String c "" :: chars s'
  end.

(** What [for x in v] iterates over: the items of a list, the keys of a
    dict, the characters of a string. *)
Definition py_iter (v : json) : res (list json) :=
  match v with
  | JList items => inr items
  | JDict members => inr (JStr <$> members.*1)
  | JStr s => inr (JStr <$> chars s)
  | _ => inl TypeError
  end.

(** [str.isprintable] of a character, for [repr]. *)
Definition is_printable (c : ascii) : bool :=
  in_range 32 126 c || (in_range 161 255 c && negb (code c =? 173)%N).

Definition repr_char (quote c : ascii) : string :=
  if Ascii.eqb c quote || is_char "092" c then String "092" (String c "")
  else if is_char "009" c then backslash +:+ "t"
  else if is_char "010" c then backslash +:+ "n"
  else if is_char "013" c then backslash +:+ "r"
  else if is_printable c then String c ""
  else backslash +:+ "x"
       +:+ String (hex_digit (code c / 16)) (String (hex_digit (code c mod 16)) "").

Fixpoint repr_chars (quote : ascii) (s : string) : string :=
  match s with
  | EmptyString => ""
  | String c s' => repr_char quote c +:+ repr_chars quote s'
  end.

(** [repr(s)] of a [str]: in single quotes, unless the text holds a single
    quote and no double quote. *)
Definition repr_str (s : string) : string :=
  let quote : ascii :=
    if Str.contains "'" s && negb (Str.contains dquote s)
    then "034"%char else "'"%char in
  String quote (repr_chars quote s) +:+ String quote "".

(** [repr(v)] *)
Fixpoint py_repr (v : json) : string :=
  match v with
  | JNull => "None"
  | JBool true => "True"
  | JBool false => "False"
  | JInt z => int_str z
  | JStr s => repr_str s
  | JList items => "[" +:+ Str.join ", " (map py_repr items) +:+ "]"
  | JDict members =>
      "{" +:+ Str.join ", " (map (λ kv, repr_str (fst kv) +:+ ": " +:+ py_repr (snd kv))
                                 members)
      +:+ "}"
  end.

(** [str(v)], which is what an f-string puts in place of [{v}]. *)
Definition py_str (v : json) : string :=
  match v with
  | JStr s => s
  | _ => py_repr v
  end.

(** [s.rstrip(c)] for a one-character argument. *)
Fixpoint rstrip (c : ascii) (s : string) : string :=
  match s with
  | EmptyString => ""
  | String a s' =>
      match rstrip c s' with
      | EmptyString => if Ascii.eqb a c then "" else String a ""
      | r => String a r
      end
  end.

(** [c.lower()] of a character below 256. *)
Definition lower_char (c : ascii) : ascii :=
  if is_upper c || ((in_range 192 222 c) && negb (code c =? 215)%N)
  then ascii_of_N (code c + 32) else c.

(** [s.lower()] *)
Fixpoint lower (s : string) : string :=
  match s with
  | EmptyString => ""
  | String c s' => String (lower_char c) (lower s')
  end.

(** The order of [str]: by code point, a proper prefix first. *)
Fixpoint str_leb (s t : string) : bool :=
  match s, t with
  | EmptyString, _ => true
  | String _ _, EmptyString => false
  | String a s', String b t' =>
      if (code a <? code b)%N then true
      else if (code b <? code a)%N then false
      else str_leb s' t'
  end.

(** [sorted(l)] for a list of [str]. *)
Fixpoint insort_str (x : string) (l : list string) : list string :=
  match l with
  | [] => [x]
  | y :: l' => if str_leb x y then x :: l else y :: insort_str x l'
  end.

Definition sorted_str (l : list string) : list string := foldr insort_str [] l.

(** *** [extract_queries] *)

(** The body of [for target in targets]. *)
Definition scan_target (dashboard_json : json) (queries : list string) (target : json)
    : res (list string) :=
  expr ← py_get target "expr" JNull;
  if py_truthy expr then
    dashboard ← py_item dashboard_json "dashboard";
    title ← py_item dashboard "title";
    mret (queries ++ [py_str title +:+ ": " +:+ py_str expr])
  else mret queries.

(** The body of [for panel in panels]. *)
Definition scan_panel (dashboard_json : json) (queries : list string) (panel : json)
    : res (list string) :=
  targets ← py_get panel "targets" (JList []);
  items ← py_iter targets;
  fold_res (scan_target dashboard_json) queries items.

Definition extract_queries (dashboard_json : json) : res (list string) :=
  dashboard ← py_get dashboard_json "dashboard" (JDict []);
  panels ← py_get dashboard "panels" (JList []);
  items ← py_iter panels;
  fold_res (scan_panel dashboard_json) [] items.

(** *** The world of the script *)

(** The configuration, the answers of the HTTP back ends to a request, by
    URL and headers (a decoded payload, or a [requests.RequestException]),
    and what the lines of [extract_promql_expression] make of a generator
    URL: their URL parsing and percent decoding are not modelled. *)
Record site : Type := Site {
  environment : Dashboards.environ;
  http_get : string → gmap string string → http_result json;
  promql_of : json → res (option string)
}.

(** The console, the keyboard and the file system. Paths are texts: a
    directory is known by the path it was made with, a regular file by the
    path it was written at. A file can be written unless a directory has
    its path, and a directory made unless a regular file has its path;
    links, permissions and missing parent directories are outside the
    model. *)
Record host : Type := Host {
  console : list string;          (* one entry per [print] and per prompt *)
  typed : list string;            (* the lines that [input] has yet to read *)
  folders : gset string;
  stored : gmap string string     (* regular files: path to content *)
}.

Definition D (A : Type) : Type := host → res A * host.

Definition ret {A} (a : A) : D A := λ st, (inr a, st).

Definition bind {A B} (m : D A) (k : A → D B) : D B :=
  λ st, match m st with
        | (inr a, st') => k a st'
        | (inl e, st') => (inl e, st')
        end.

#[global] Instance D_ret : MRet D := @ret.
#[global] Instance D_bind : MBind D := λ A B k m, bind m k.

Definition raise {A} (e : error) : D A := λ st, (inl e, st).

(** A computation without effects, its exception included. *)
Definition lift {A} (r : res A) : D A := λ st, (r, st).

(** [try: body / except requests.RequestException as e: handler str(e)] *)
Definition try_request {A} (body : D A) (handler : string → D A) : D A :=
  λ st, match body st with
        | (inl (Raised (RequestException msg)), st') => handler msg st'
        | r => r
        end.

(** [for x in xs: acc = body acc x], with the effects of [body]. *)
Fixpoint for_each {A B} (xs : list A) (acc : B) (body : B → A → D B) : D B :=
  match xs with
  | [] => ret acc
  | x :: xs' => acc' ← body acc x; for_each xs' acc' body
  end.

Definition print (text : string) : D unit :=
  λ st, (inr tt, Host (console st ++ [text]) (typed st) (folders st) (stored st)).

(** [input(prompt)]: the prompt is shown, then a line is read; at the end
    of the input [EOFError] is raised. *)
Definition input (prompt : string) : D string :=
  λ st, match typed st with
        | line :: rest =>
            (inr line, Host (console st ++ [prompt]) rest (folders st) (stored st))
        | [] =>
            (inl EOFError, Host (console st ++ [prompt]) [] (folders st) (stored st))
        end.

(** [os.makedirs(path, exist_ok=True)]: a regular file in the way is an
    error. *)
Definition makedirs (path : string) : D unit :=
  λ st, if decide (path ∈ dom (stored st)) then (inl OSError, st)
        else (inr tt, Host (console st) (typed st) (folders st ∪ {[path]}) (stored st)).

(** [with open(path, "w") as f: f.write(content)]: a directory in the way
    is an error. *)
Definition write_file (path content : string) : D unit :=
  λ st, if decide (path ∈ folders st) then (inl OSError, st)
        else (inr tt, Host (console st) (typed st) (folders st)
                           (<[path := content]> (stored st))).

(** [os.path.exists(path)] *)
Definition path_exists (path : string) : D bool :=
  λ st, (inr (bool_decide (path ∈ folders st ∨ path ∈ dom (stored st))), st).

(** [os.path.isfile(path)] *)
Definition isfile (path : string) : D bool :=
  λ st, (inr (bool_decide (path ∈ dom (stored st))), st).

(** [os.remove(path)] *)
Definition remove (path : string) : D unit :=
  λ st, if decide (path ∈ dom (stored st))
        then (inr tt, Host (console st) (typed st) (folders st) (delete path (stored st)))
        else (inl OSError, st).

(** The name under which [path] is listed in [dir], if it lies directly in
    it. *)
Definition entry_of (dir path : string) : option string :=
  if String.prefix (dir +:+ "/") path then
    let name := Str.drop (String.length dir + 1) path in
    if String.eqb name "" || Str.contains "/" name then None else Some name
  else None.

(** [os.listdir(path)], in the order the system gives. *)
Definition listdir (path : string) : D (list string) :=
  λ st, if decide (path ∈ folders st)
        then (inr (omap (entry_of path) (elements (folders st ∪ dom (stored st)))), st)
        else (inl OSError, st).

(** [requests.get(url, headers=headers)] with [raise_for_status] and
    [response.json()]. *)
Definition get (w : site) (url : string) (headers : gmap string string) : D json :=
  match http_get w url headers with
  | Response payload => ret payload
  | Failed msg => raise (Raised (RequestException msg))
  end.

(** [url.rstrip('/')] of a configured URL; [None] has no such method. *)
Definition rstrip_url (url : option string) : res string :=
  match url with
  | Some u => inr (rstrip "/" u)
  | None => inl AttributeError
  end.

(** *** The script *)

Definition FOLDER_FOR_RESULTS : string := "results".
Definition DASHBOARDS_FILE : string := "dashboards.json".
Definition SPECIFIC_METRIC : string := "grafana_specific_metric.txt".
Definition OUTPUT_DIR : string := "grafana_dashboards".
Definition QUERY_FILE : string := "grafana_promql_queries.txt".
Definition ALERT_MANAGER_FILE : string := "alertmanager_promql_expressions.txt".
Definition ALERTS_FILE : string := "alertmanager_alerts.json".

(** The glyphs that open some messages, as the bytes of the source text. *)
Definition CHECK_MARK : string := "✅".
Definition CROSS_MARK : string := "❌".
Definition WARNING_MARK : string := "⚠️".
Definition DISK_MARK : string := "💾".

Definition load_dashboard_metadata (w : site) : D json :=
  base ← lift (rstrip_url (Dashboards.GRAFANA_URL (environment w)));
  dashboards ← get w (base +:+ "/api/search") (Dashboards.headers (environment w));
  write_file (FOLDER_FOR_RESULTS +:+ "/" +:+ DASHBOARDS_FILE) (dumps dashboards);;
  print (CHECK_MARK +:+ " Saved dashboards metadata to " +:+ DASHBOARDS_FILE);;
  ret dashboards.

Definition fetch_specific_dashboard (w : site) (uid : json) : D json :=
  base ← lift (rstrip_url (Dashboards.GRAFANA_URL (environment w)));
  get w (base +:+ "/api/dashboards/uid/" +:+ py_str uid)
      (Dashboards.headers (environment w)).

(** [re.match(pattern, s)] and its group: a match is tried at the head of
    the text only. *)
Definition match_group (pat : pattern) (s : string) : option string :=
  ns ← match_here (pat_atoms pat) s;
  Some (Str.take (sum_list (firstn (pat_group pat) ns)) s).

(** The lines that this function shares with [extract_promql_expression]
    are [promql_of]; what follows them is the match at the head of the
    expression. *)
Definition extract_metric_from_generator_url (w : site) (generator_url : json)
    : res (option string) :=
  promql_expr ← promql_of w generator_url;
  match promql_expr with
  | Some expr => mret (match_group metric_pattern expr)
  | None => mret None
  end.

Definition extract_promql_expression (w : site) (generator_url : json)
    : res (option string) :=
  promql_of w generator_url.

(** The body of [for alert in alerts]. *)
Definition collect_expression (w : site) (expressions_set : gset string) (alert : json)
    : res (gset string) :=
  generator_url ← py_get alert "generatorURL" (JStr "");
  expr ← extract_promql_expression w generator_url;
  match expr with
  | Some e => if String.eqb e "" then mret expressions_set
              else mret (expressions_set ∪ {[e]})
  | None => mret expressions_set
  end.

Definition get_alertmanager_metrics (w : site) (alertmanager_url : string) : D unit :=
  alerts ← get w (rstrip "/" alertmanager_url +:+ "/api/v2/alerts")
               (Dashboards.alertmanager_headers (environment w));
  write_file ALERTS_FILE (dumps alerts);;
  print (CHECK_MARK +:+ " Saved raw AlertManager alerts to alertmanager_alerts.json");;
  items ← lift (py_iter alerts);
  expressions_set ← lift (fold_res (collect_expression w) ∅ items);
  if decide (expressions_set ≠ ∅) then
    write_file (FOLDER_FOR_RESULTS +:+ "/" +:+ ALERT_MANAGER_FILE)
               (Str.join (nl +:+ nl) (sorted_str (elements expressions_set)));;
    print (CHECK_MARK
           +:+ " Full PromQL expressions written to alertmanager_promql_expressions.txt")
  else print (WARNING_MARK +:+ " No PromQL expressions found in alerts.").

(** The body of [for filename in os.listdir(OUTPUT_DIR)]. *)
Definition remove_if_file (_ : unit) (filename : string) : D unit :=
  let file_path := OUTPUT_DIR +:+ "/" +:+ filename in
  regular ← isfile file_path;
  if (regular : bool) then remove file_path else ret tt.

Definition clean_up_temp_files : D unit :=
  found ← path_exists OUTPUT_DIR;
  (if (found : bool) then
     names ← listdir OUTPUT_DIR;
     for_each names tt remove_if_file;;
     print (CHECK_MARK +:+ " Cleaned up folder: " +:+ OUTPUT_DIR)
   else print (WARNING_MARK +:+ " Folder does not exist: " +:+ OUTPUT_DIR));;
  found ← path_exists ALERTS_FILE;
  if (found : bool) then
    remove ALERTS_FILE;;
    print (CHECK_MARK +:+ " Cleaned up file: alertmanager_alerts.json")
  else ret tt.

(** The body of [for dash in dashboards]. *)
Definition fetch_step (w : site) (all_queries : list string) (dash : json)
    : D (list string) :=
  uid ← lift (py_item dash "uid");
  title ← lift (py_item dash "title");
  print ("Fetching dashboard: " +:+ py_str title +:+ " (UID: " +:+ py_str uid +:+ ")");;
  try_request
    (dashboard_json ← fetch_specific_dashboard w uid;
     write_file (OUTPUT_DIR +:+ "/" +:+ py_str uid +:+ ".json") (dumps dashboard_json);;
     queries ← lift (extract_queries dashboard_json);
     ret (all_queries ++ queries))
    (λ e, print (CROSS_MARK +:+ " Failed to fetch " +:+ py_str title +:+ ": " +:+ e);;
          ret all_queries).

(** [main] from its start to the end of the loop over the dashboards. *)
Definition gather (w : site) : D (list string) :=
  makedirs OUTPUT_DIR;;
  makedirs FOLDER_FOR_RESULTS;;
  dashboards ← load_dashboard_metadata w;
  items ← lift (py_iter dashboards);
  for_each items [] (fetch_step w).

(** The question about a specific metric and what follows from the
    answer. *)
Definition specific_metric_step (all_queries : list string) : D unit :=
  specific_metric ← input "Do you want to get a specific metric from the queries? (y/n): ";
  if String.eqb (lower specific_metric) "y" then
    metric_name ← input "Enter the metric name: ";
    let filtered_queries := filter (λ query, Str.contains metric_name query = true)
                                   all_queries in
    match filtered_queries with
    | _ :: _ =>
        print ("Found " +:+ len_str (length filtered_queries)
               +:+ " queries with metric '" +:+ metric_name +:+ "':");;
        write_file (FOLDER_FOR_RESULTS +:+ "/" +:+ SPECIFIC_METRIC)
                   (Str.join nl filtered_queries);;
        print (DISK_MARK +:+ " Saved to " +:+ SPECIFIC_METRIC)
    | [] => print ("No queries found with metric '" +:+ metric_name +:+ "'.")
    end
  else ret tt.

(** The question about AlertManager and what follows from the answer. *)
Definition alert_manager_step (w : site) : D unit :=
  alert_manager ← input "Do you want to get alerts from AlertManager? (y/n): ";
  if String.eqb (lower alert_manager) "y" then
    if negb (truthy (Dashboards.ALERTMANAGER_URL (environment w)))
    then raise (Raised (EnvironmentError "ALERTMANAGER_URL must be set"))
    else get_alertmanager_metrics w (default "" (Dashboards.ALERTMANAGER_URL (environment w)))
  else ret tt.

(** [main] from the writing of the query file to its end. *)
Definition conclude (w : site) (all_queries : list string) : D unit :=
  write_file (FOLDER_FOR_RESULTS +:+ "/" +:+ QUERY_FILE) (Str.join nl all_queries);;
  print (nl +:+ CHECK_MARK +:+ " Extracted " +:+ len_str (length all_queries)
         +:+ " PromQL queries.");;
  print (DISK_MARK +:+ " Saved to " +:+ QUERY_FILE);;
  specific_metric_step all_queries;;
  alert_manager_step w;;
  clean_up_temp_files.

Definition main (w : site) : D unit :=
  all_queries ← gather w;
  conclude w all_queries.

(** *** What a run computes *)

(** The title that [extract_queries] writes in front of each query. *)
Definition title_of (dashboard_json : json) : res json :=
  dashboard ← py_item dashboard_json "dashboard";
  py_item dashboard "title".

(** The [expr] of a target, if it counts: a target without one, or with an
    empty or zero one, gives none. *)
Definition shown_expr (target : json) : option json :=
  match target with
  | JDict members =>
      let expr := default JNull (dict_get "expr" members) in
      if py_truthy expr then Some expr else None
  | _ => None
  end.

(** The expressions that a panel shows, in the order of its targets. *)
Definition panel_exprs (panel : json) : list json :=
  match panel with
  | JDict members =>
      match dict_get "targets" members with
      | Some (JList targets) => omap shown_expr targets
      | _ => []
      end
  | _ => []
  end.

Definition is_dict (v : json) : Prop := ∃ members, v = JDict members.

(** A panel as Grafana sends it: an object whose targets, if it has any,
    are a list of objects. *)
Definition plain_panel (panel : json) : Prop :=
  ∃ members, panel = JDict members
    ∧ (dict_get "targets" members = None
       ∨ ∃ targets, dict_get "targets" members = Some (JList targets)
                    ∧ Forall is_dict targets).

(** The value at [key] of an entry of the listing. *)
Definition field (key : string) (v : json) : json :=
  match py_item v key with
  | inr x => x
  | inl _ => JNull
  end.

(** The answer to the request that [fetch_specific_dashboard] sends for an
    entry of the listing. *)
Definition answer_for (w : site) (dash : json) : http_result json :=
  http_get w (rstrip "/" (default "" (Dashboards.GRAFANA_URL (environment w)))
              +:+ "/api/dashboards/uid/" +:+ py_str (field "uid" dash))
           (Dashboards.headers (environment w)).

(** Where the loop keeps the dashboard of an entry. *)
Definition dump_path (dash : json) : string :=
  OUTPUT_DIR +:+ "/" +:+ py_str (field "uid" dash) +:+ ".json".

Definition queries_of (w : site) (dash : json) : list string :=
  match answer_for w dash with
  | Response dashboard_json =>
      match extract_queries dashboard_json with
      | inr queries => queries
      | inl _ => []
      end
  | Failed _ => []
  end.

Definition fetch_log (w : site) (dash : json) : list string :=
  ("Fetching dashboard: " +:+ py_str (field "title" dash)
   +:+ " (UID: " +:+ py_str (field "uid" dash) +:+ ")")
  :: match answer_for w dash with
     | Response _ => []
     | Failed msg =>
         [CROSS_MARK +:+ " Failed to fetch " +:+ py_str (field "title" dash)
          +:+ ": " +:+ msg]
     end.

Definition keep_dump (w : site) (files : gmap string string) (dash : json)
    : gmap string string :=
  match answer_for w dash with
  | Response dashboard_json => <[dump_path dash := dumps dashboard_json]> files
  | Failed _ => files
  end.

(** An entry of the listing that the loop gets through: it has a uid and a
    title, and the queries of its dashboard, if that is fetched, can be
    extracted. *)
Definition listed (w : site) (dash : json) : Prop :=
  (∃ uid, py_item dash "uid" = inr uid)
  ∧ (∃ title, py_item dash "title" = inr title)
  ∧ ∀ dashboard_json, answer_for w dash = Response dashboard_json →
      ∃ queries, extract_queries dashboard_json = inr queries.

(** The folders that the model knows lie in the working directory, and none
    has the name of the alerts file. *)
Definition plain_folders (st : host) : Prop :=
  (ALERTS_FILE ∉ folders st)
  ∧ ∀ path, path ∈ folders st → Str.contains "/" path = false.

(** Nothing is in the way of the two folders and of the files of a run. *)
Definition ready (st : host) : Prop :=
  (OUTPUT_DIR ∉ dom (stored st))
  ∧ (FOLDER_FOR_RESULTS ∉ dom (stored st))
  ∧ plain_folders st.

Definition DASHBOARDS_PATH : string := FOLDER_FOR_RESULTS +:+ "/" +:+ DASHBOARDS_FILE.
Definition QUERY_PATH : string := FOLDER_FOR_RESULTS +:+ "/" +:+ QUERY_FILE.
Definition SPECIFIC_PATH : string := FOLDER_FOR_RESULTS +:+ "/" +:+ SPECIFIC_METRIC.
Definition EXPRESSIONS_PATH : string := FOLDER_FOR_RESULTS +:+ "/" +:+ ALERT_MANAGER_FILE.

(** The console and the files after the loop over the entries [dashes] of
    the listing [dashboards]. *)
Definition gathered (w : site) (dashboards : json) (dashes : list json) (st : host)
    : host :=
  Host (console st
        ++ [CHECK_MARK +:+ " Saved dashboards metadata to " +:+ DASHBOARDS_FILE]
        ++ concat (fetch_log w <$> dashes))
       (typed st)
       (folders st ∪ {[OUTPUT_DIR]} ∪ {[FOLDER_FOR_RESULTS]})
       (foldl (keep_dump w) (<[DASHBOARDS_PATH := dumps dashboards]> (stored st)) dashes).

(** The files that [clean_up_temp_files] leaves: all but the regular files
    directly in the output folder and the alerts file. *)
Definition swept (files : gmap string string) : gmap string string :=
  filter (λ kv, entry_of OUTPUT_DIR kv.1 = None ∧ kv.1 ≠ ALERTS_FILE) files.

(** A yes to a question of the script. *)
Definition yes (answer : string) : Prop := answer = "y" ∨ answer = "Y".

(** The lines that the question about a specific metric takes from the
    keyboard: the answer and, after a yes, the name of the metric. *)
Definition specific_answers (answer metric_name : string) : list string :=
  if String.eqb (lower answer) "y" then [answer; metric_name] else [answer].

(** [needle] is a part of [hay]. *)
Definition occurs_in (needle hay : string) : Prop :=
  ∃ pre post, hay = pre +:+ needle +:+ post.

(** [n] times the character [c]. *)
Fixpoint run_of (c : ascii) (n : nat) : string :=
  match n with
  | O => ""
  | S n' => String c (run_of c n')
  end.

(** The second text is greater in the order of [str]. *)
Definition str_lt (s t : string) : Prop := str_leb s t = true ∧ s ≠ t.

(** *** Sample inputs *)

(** The panels of a dashboard with one panel, which shows [up]. *)
Definition sample_panels : list json :=
  [JDict [("targets", JList [JDict [("expr", JStr "up")]])]].

(** A row, which nests a panel of its own and has no targets. *)
Definition sample_row : list (string * json) :=
  [("type", JStr "row");
   ("panels", JList [JDict [("targets", JList [JDict [("expr", JStr "hidden")]])]])].

Definition sample_dashboard : list (string * json) :=
  [("title", JStr "A"); ("panels", JList sample_panels)].

Definition sample_dashboard_with_row : list (string * json) :=
  [("title", JStr "A"); ("panels", JList (JDict sample_row :: sample_panels))].

(** What Grafana answers when asked for the sample dashboard. *)
Definition sample_answer : json := JDict [("dashboard", JDict sample_dashboard)].

(** A dashboard whose panels are [null]. *)
Definition dashboard_without_panels : json :=
  JDict [("dashboard", JDict [("title", JStr "A"); ("panels", JNull)])].

Definition sample_listing : json :=
  JList [JDict [("uid", JStr "a"); ("title", JStr "A")];
         JDict [("uid", JStr "b"); ("title", JStr "B")]].

(** The link of an alert to the graph of its expression [up == 0]. *)
Definition sample_generator_url : string :=
  "http://prometheus:9090/graph?g0.expr=up+%3D%3D+0&g0.tab=1".

Definition sample_alerts : json :=
  JList [JDict [("generatorURL", JStr sample_generator_url)]; JDict []].

(** A Grafana at [http://localhost:3000/] that lists the dashboards [a] and
    [b], answers [about_a] when asked for [a] and fails for [b], and an
    AlertManager with one alert that has an expression. *)
Definition site_answering (about_a : http_result json) : site :=
  Site (Dashboards.Environ (Some "http://localhost:3000/") (Some "token") None None)
       (λ url _,
          if String.eqb url "http://localhost:3000/api/search"
          then Response sample_listing
          else if String.eqb url "http://localhost:3000/api/dashboards/uid/a"
          then about_a
          else if String.eqb url "http://localhost:9093/api/v2/alerts"
          then Response sample_alerts
          else Failed "404")
       (λ generator_url,
          match generator_url with
          | JStr url =>
              if String.eqb url sample_generator_url then inr (Some "up == 0") else inr None
          | _ => inr None
          end).

Definition sample_site : site := site_answering (Response sample_answer).

Definition broken_site : site := site_answering (Response dashboard_without_panels).

(** The sample site with the URL of its AlertManager configured. *)
Definition alerting_site : site :=
  Site (Dashboards.Environ (Some "http://localhost:3000/") (Some "token")
                           (Some "http://localhost:9093/") None)
       (http_get sample_site) (promql_of sample_site).

(** A Grafana that cannot be reached. *)
Definition offline_site : site :=
  Site (Dashboards.Environ (Some "http://localhost:3000/") (Some "token") None None)
       (λ _ _, Failed "offline")
       (λ _, inr None).

(** An empty working directory, and [lines] at the keyboard. *)
Definition host_typing (lines : list string) : host := Host [] lines ∅ ∅.

(** A working directory after an earlier run that was cut short. *)
Definition littered_host : host :=
  Host [] [] {[OUTPUT_DIR]}
       (<[OUTPUT_DIR +:+ "/a.json" := "{}"]>
          (<[ALERTS_FILE := "[]"]> (<[QUERY_PATH := "A: up"]> ∅))).

End GetAllDashboards.

(** * Properties *)

(** ** The monad *)

Section monad_laws.
Context {A B : Type}.

Lemma emits_ret (a : A) : emits (mret a) a [].
Proof. intros [o d]. unfold mret, M_ret, ret. simpl. by rewrite app_nil_r. Qed.

Lemma emits_bind (m : M A) (k : A → M B) a b o1 o2 :
  emits m a o1 → emits (k a) b o2 → emits (m ≫= k) b (o1 ++ o2).
Proof.
  intros Hm Hk st. unfold mbind, M_bind, bind. rewrite Hm, Hk. simpl.
  by rewrite app_assoc.
Qed.

Lemma emits_try (body : M A) caught handler a o :
  emits body a o → emits (try_except body caught handler) a o.
Proof. intros Hb st. unfold try_except. by rewrite Hb. Qed.

Lemma emits_request_ok (a : A) : emits (request (Response a)) a [].
Proof. apply emits_ret. Qed.

Lemma emits_decode_ok (a : A) : emits (decode (Shaped a)) a [].
Proof. apply emits_ret. Qed.

Lemma emits_request_failed msg (handler : exn → M A) a o :
  emits (handler (RequestException msg)) a o →
  emits (try_except (request (Failed msg)) is_request_exception handler) a o.
Proof. intros Hh st. unfold try_except. simpl. apply Hh. Qed.

(** A request that fails in front of the indexing of the body. *)
Lemma emits_answer_failed msg (k : B → M A) (handler : exn → M A) a o :
  emits (handler (RequestException msg)) a o →
  emits (try_except (request (Failed msg) ≫= k) is_request_exception handler) a o.
Proof. intros Hh st. unfold try_except. simpl. apply Hh. Qed.

End monad_laws.

Lemma emits_print text : emits (print text) () [text].
Proof. by intros [o d]. Qed.

Lemma emits_for_each {A B} (body : B → A → M B) (f : B → A → B) (log : A → list string)
    (xs : list A) (acc : B) :
  (∀ acc x, emits (body acc x) (f acc x) (log x)) →
  emits (for_each xs acc body) (foldl f acc xs) (concat (log <$> xs)).
Proof.
  intros Hbody. revert acc. induction xs as [|x xs IH]; intros acc; simpl.
  - apply emits_ret.
  - eapply emits_bind; [apply Hbody | apply IH].
Qed.

Lemma emits_proper {A} (m : M A) a a' o o' :
  emits m a o → a = a' → o = o' → emits m a' o'.
Proof. by intros ? <- <-. Qed.

(** Runs a straight-line monadic term, leaving its value and output to be
    compared with the expected ones. *)
Ltac emits_run :=
  repeat match goal with
         | |- emits (_ ≫= _) _ _ => eapply emits_bind
         | |- emits (mret _) _ _ => apply emits_ret
         | |- emits (print _) _ _ => apply emits_print
         | |- emits (request (Response _)) _ _ => apply emits_request_ok
         | |- emits (decode (Shaped _)) _ _ => apply emits_decode_ok
         | |- emits (try_except _ _ _) _ _ => apply emits_try
         end.

Ltac emits_by tac :=
  eapply emits_proper; [emits_run; tac | try reflexivity | simpl; rewrite ?app_nil_r; try reflexivity].

(** ** Run lemmas of the script's functions *)

Lemma fetch_series_for_metric_emits (w : world) metric_name :
  emits (fetch_series_for_metric w metric_name)
        (series_of w metric_name) (fetch_series_log w metric_name).
Proof.
  unfold fetch_series_for_metric, series_of, fetch_series_log.
  cbn [answer_series backend_of].
  destruct (get_series w metric_name) as [data|msg]; cbn [documented].
  - emits_by idtac.
  - apply emits_answer_failed. emits_by idtac.
Qed.

Lemma fetch_top_cardinality_metrics_emits (w : world) :
  emits (fetch_top_cardinality_metrics w NUMBER_TOP_METRICS)
        (top_metrics_of w) (top_metrics_log w).
Proof.
  unfold fetch_top_cardinality_metrics, top_metrics_of, top_metrics_log.
  cbn [answer_top backend_of].
  destruct (get_top w NUMBER_TOP_METRICS) as [items|msg]; cbn [documented].
  - emits_by idtac.
  - eapply emits_proper;
      [eapply emits_bind; [apply emits_print|];
       apply emits_answer_failed; emits_run | reflexivity | reflexivity].
Qed.

Lemma analyze_labels_emits series_data :
  emits (analyze_labels series_data)
        (label_cardinality_of series_data) (analyze_labels_log series_data).
Proof. unfold analyze_labels. emits_by idtac. Qed.

Lemma scan_file_emits (w : world) u path :
  emits (scan_file w u path)
        (foldl (scan_line (source_of path)) u (lines_of (fs w path)))
        (scan_file_log w path).
Proof.
  unfold scan_file, scan_file_log. cbn [query_files backend_of].
  destruct (fs w path); emits_by idtac.
Qed.

Lemma extract_metrics_and_labels_from_queries_emits (w : world) paths :
  emits (extract_metrics_and_labels_from_queries w paths)
        (elements <$> (usage_of w paths).1, (usage_of w paths).2)
        (concat (scan_file_log w <$> paths)).
Proof.
  unfold extract_metrics_and_labels_from_queries.
  eapply emits_proper.
  - apply emits_try. eapply emits_bind; [|apply emits_ret].
    apply (emits_for_each (scan_file w)
             (λ u path, foldl (scan_line (source_of path)) u (lines_of (fs w path)))
             (scan_file_log w)).
    intros. apply scan_file_emits.
  - reflexivity.
  - by rewrite app_nil_r.
Qed.

Lemma analyze_metric_emits (w : world) used_metrics used_labels summary item :
  emits (analyze_metric w used_metrics used_labels summary item)
        (summary ++ [make_report used_metrics used_labels item
                       (label_cardinality_of (series_of w (item_metric item)))])
        (analyze_metric_log w item).
Proof.
  unfold analyze_metric, analyze_metric_log.
  eapply emits_proper.
  - eapply emits_bind; [apply fetch_series_for_metric_emits|].
    eapply emits_bind; [apply analyze_labels_emits|apply emits_ret].
  - reflexivity.
  - by rewrite app_nil_r.
Qed.

Lemma foldl_snoc_fmap {A B} (f : A → B) (xs : list A) (acc : list B) :
  foldl (λ acc x, acc ++ [f x]) acc xs = acc ++ (f <$> xs).
Proof.
  revert acc. induction xs as [|x xs IH]; intros acc; simpl.
  - by rewrite app_nil_r.
  - by rewrite IH, <- app_assoc.
Qed.

Lemma summary_loop_emits (w : world) :
  emits (for_each (top_metrics_of w) []
           (analyze_metric w (used_metrics_of w) (used_labels_of w)))
        (summary_of w)
        (concat (analyze_metric_log w <$> top_metrics_of w)).
Proof.
  eapply emits_proper.
  - apply (emits_for_each _ (λ acc item, acc ++ [report_of w item]) (analyze_metric_log w)).
    intros. apply analyze_metric_emits.
  - by rewrite foldl_snoc_fmap.
  - reflexivity.
Qed.

Lemma digest_loop_emits (items : list MetricReport) :
  emits (for_each items () (λ _ item, print (console_line item)))
        () (console_line <$> items).
Proof.
  eapply emits_proper.
  - apply (emits_for_each _ (λ _ _, ()) (λ item, [console_line item])).
    intros. apply emits_print.
  - by destruct (foldl _ _ _).
  - induction items; simpl; [done|by f_equal].
Qed.

Lemma run_bind {A B} (m : M A) (k : A → M B) a o st :
  emits m a o → (m ≫= k) st = k a (State (stdout st ++ o) (disk st)).
Proof. intros Hm. unfold mbind, M_bind, bind. by rewrite Hm. Qed.

Lemma is_prometheus_healthy_emits (w : world) :
  get_healthy w = Response () → emits (is_prometheus_healthy w) true [].
Proof.
  intros Hh. unfold is_prometheus_healthy. cbn [answer_healthy backend_of].
  rewrite Hh. emits_by idtac.
Qed.

(** With the URL configured and the back end healthy, [main] runs to its
    last statement: it prints [main_log] and writes the summary. *)
Lemma main_completes (w : world) st :
  truthy (env_PROMETHEUS_URL w) = true →
  get_healthy w = Response () →
  main w st =
    (inr (), State (stdout st ++ main_log w)
                   (<[METRICS_SUMMARY_PATH := dumps (summary_json (summary_of w))]> (disk st))).
Proof.
  intros Hurl Hhealthy. unfold main. cbn [PROMETHEUS_URL backend_of]. rewrite Hurl.
  change (negb true) with false. cbv iota.
  rewrite (run_bind _ _ _ _ _ (is_prometheus_healthy_emits w Hhealthy)).
  change (negb true) with false. cbv iota.
  rewrite (run_bind _ _ _ _ _ (emits_print _)).
  rewrite (run_bind _ _ _ _ _ (fetch_top_cardinality_metrics_emits w)).
  rewrite (run_bind _ _ _ _ _ (extract_metrics_and_labels_from_queries_emits w _)).
  rewrite (run_bind _ _ _ _ _ (summary_loop_emits w)).
  rewrite (run_bind _ _ _ _ _ (emits_print _)).
  rewrite (run_bind _ _ _ _ _ (digest_loop_emits _)).
  unfold mbind, M_bind, bind, write_file, print, main_log, digest_of.
  cbn [stdout disk]. rewrite app_nil_r, <- !app_assoc. reflexivity.
Qed.

Lemma main_unconfigured (w : world) st :
  truthy (env_PROMETHEUS_URL w) = false →
  main w st = (inl (EnvironmentError "PROMETHEUS_URL must be set"), st).
Proof. intros Hurl. unfold main. cbn [PROMETHEUS_URL backend_of]. by rewrite Hurl. Qed.

Lemma main_unhealthy (w : world) st msg :
  truthy (env_PROMETHEUS_URL w) = true →
  get_healthy w = Failed msg →
  main w st =
    (inr (), State (stdout st ++ ["Error connecting to Prometheus: " +:+ msg;
                                  "Prometheus is not healthy. Exiting..."])
                   (disk st)).
Proof.
  intros Hurl Hh. unfold main. cbn [PROMETHEUS_URL backend_of]. rewrite Hurl.
  change (negb true) with false. cbv iota.
  assert (He : emits (is_prometheus_healthy w) false
                 ["Error connecting to Prometheus: " +:+ msg]).
  { unfold is_prometheus_healthy. cbn [answer_healthy backend_of]. rewrite Hh.
    eapply emits_proper; [|reflexivity|reflexivity].
    eapply (emits_proper (try_except (request (Failed msg)) _ _)).
    - apply emits_request_failed. emits_run.
    - reflexivity.
    - reflexivity. }
  rewrite (run_bind _ _ _ _ _ He). change (negb false) with true. cbv iota.
  unfold print. cbn [stdout disk]. by rewrite <- app_assoc.
Qed.

(** ** Cardinality Analyzer *)

Section label_counter.
Implicit Types (lc : gmap string (gset string)) (s : series).

Lemma count_label_lookup lc kv l :
  count_label lc kv !! l =
    if decide (kv.1 = l ∧ l ≠ "__name__")
    then Some (default ∅ (lc !! l) ∪ {[kv.2]})
    else lc !! l.
Proof.
  unfold count_label. destruct kv as [k v]; simpl.
  destruct (decide (k ≠ "__name__")) as [Hk|Hk].
  - destruct (decide (k = l)) as [->|Hkl].
    + rewrite lookup_insert_eq. by rewrite decide_True.
    + rewrite lookup_insert_ne by done. rewrite decide_False; [done|]. by intros [? _].
  - rewrite decide_False; [done|]. intros [-> ?]. done.
Qed.

Lemma foldl_count_label_lookup lc (kvs : list (string * string)) l :
  NoDup kvs.*1 →
  foldl count_label lc kvs !! l =
    match (list_to_map kvs : gmap string string) !! l with
    | Some v => if decide (l ≠ "__name__")
                then Some (default ∅ (lc !! l) ∪ {[v]}) else lc !! l
    | None => lc !! l
    end.
Proof.
  revert lc. induction kvs as [|[k v] kvs IH]; intros lc Hnd; simpl; [done|].
  apply NoDup_cons in Hnd as [Hk Hnd]. rewrite IH by done.
  rewrite count_label_lookup. simpl.
  destruct (decide (k = l)) as [->|Hkl].
  - rewrite lookup_insert_eq.
    rewrite (not_elem_of_list_to_map_1 kvs l) by done.
    destruct (decide (l ≠ "__name__")).
    + by rewrite decide_True.
    + rewrite decide_False; [done|]. by intros [_ ?].
  - rewrite lookup_insert_ne by done.
    rewrite (decide_False (P := k = l ∧ _)); [done|]. by intros [? _].
Qed.

Lemma count_series_lookup lc s l :
  count_series lc s !! l =
    match s !! l with
    | Some v => if decide (l ≠ "__name__")
                then Some (default ∅ (lc !! l) ∪ {[v]}) else lc !! l
    | None => lc !! l
    end.
Proof.
  unfold count_series.
  rewrite foldl_count_label_lookup by apply NoDup_fst_map_to_list.
  by rewrite list_to_map_to_list.
Qed.

Lemma label_counter_snoc (sd : list series) s :
  label_counter_of (sd ++ [s]) = count_series (label_counter_of sd) s.
Proof. unfold label_counter_of. by rewrite foldl_app. Qed.

(** A value carried by some series is in the set counted for its label. *)
Lemma label_counter_member (sd : list series) s l v :
  l ≠ "__name__" → s ∈ sd → s !! l = Some v →
  ∃ vs, label_counter_of sd !! l = Some vs ∧ v ∈ vs.
Proof.
  intros Hl. induction sd as [|s0 sd IH] using rev_ind; intros Hs Hv.
  - by apply elem_of_nil in Hs.
  - rewrite label_counter_snoc, count_series_lookup.
    apply elem_of_app in Hs as [Hs|Hs].
    + destruct (IH Hs Hv) as (vs & Hvs & Hin). rewrite Hvs. simpl.
      destruct (s0 !! l).
      * rewrite decide_True by done. eexists. split; [done|]. set_solver.
      * eauto.
    + apply list_elem_of_singleton in Hs as ->. rewrite Hv, decide_True by done.
      eexists. split; [done|]. set_solver.
Qed.

(** The set counted for a label holds only values the label takes. *)
Lemma label_counter_values (sd : list series) l vs :
  label_counter_of sd !! l = Some vs →
  l ≠ "__name__" ∧ vs ≠ ∅ ∧ ∀ v, v ∈ vs → ∃ s, s ∈ sd ∧ s !! l = Some v.
Proof.
  revert vs. induction sd as [|s sd IH] using rev_ind; intros vs.
  - unfold label_counter_of. simpl. by rewrite lookup_empty.
  - rewrite label_counter_snoc, count_series_lookup.
    destruct (s !! l) as [v0|] eqn:Hs; [destruct (decide (l ≠ "__name__")) as [Hl|Hl]|].
    + intros [= <-]. split; [done|]. split; [set_solver|].
      intros v [Hv| ->%elem_of_singleton]%elem_of_union.
      * destruct (label_counter_of sd !! l) as [vs'|] eqn:Hlc; simpl in Hv;
          [|by apply not_elem_of_empty in Hv].
        destruct (IH _ eq_refl) as (_ & _ & Hin).
        destruct (Hin _ Hv) as (s' & ? & ?). exists s'. split; [|done].
        apply elem_of_app. by left.
      * exists s. split; [|done]. apply elem_of_app. right. by apply list_elem_of_singleton.
    + intros Hlc. by destruct (IH _ Hlc) as [? _].
    + intros Hlc. destruct (IH _ Hlc) as (? & ? & Hin). split; [done|]. split; [done|].
      intros v Hv. destruct (Hin _ Hv) as (s' & ? & ?). exists s'. split; [|done].
      apply elem_of_app. by left.
Qed.

(** A label is counted exactly when some series carries it. *)
Lemma label_counter_dom (sd : list series) l :
  is_Some (label_counter_of sd !! l) ↔
  l ≠ "__name__" ∧ ∃ s, s ∈ sd ∧ is_Some (s !! l).
Proof.
  split.
  - intros [vs Hvs]. destruct (label_counter_values _ _ _ Hvs) as (Hl & Hne & Hin).
    split; [done|]. apply set_choose_L in Hne as [v Hv].
    destruct (Hin _ Hv) as (s & ? & ?). eauto.
  - intros [Hl (s & Hs & [v Hv])].
    destruct (label_counter_member _ _ _ _ Hl Hs Hv) as (vs & -> & _). eauto.
Qed.

Lemma size_add_le (X : gset string) (v : string) : size (X ∪ {[v]}) ≤ S (size X).
Proof.
  rewrite size_union_alt.
  assert (size (({[v]} : gset string) ∖ X) ≤ 1); [|lia].
  etrans; [apply subseteq_size, subseteq_difference_l; reflexivity|].
  by rewrite size_singleton.
Qed.

(** Each series adds at most one value to the set of a label. *)
Lemma label_counter_size (sd : list series) l vs :
  label_counter_of sd !! l = Some vs → size vs ≤ length sd.
Proof.
  revert vs. induction sd as [|s sd IH] using rev_ind; intros vs.
  - unfold label_counter_of. simpl. by rewrite lookup_empty.
  - rewrite label_counter_snoc, count_series_lookup, length_app. cbn [length].
    destruct (s !! l) as [v0|]; [destruct (decide (l ≠ "__name__"))|].
    + intros [= <-].
      destruct (label_counter_of sd !! l) as [vs'|] eqn:Hlc; cbn [default id].
      * pose proof (size_add_le vs' v0). specialize (IH _ eq_refl). lia.
      * pose proof (size_add_le ∅ v0) as Hle. rewrite size_empty in Hle. lia.
    + intros Hlc. specialize (IH _ Hlc). lia.
    + intros Hlc. specialize (IH _ Hlc). lia.
Qed.
End label_counter.

(** C5. For every sequence of series, [analyze_labels] returns a mapping in
    which no label has a cardinality above the number of series in the
    sequence; for the empty sequence it returns the empty mapping, after its
    two progress messages, and raises nothing. *)
Theorem analyze_labels_cardinality_bounded (series_data : list series) :
  ∃ result : gmap string nat,
    emits (analyze_labels series_data) result (analyze_labels_log series_data)
    ∧ map_Forall (λ _ count, count ≤ length series_data) result
    ∧ emits (analyze_labels []) ∅
            ["Analyzing labels for 0 series..."; "Found 0 unique labels."].
Proof.
  exists (label_cardinality_of series_data). split; [apply analyze_labels_emits|]. split.
  - intros l count. unfold label_cardinality_of. rewrite lookup_fmap.
    destruct (label_counter_of series_data !! l) as [vs|] eqn:Hvs; [|done].
    intros [= <-]. by eapply label_counter_size.
  - eapply emits_proper; [apply analyze_labels_emits| |reflexivity].
    unfold label_cardinality_of, label_counter_of. simpl. apply fmap_empty.
Qed.

(** ** Usage Reconciler *)

Lemma label_usage_of_lookup used_labels label_cardinality l :
  label_usage_of used_labels label_cardinality !! l =
    (λ count, LabelUsage count (bool_decide (l ∈ used_labels))) <$> label_cardinality !! l.
Proof.
  unfold label_usage_of. rewrite map_lookup_imap.
  by destruct (label_cardinality !! l).
Qed.

(** C10. The report that the loop body appends for a metric has, as the keys
    of its [labels], exactly the label keys other than [__name__] that occur
    in at least one of the series fetched for that metric; a key of the
    LabelUsageSet that none of those series carries is not in the report. *)
Theorem report_labels_are_series_labels (w : world)
    (used_metrics : gmap string (list string)) (used_labels : gset string)
    (summary : list MetricReport) (item : top_item) :
  ∃ r : MetricReport,
    emits (fetch_series_for_metric w (item_metric item))
          (series_of w (item_metric item)) (fetch_series_log w (item_metric item))
    ∧ emits (analyze_metric w used_metrics used_labels summary item)
            (summary ++ [r]) (analyze_metric_log w item)
    ∧ (∀ l, is_Some (labels r !! l) ↔
            l ≠ "__name__" ∧ ∃ s, s ∈ series_of w (item_metric item) ∧ is_Some (s !! l))
    ∧ (∀ l, l ∈ used_labels →
            (∀ s, s ∈ series_of w (item_metric item) → s !! l = None) →
            labels r !! l = None).
Proof.
  eexists. split; [apply fetch_series_for_metric_emits|].
  split; [apply analyze_metric_emits|].
  assert (Hdom : ∀ l,
    is_Some (labels (make_report used_metrics used_labels item
                       (label_cardinality_of (series_of w (item_metric item)))) !! l) ↔
    l ≠ "__name__" ∧ ∃ s, s ∈ series_of w (item_metric item) ∧ is_Some (s !! l)).
  { intros l. cbn [labels make_report]. rewrite label_usage_of_lookup.
    unfold label_cardinality_of. rewrite lookup_fmap, !fmap_is_Some.
    apply label_counter_dom. }
  split; [exact Hdom|].
  intros l _ Hnone. apply eq_None_not_Some. rewrite Hdom.
  intros [_ (s & Hs & Hl)]. rewrite (Hnone s Hs) in Hl. by apply is_Some_None in Hl.
Qed.

Lemma make_report_reconciled used_metrics used_labels item label_cardinality :
  flags_reconciled used_metrics used_labels
    (make_report used_metrics used_labels item label_cardinality).
Proof.
  unfold flags_reconciled. cbn [in_use metric used_in labels make_report].
  split; [by rewrite bool_decide_eq_true, elem_of_dom|]. split; [done|]. split.
  - intros Hnot. apply not_elem_of_dom in Hnot. by rewrite Hnot.
  - intros l u. rewrite label_usage_of_lookup.
    destruct (label_cardinality !! l); [|done]. intros [= <-]. cbn [label_in_use].
    apply bool_decide_eq_true.
Qed.

(** ** Report Builder: ordering *)

Section sorting.
Context {A : Type} (key : A → Z).

Lemma insort_Permutation x l : insort key x l ≡ₚ x :: l.
Proof.
  induction l as [|y l IH]; simpl; [done|].
  destruct (key x <=? key y)%Z; [done|]. rewrite IH. apply Permutation_swap.
Qed.

Lemma sorted_Permutation l : sorted key l ≡ₚ l.
Proof.
  induction l as [|x l IH]; simpl; [done|].
  rewrite insort_Permutation. by f_equiv.
Qed.

Lemma insort_StronglySorted x l :
  StronglySorted (λ a b, key a ≤ key b)%Z l →
  StronglySorted (λ a b, key a ≤ key b)%Z (insort key x l).
Proof.
  induction 1 as [|y l Hl IH Hy]; simpl.
  - repeat constructor.
  - destruct (Z.leb_spec (key x) (key y)) as [Hxy|Hxy].
    + constructor; [by constructor|]. constructor; [done|].
      eapply Forall_impl; [exact Hy|]. simpl. lia.
    + constructor; [done|]. rewrite insort_Permutation.
      constructor; [lia|done].
Qed.

Lemma sorted_StronglySorted l : StronglySorted (λ a b, key a ≤ key b)%Z (sorted key l).
Proof.
  induction l as [|x l IH]; simpl; [constructor|]. by apply insort_StronglySorted.
Qed.

(** Stability: the elements of one key keep their order. *)
Lemma insort_filter_key (k : Z) x l :
  filter (λ a, key a = k) (insort key x l) = filter (λ a, key a = k) (x :: l).
Proof.
  induction l as [|y l IH]; simpl; [done|].
  destruct (Z.leb_spec (key x) (key y)) as [Hxy|Hxy]; [done|].
  rewrite filter_cons, IH, !filter_cons.
  destruct (decide (key y = k)) as [Hy|Hy], (decide (key x = k)) as [Hx|Hx];
    try done; lia.
Qed.

Lemma sorted_filter_key (k : Z) l :
  filter (λ a, key a = k) (sorted key l) = filter (λ a, key a = k) l.
Proof.
  induction l as [|x l IH]; simpl; [done|].
  by rewrite insort_filter_key, !filter_cons, IH.
Qed.
End sorting.

Lemma sorted_stably_descending (summary : list MetricReport) :
  stably_descending summary (sorted (λ x, - series_count x)%Z summary).
Proof.
  split; [apply sorted_Permutation|]. split.
  - pose proof (sorted_StronglySorted (λ x, - series_count x)%Z summary) as Hs.
    induction Hs as [|x l _ IH Hx]; constructor; [done|].
    eapply Forall_impl; [exact Hx|]. unfold count_ge. simpl. lia.
  - intros c.
    rewrite (list_filter_iff (λ r, series_count r = c)
               (λ r, (- series_count r)%Z = (- c)%Z)) by (intros; lia).
    rewrite (list_filter_iff (λ r, series_count r = c)
               (λ r, (- series_count r)%Z = (- c)%Z) summary) by (intros; lia).
    apply (sorted_filter_key (λ x, - series_count x)%Z).
Qed.

(** The stable rearrangement is unique, so any stable sort computes the
    list that [sorted] computes. *)
Lemma stably_descending_unique (summary o1 o2 : list MetricReport) :
  stably_descending summary o1 → stably_descending summary o2 → o1 = o2.
Proof.
  intros (Hp1 & Hs1 & Hf1) (Hp2 & Hs2 & Hf2).
  assert (Hp : o1 ≡ₚ o2) by (by rewrite Hp1, Hp2).
  assert (Hf : ∀ c, filter (λ r, series_count r = c) o1
                    = filter (λ r, series_count r = c) o2)
    by (intros c; by rewrite Hf1, Hf2).
  clear Hp1 Hp2 Hf1 Hf2 summary. revert o2 Hs2 Hp Hf.
  induction Hs1 as [|x o1 Hs1 IH Hx]; intros o2 Hs2 Hp Hf.
  - by apply Permutation_nil_l in Hp.
  - destruct o2 as [|y o2]; [by apply Permutation_nil_r in Hp|].
    apply StronglySorted_inv in Hs2 as [Hs2 Hy].
    assert (series_count y = series_count x) as Hxy.
    { assert (y ∈ x :: o1) as [->|Hin]%elem_of_cons; [rewrite Hp; by left|done|].
      assert (x ∈ y :: o2) as [->|Hin']%elem_of_cons; [rewrite <- Hp; by left|done|].
      rewrite Forall_forall in Hx, Hy. specialize (Hx _ Hin). specialize (Hy _ Hin').
      unfold count_ge in *. lia. }
    assert (x = y) as <-.
    { specialize (Hf (series_count x)).
      rewrite !filter_cons, decide_True in Hf by done.
      rewrite decide_True in Hf by done. congruence. }
    f_equal. apply IH; [done|by apply Permutation_cons_inv in Hp|].
    intros c. specialize (Hf c). rewrite !filter_cons in Hf.
    destruct (decide (series_count x = c)); congruence.
Qed.

(** ** Strings *)

Lemma app_cons c s t : String c s +:+ t = String c (s +:+ t).
Proof. reflexivity. Qed.

Lemma app_empty_l s : "" +:+ s = s.
Proof. reflexivity. Qed.

Lemma app_empty_r s : s +:+ "" = s.
Proof. induction s as [|c s IH]; [done|]. by rewrite app_cons, IH. Qed.

Lemma app_assoc_s s t u : s +:+ t +:+ u = (s +:+ t) +:+ u.
Proof. induction s as [|c s IH]; [done|]. by rewrite !app_cons, IH. Qed.

Lemma length_app_s s t : String.length (s +:+ t) = String.length s + String.length t.
Proof. induction s as [|c s IH]; [done|]. rewrite app_cons. simpl. by rewrite IH. Qed.

(** ** Query Text Extractor: the sources kept for a metric *)

Lemma add_metric_lookup source used_metrics m k :
  add_metric source used_metrics m !! k =
    if decide (m = k) then Some (default ∅ (used_metrics !! k) ∪ {[source]})
    else used_metrics !! k.
Proof.
  unfold add_metric. destruct (decide (m = k)) as [->|Hne].
  - by rewrite lookup_insert_eq.
  - by rewrite lookup_insert_ne.
Qed.

Lemma add_metric_nonempty source used_metrics m :
  sources_nonempty used_metrics → sources_nonempty (add_metric source used_metrics m).
Proof.
  intros Hne k sources. rewrite add_metric_lookup.
  destruct (decide (m = k)); [|by apply Hne].
  intros [= <-]. apply non_empty_inhabited_L with source.
  apply elem_of_union_r, elem_of_singleton. reflexivity.
Qed.

Lemma scan_line_nonempty source u line :
  sources_nonempty u.1 → sources_nonempty (scan_line source u line).1.
Proof.
  unfold scan_line. cbn [fst]. generalize (findall metric_pattern line) as ms.
  generalize u.1 as um. intros um ms. revert um.
  induction ms as [|m ms IH]; intros um Hne; simpl; [done|].
  by apply IH, add_metric_nonempty.
Qed.

Lemma usage_of_nonempty w paths : sources_nonempty (usage_of w paths).1.
Proof.
  unfold usage_of.
  assert (Hstart : sources_nonempty ((∅, ∅) : gmap string (gset string) * gset string).1)
    by apply map_Forall_empty.
  revert Hstart. generalize ((∅, ∅) : gmap string (gset string) * gset string) as u.
  induction paths as [|path paths IH]; intros u Hu; simpl; [done|].
  apply IH. generalize (lines_of (fs w path)) as lines. intros lines. revert u Hu.
  induction lines as [|line lines IHl]; intros u Hu; simpl; [done|].
  by apply IHl, scan_line_nonempty.
Qed.

(** A metric that is a key of the index has a source to show. *)
Lemma used_metrics_of_nonempty w m sources :
  used_metrics_of w !! m = Some sources → sources ≠ [].
Proof.
  unfold used_metrics_of. rewrite lookup_fmap.
  destruct ((usage_of w QUERIES_PATHS).1 !! m) as [srcs|] eqn:Hm; [|done].
  intros [= <-]. apply (usage_of_nonempty w QUERIES_PATHS) in Hm.
  intros Hnil. apply Hm. apply leibniz_equiv, elements_empty_inv. by rewrite Hnil.
Qed.

Lemma foldl_add_metric_lookup source used_metrics (ms : list string) k :
  foldl (add_metric source) used_metrics ms !! k =
    if decide (k ∈ ms) then Some (default ∅ (used_metrics !! k) ∪ {[source]})
    else used_metrics !! k.
Proof.
  revert used_metrics. induction ms as [|m ms IH]; intros um; cbn [foldl].
  - rewrite decide_False; [done|]. apply not_elem_of_nil.
  - rewrite IH, add_metric_lookup.
    destruct (decide (k ∈ m :: ms)) as [Hin'|Hin'], (decide (k ∈ ms)) as [Hin|Hin],
      (decide (m = k)) as [Heq|Hne]; cbn [default id]; try done.
    + f_equal. apply leibniz_equiv. by rewrite <- (assoc (∪)), (idemp (∪)).
    + apply elem_of_cons in Hin' as [?|?]; done.
    + exfalso. apply Hin', elem_of_cons. by right.
    + exfalso. apply Hin', elem_of_cons. by right.
    + exfalso. apply Hin', elem_of_cons. by left.
Qed.

Section usage.
Context (w : world).
Implicit Types u : gmap string (gset string) * gset string.

Lemma scan_line_sources src u line k source :
  source ∈ default ∅ ((scan_line src u line).1 !! k) ↔
  source ∈ default ∅ (u.1 !! k) ∨ (src = source ∧ k ∈ findall metric_pattern line).
Proof.
  unfold scan_line. cbn [fst]. rewrite foldl_add_metric_lookup.
  destruct (decide (k ∈ findall metric_pattern line)); cbn [default id].
  - rewrite elem_of_union, elem_of_singleton. naive_solver.
  - naive_solver.
Qed.

Lemma scan_lines_sources src u lines k source :
  source ∈ default ∅ ((foldl (scan_line src) u lines).1 !! k) ↔
  source ∈ default ∅ (u.1 !! k)
  ∨ (src = source ∧ ∃ line, line ∈ lines ∧ k ∈ findall metric_pattern line).
Proof.
  revert u. induction lines as [|line lines IH]; intros u; cbn [foldl].
  - split; [by left|]. intros [?|[_ (line & Hin & _)]]; [done|].
    by apply elem_of_nil in Hin.
  - rewrite IH, scan_line_sources. setoid_rewrite elem_of_cons. naive_solver.
Qed.

Lemma scan_paths_sources u paths k source :
  source ∈ default ∅ ((foldl (λ u path,
      foldl (scan_line (source_of path)) u (lines_of (fs w path))) u paths).1 !! k) ↔
  source ∈ default ∅ (u.1 !! k)
  ∨ ∃ path, found_in metric_pattern w paths path k ∧ source_of path = source.
Proof.
  unfold found_in. revert u. induction paths as [|path paths IH]; intros u; cbn [foldl].
  - split; [by left|]. intros [?|(path & [Hin _] & _)]; [done|].
    by apply elem_of_nil in Hin.
  - rewrite IH, scan_lines_sources. setoid_rewrite elem_of_cons. naive_solver.
Qed.

Lemma scan_lines_labels src u lines l :
  l ∈ (foldl (scan_line src) u lines).2 ↔
  l ∈ u.2 ∨ ∃ line, line ∈ lines ∧ l ∈ findall label_pattern line.
Proof.
  revert u. induction lines as [|line lines IH]; intros u; cbn [foldl].
  - split; [by left|]. intros [?|(line & Hin & _)]; [done|].
    by apply elem_of_nil in Hin.
  - rewrite IH. unfold scan_line. cbn [snd].
    rewrite elem_of_union, elem_of_list_to_set. setoid_rewrite elem_of_cons.
    naive_solver.
Qed.

Lemma scan_paths_labels u paths l :
  l ∈ (foldl (λ u path,
      foldl (scan_line (source_of path)) u (lines_of (fs w path))) u paths).2 ↔
  l ∈ u.2 ∨ ∃ path, found_in label_pattern w paths path l.
Proof.
  unfold found_in. revert u. induction paths as [|path paths IH]; intros u; cbn [foldl].
  - split; [by left|]. intros [?|(path & Hin & _)]; [done|].
    by apply elem_of_nil in Hin.
  - rewrite IH, scan_lines_labels. setoid_rewrite elem_of_cons. naive_solver.
Qed.

(** The sources kept for [k] after the files at [paths]: the tags of the
    files with a line in which [k] is matched. *)
Lemma usage_of_sources paths k source :
  source ∈ default ∅ ((usage_of w paths).1 !! k) ↔
  ∃ path, found_in metric_pattern w paths path k ∧ source_of path = source.
Proof.
  unfold usage_of. rewrite scan_paths_sources. cbn [fst]. rewrite lookup_empty.
  cbn [default]. split; [|by right]. intros [Hin|?]; [|done].
  by apply not_elem_of_empty in Hin.
Qed.

(** The metrics of the index: those matched in some line of some file. *)
Lemma usage_of_metrics paths k :
  is_Some ((usage_of w paths).1 !! k) ↔ ∃ path, found_in metric_pattern w paths path k.
Proof.
  split.
  - intros [sources Hk].
    pose proof (usage_of_nonempty w paths k sources Hk) as Hne.
    apply set_choose_L in Hne as [source Hsource].
    assert (source ∈ default ∅ ((usage_of w paths).1 !! k)) as Hin by (by rewrite Hk).
    apply usage_of_sources in Hin as (path & ? & _). eauto.
  - intros [path Hpath].
    assert (source_of path ∈ default ∅ ((usage_of w paths).1 !! k)) as Hin.
    { apply usage_of_sources. eauto. }
    destruct ((usage_of w paths).1 !! k); [eauto|]. by apply not_elem_of_empty in Hin.
Qed.

(** The labels of the usage set: those matched in some line of some file. *)
Lemma usage_of_labels paths l :
  l ∈ (usage_of w paths).2 ↔ ∃ path, found_in label_pattern w paths path l.
Proof.
  unfold usage_of. rewrite scan_paths_labels. cbn [snd]. split; [|by right].
  intros [Hin|?]; [|done]. by apply not_elem_of_empty in Hin.
Qed.
End usage.

(** ** Usage Reconciler: the reports of a run *)

Lemma report_of_reconciled w item : reconciled w item (report_of w item).
Proof.
  pose proof (make_report_reconciled (used_metrics_of w) (used_labels_of w) item
                (label_cardinality_of (series_of w (item_metric item))))
    as (Huse & Hin & Hnone & Hlabels).
  unfold reconciled. fold (report_of w item) in *.
  split; [done|]. split; [done|]. split; [exact Huse|]. split; [exact Hin|].
  split; [exact Hnone|]. split; [|exact Hlabels].
  apply map_eq. intros l. rewrite lookup_fmap. unfold report_of, make_report.
  cbn [labels]. rewrite label_usage_of_lookup.
  by destruct (label_cardinality_of _ !! l).
Qed.

(** C1. In a run that reaches the analysis, the extraction over the query
    files yields the MetricUsageIndex and the LabelUsageSet: the keys of the
    index are the names matched in some line of some query file, the
    members of the set the label keys matched there. The written summary
    has one report for each ranked metric, in the order of the ranking, and
    the report of a metric carries the name and the count of that metric;
    its [in_use] is true exactly when the name is a key of the index; its
    [used_in] is the list kept for the name, the empty list when the name
    is no key; its labels are the labels counted in the series of the
    metric, with their cardinalities; and for each of them [in_use] is true
    exactly when the label is in the LabelUsageSet, whatever the verdict on
    the metric and the cardinality of the label. *)
Theorem reports_flags_follow_usage (w : world) (st : state) :
  truthy (env_PROMETHEUS_URL w) = true →
  get_healthy w = Response () →
  emits (extract_metrics_and_labels_from_queries w QUERIES_PATHS)
        (used_metrics_of w, used_labels_of w)
        (concat (scan_file_log w <$> QUERIES_PATHS))
  ∧ main w st =
      (inr (), State (stdout st ++ main_log w)
                     (<[METRICS_SUMMARY_PATH := dumps (summary_json (summary_of w))]>
                        (disk st)))
  ∧ Forall (flags_reconciled (used_metrics_of w) (used_labels_of w)) (summary_of w)
  ∧ Forall2 (reconciled w) (top_metrics_of w) (summary_of w)
  ∧ (∀ m, m ∈ dom (used_metrics_of w)
          ↔ ∃ path, found_in metric_pattern w QUERIES_PATHS path m)
  ∧ (∀ l, l ∈ used_labels_of w
          ↔ ∃ path, found_in label_pattern w QUERIES_PATHS path l).
Proof.
  intros Hurl Hhealthy.
  split; [apply extract_metrics_and_labels_from_queries_emits|].
  split; [by apply main_completes|].
  split; [apply Forall_fmap, Forall_forall; intros item _; apply make_report_reconciled|].
  split; [|split].
  - unfold summary_of. apply Forall2_fmap_r, Forall_Forall2_diag, Forall_forall.
    intros item _. apply report_of_reconciled.
  - intros m. unfold used_metrics_of. rewrite elem_of_dom, lookup_fmap, fmap_is_Some.
    apply usage_of_metrics.
  - intros l. apply usage_of_labels.
Qed.

Lemma reports_flags_follow_usage_witness :
  truthy (env_PROMETHEUS_URL mixed_world) = true
  ∧ get_healthy mixed_world = Response ()
  ∧ emits (extract_metrics_and_labels_from_queries mixed_world QUERIES_PATHS)
          (used_metrics_of mixed_world, used_labels_of mixed_world)
          (concat (scan_file_log mixed_world <$> QUERIES_PATHS))
  ∧ main mixed_world start =
      (inr (), State (stdout start ++ main_log mixed_world)
                     (<[METRICS_SUMMARY_PATH :=
                          dumps (summary_json (summary_of mixed_world))]>
                        (disk start)))
  ∧ Forall (flags_reconciled (used_metrics_of mixed_world)
                             (used_labels_of mixed_world))
           (summary_of mixed_world)
  ∧ Forall2 (reconciled mixed_world) (top_metrics_of mixed_world)
            (summary_of mixed_world)
  ∧ (∀ m, m ∈ dom (used_metrics_of mixed_world)
          ↔ ∃ path, found_in metric_pattern mixed_world QUERIES_PATHS path m)
  ∧ (∀ l, l ∈ used_labels_of mixed_world
          ↔ ∃ path, found_in label_pattern mixed_world QUERIES_PATHS path l).
Proof.
  split; [reflexivity|]. split; [reflexivity|].
  apply (reports_flags_follow_usage mixed_world start); reflexivity.
Defined.

(** ** Report Builder: the console digest *)

Lemma console_line_form (r : MetricReport) :
  (in_use r = true ↔ used_in r ≠ []) → console_line r = line_form r.
Proof.
  unfold console_line, line_form, status_of. intros [H1 H2].
  destruct (in_use r), (used_in r) as [|source sources]; try done.
  - by destruct H1.
  - discriminate H2. done.
Qed.

Lemma report_of_in_use w item :
  in_use (report_of w item) = true ↔ used_in (report_of w item) ≠ [].
Proof.
  unfold report_of, make_report. cbn [in_use used_in].
  rewrite bool_decide_eq_true.
  destruct (used_metrics_of w !! item_metric item) as [sources|] eqn:Hm; cbn [default].
  - split; [|by eauto]. intros _. by eapply used_metrics_of_nonempty.
  - split; [by intros [? ?]|done].
Qed.

Lemma main_log_digest w :
  main_log w =
    (["Prometheus is healthy. Proceeding with cardinality analysis..."]
     ++ top_metrics_log w
     ++ concat (scan_file_log w <$> QUERIES_PATHS)
     ++ concat (analyze_metric_log w <$> top_metrics_of w)
     ++ [nl +:+ "High-cardinality metrics in use:"])
    ++ (console_line <$> sorted (λ x, - series_count x)%Z (summary_of w))
    ++ [nl +:+ SAVED_MARK +:+ " Saved metric summary to " +:+ METRICS_SUMMARY_PATH].
Proof. unfold main_log, digest_of. by rewrite <- !app_assoc. Qed.

(** C8, as the code has it. In a run that reaches the digest, the console
    shows one line for each report of the summary, each of the form
    [<metric>: <series_count> series - <status> (<shown>)]. For a report in
    use the status is the mark of the source, a space and [USED], and the
    sources are shown, joined by a comma and a space; for a report not in
    use the status is the other mark, a space and [UNUSED], and [not used]
    is shown. A metric that no line of any query file mentions is not in
    use, so its line ends with [UNUSED (not used)]. *)
Theorem digest_has_one_line_per_report (w : world) (st : state) :
  truthy (env_PROMETHEUS_URL w) = true →
  get_healthy w = Response () →
  ∃ (before : list string) (ordered : list MetricReport),
    main w st =
      (inr (), State (stdout st ++ before ++ (line_form <$> ordered)
                      ++ [nl +:+ SAVED_MARK +:+ " Saved metric summary to "
                          +:+ METRICS_SUMMARY_PATH])
                     (<[METRICS_SUMMARY_PATH := dumps (summary_json (summary_of w))]>
                        (disk st)))
    ∧ ordered ≡ₚ summary_of w
    ∧ Forall (λ r,
        (in_use r = true ↔ ∃ path, found_in metric_pattern w QUERIES_PATHS path (metric r))
        ∧ (in_use r = true → used_in r ≠ [])
        ∧ (in_use r = false →
           line_form r = metric r +:+ ": " +:+ int_str (series_count r)
                         +:+ " series - " +:+ UNUSED_MARK +:+ " UNUSED (not used)"))
        ordered.
Proof.
  intros Hurl Hhealthy. eexists _, (sorted (λ x, - series_count x)%Z (summary_of w)).
  split; [|split].
  - rewrite (main_completes w st Hurl Hhealthy), main_log_digest. do 3 f_equal.
    f_equal. f_equal. apply Forall_fmap_ext_1, Forall_forall. intros r Hr.
    rewrite sorted_Permutation in Hr. apply list_elem_of_fmap in Hr as (item & -> & _).
    apply console_line_form, report_of_in_use.
  - apply sorted_Permutation.
  - rewrite sorted_Permutation. apply Forall_fmap, Forall_forall. intros item _.
    split; [|split].
    + unfold report_of, make_report. cbn [in_use metric].
      etrans; [apply bool_decide_eq_true|]. unfold used_metrics_of.
      rewrite lookup_fmap, fmap_is_Some. apply usage_of_metrics.
    + apply report_of_in_use.
    + intros Hunused. unfold line_form. rewrite Hunused. reflexivity.
Qed.

Lemma digest_has_one_line_per_report_witness :
  truthy (env_PROMETHEUS_URL unranked_world) = true
  ∧ get_healthy unranked_world = Response ()
  ∧ ∃ (before : list string) (ordered : list MetricReport),
    main unranked_world start =
      (inr (), State (stdout start ++ before ++ (line_form <$> ordered)
                      ++ [nl +:+ SAVED_MARK +:+ " Saved metric summary to "
                          +:+ METRICS_SUMMARY_PATH])
                     (<[METRICS_SUMMARY_PATH :=
                          dumps (summary_json (summary_of unranked_world))]>
                        (disk start)))
    ∧ ordered ≡ₚ summary_of unranked_world
    ∧ Forall (λ r,
        (in_use r = true ↔
           ∃ path, found_in metric_pattern unranked_world QUERIES_PATHS path (metric r))
        ∧ (in_use r = true → used_in r ≠ [])
        ∧ (in_use r = false →
           line_form r = metric r +:+ ": " +:+ int_str (series_count r)
                         +:+ " series - " +:+ UNUSED_MARK +:+ " UNUSED (not used)"))
        ordered.
Proof.
  split; [reflexivity|]. split; [reflexivity|].
  apply (digest_has_one_line_per_report unranked_world start); reflexivity.
Defined.

(** C8 fails as stated: for [debug_probe_total] with 50 series and no query
    file, the console shows the line with the mark of the source in front of
    the UNUSED word, not the line of the plain form. *)
Lemma unused_line_carries_mark :
  let out := stdout (main probe_world start).2 in
  ("debug_probe_total: 50 series - " +:+ UNUSED_MARK +:+ " UNUSED (not used)") ∈ out
  ∧ ("debug_probe_total: 50 series - UNUSED (not used)" ∉ out)
  ∧ UNUSED_MARK ≠ "".
Proof.
  cbv zeta. split; [|split]; [apply (bool_decide_unpack _); by vm_compute..|done].
Qed.

(** ** Failures *)



Lemma elem_of_concat {A} (x : A) (ls : list (list A)) (l : list A) :
  l ∈ ls → x ∈ l → x ∈ concat ls.
Proof.
  intros Hl Hx. apply list_elem_of_In, in_concat. exists l.
  by rewrite <- !list_elem_of_In.
Qed.

Lemma elem_of_main_log_scan w path text :
  path ∈ QUERIES_PATHS → text ∈ scan_file_log w path → text ∈ main_log w.
Proof.
  intros Hpath Htext. unfold main_log. rewrite !elem_of_app. right. right. left.
  apply (elem_of_concat _ _ (scan_file_log w path)); [|done].
  by apply list_elem_of_fmap_2.
Qed.


(** *** Answers whose body cannot be indexed *)

























(** ** The two patterns *)

Lemma label_rest_not_space c : label_rest c = true → is_space c = false.
Proof. destruct c as [[] [] [] [] [] [] [] []]; vm_compute; congruence. Qed.

Lemma label_rest_not_equals c : label_rest c = true → is_char "=" c = false.
Proof. destruct c as [[] [] [] [] [] [] [] []]; vm_compute; congruence. Qed.

Lemma space_not_equals c : is_space c = true → is_char "=" c = false.
Proof. destruct c as [[] [] [] [] [] [] [] []]; vm_compute; congruence. Qed.

Lemma space_not_label_first c : is_space c = true → label_first c = false.
Proof. destruct c as [[] [] [] [] [] [] [] []]; vm_compute; congruence. Qed.

Lemma equals_not_label_first c : is_char "=" c = true → label_first c = false.
Proof. destruct c as [[] [] [] [] [] [] [] []]; vm_compute; congruence. Qed.

Lemma metric_first_rest c : metric_first c = true → metric_rest c = true.
Proof. destruct c as [[] [] [] [] [] [] [] []]; vm_compute; congruence. Qed.

Lemma label_first_rest c : label_first c = true → label_rest c = true.
Proof. destruct c as [[] [] [] [] [] [] [] []]; vm_compute; congruence. Qed.

Section span.
Context (p : ascii → bool).

Lemma span_app s : (Str.span p s).1 +:+ (Str.span p s).2 = s.
Proof.
  induction s as [|c s IH]; [done|]. simpl. destruct (p c); [|done].
  destruct (Str.span p s) as [w r]. simpl in *. by rewrite app_cons, IH.
Qed.

Lemma span_forallb s : Str.forallb p (Str.span p s).1 = true.
Proof.
  induction s as [|c s IH]; [done|]. simpl. destruct (p c) eqn:Hc; [|done].
  destruct (Str.span p s) as [w r]. simpl in *. by rewrite Hc, IH.
Qed.

Lemma span_stops s c r : (Str.span p s).2 = String c r → p c = false.
Proof.
  induction s as [|c' s IH]; [done|]. simpl. destruct (p c') eqn:Hc.
  - destruct (Str.span p s) as [w r']. simpl in *. done.
  - simpl. by intros [= <- _].
Qed.

Lemma span_all w s :
  Str.forallb p w = true → (∀ c r, s = String c r → p c = false) →
  Str.span p (w +:+ s) = (w, s).
Proof.
  intros Hw Hs. induction w as [|c w IH].
  - rewrite app_empty_l. destruct s as [|c r]; [done|]. simpl.
    by rewrite (Hs c r eq_refl).
  - simpl in Hw. apply andb_true_iff in Hw as [Hc Hw]. rewrite app_cons. simpl.
    by rewrite Hc, (IH Hw).
Qed.

Lemma take_span s : Str.take (String.length (Str.span p s).1) s = (Str.span p s).1.
Proof.
  induction s as [|c s IH]; [done|]. simpl. destruct (p c); [|done].
  destruct (Str.span p s) as [w r]. simpl in *. by rewrite IH.
Qed.

Lemma drop_span s : Str.drop (String.length (Str.span p s).1) s = (Str.span p s).2.
Proof.
  induction s as [|c s IH]; [done|]. simpl. destruct (p c); [|done].
  destruct (Str.span p s) as [w r]. simpl in *. by rewrite IH.
Qed.
End span.

Lemma str_forallb_app p s t :
  Str.forallb p (s +:+ t) = Str.forallb p s && Str.forallb p t.
Proof.
  induction s as [|c s IH]; [done|]. rewrite app_cons. simpl. rewrite IH.
  by rewrite andb_assoc.
Qed.

Lemma take_app_length s t : Str.take (String.length s) (s +:+ t) = s.
Proof. induction s as [|c s IH]; [by destruct t|]. rewrite app_cons. simpl. by rewrite IH. Qed.

Lemma drop_app_length s t : Str.drop (String.length s) (s +:+ t) = t.
Proof. induction s as [|c s IH]; [done|]. rewrite app_cons. simpl. by rewrite IH. Qed.

(** *** What the backtracking matcher does on the two patterns *)

Lemma match_many_last p s :
  match_here [Many p] s = Some [String.length (Str.span p s).1].
Proof.
  induction s as [|c s IH]; [done|]. simpl in *. destruct (p c); [|done].
  rewrite IH. by destruct (Str.span p s).
Qed.

Lemma match_metric s :
  match_here (pat_atoms metric_pattern) s =
    match s with
    | String c s' =>
        if metric_first c then Some [1; String.length (Str.span metric_rest s').1]
        else None
    | EmptyString => None
    end.
Proof.
  destruct s as [|c s']; [done|]. cbn [pat_atoms metric_pattern match_here].
  destruct (metric_first c); [|done].
  change (cons 1 <$> match_here [Many metric_rest] s' =
          Some [1; String.length (Str.span metric_rest s').1]).
  by rewrite match_many_last.
Qed.

(** White space then the equals sign: the star never has to give back. *)
Lemma match_space_equals s :
  match_here [Many is_space; One (is_char "=")] s =
    match (Str.span is_space s).2 with
    | String e _ =>
        if is_char "=" e then Some [String.length (Str.span is_space s).1; 1] else None
    | EmptyString => None
    end.
Proof.
  induction s as [|c s IH]; [done|]. simpl in *. destruct (is_space c) eqn:Hc.
  - rewrite IH. destruct (Str.span is_space s) as [sp r]. simpl.
    destruct r as [|e r]; [by rewrite (space_not_equals c Hc)|].
    destruct (is_char "=" e); [done|]. by rewrite (space_not_equals c Hc).
  - simpl. by destruct (is_char "=" c).
Qed.

(** The name, white space, the equals sign: neither star has to give back,
    a shorter name would be followed by a character of the name. *)
Lemma match_label_tail s :
  match_here [Many label_rest; Many is_space; One (is_char "=")] s =
    cons (String.length (Str.span label_rest s).1)
      <$> match_here [Many is_space; One (is_char "=")] (Str.span label_rest s).2.
Proof.
  induction s as [|c s IH]; [done|].
  change (match_here [Many label_rest; Many is_space; One (is_char "=")] (String c s))
    with (let stop := cons 0 <$> match_here [Many is_space; One (is_char "=")] (String c s) in
          if label_rest c then
            match match_here [Many label_rest; Many is_space; One (is_char "=")] s with
            | Some (n :: ns) => Some (S n :: ns)
            | _ => stop
            end
          else stop).
  cbn zeta. simpl Str.span. destruct (label_rest c) eqn:Hc; [|done].
  rewrite IH. destruct (Str.span label_rest s) as [w r]. cbn [fst snd].
  destruct (match_here [Many is_space; One (is_char "=")] r) as [ns|]; [done|].
  cbn [fmap option_fmap option_map]. rewrite match_space_equals. simpl.
  rewrite (label_rest_not_space c Hc). simpl. by rewrite (label_rest_not_equals c Hc).
Qed.

Lemma match_label s :
  match_here (pat_atoms label_pattern) s =
    match s with
    | String c s' =>
        if label_first c then
          let w := (Str.span label_rest s').1 in
          let sp := (Str.span is_space (Str.span label_rest s').2).1 in
          match (Str.span is_space (Str.span label_rest s').2).2 with
          | String e _ =>
              if is_char "=" e then Some [1; String.length w; String.length sp; 1]
              else None
          | EmptyString => None
          end
        else None
    | EmptyString => None
    end.
Proof.
  destruct s as [|c s']; [done|].
  change (match_here (pat_atoms label_pattern) (String c s'))
    with (if label_first c
          then cons 1 <$> match_here [Many label_rest; Many is_space; One (is_char "=")] s'
          else None).
  destruct (label_first c); [|done].
  rewrite match_label_tail, match_space_equals. cbn zeta.
  destruct (Str.span is_space (Str.span label_rest s').2).2 as [|e r]; [done|].
  by destruct (is_char "=" e).
Qed.

(** *** The scan *)

Lemma findall_from_skip pat k s :
  findall_from pat k s = findall_from pat 0 (Str.drop k s).
Proof.
  revert k. induction s as [|c s IH]; intros [|k]; try done.
  simpl. apply IH.
Qed.

Lemma findall_metric_cons c s :
  findall metric_pattern (String c s) =
    if metric_first c
    then String c (Str.span metric_rest s).1
           :: findall metric_pattern (Str.span metric_rest s).2
    else findall metric_pattern s.
Proof.
  unfold findall. cbn [findall_from]. rewrite match_metric.
  destruct (metric_first c); [|done].
  cbn [pat_group metric_pattern firstn sum_list sum_list_with Str.take].
  rewrite Nat.add_0_r. cbn [id Nat.add Nat.sub Str.take]. rewrite ?Nat.sub_0_r.
  by rewrite take_span, findall_from_skip, drop_span.
Qed.

Lemma findall_label_cons c s :
  findall label_pattern (String c s) =
    if label_first c then
      match (Str.span is_space (Str.span label_rest s).2).2 with
      | String e r =>
          if is_char "=" e
          then String c (Str.span label_rest s).1 :: findall label_pattern r
          else findall label_pattern s
      | EmptyString => findall label_pattern s
      end
    else findall label_pattern s.
Proof.
  unfold findall. cbn [findall_from]. rewrite match_label.
  destruct (label_first c); [|done]. cbn zeta.
  destruct (Str.span is_space (Str.span label_rest s).2).2 as [|e r] eqn:Hr2; [done|].
  destruct (is_char "=" e); [|done].
  cbn [pat_group label_pattern firstn sum_list sum_list_with Str.take].
  rewrite Nat.add_0_r. cbn [id Nat.add Nat.sub Str.take]. rewrite ?Nat.sub_0_r.
  rewrite take_span, findall_from_skip. f_equal. f_equal.
  pose proof (span_app label_rest s) as Hs.
  pose proof (span_app is_space (Str.span label_rest s).2) as Hr1.
  rewrite Hr2 in Hr1.
  destruct (Str.span label_rest s) as [w r1]. cbn [fst snd] in *.
  destruct (Str.span is_space r1) as [sp r2]. cbn [fst snd] in *.
  subst s r1.
  replace (String.length w + (String.length sp + 1))
    with (String.length (w +:+ sp +:+ String e "")).
  - rewrite <- (drop_app_length (w +:+ sp +:+ String e "") r) at 2.
    f_equal. by rewrite <- !app_assoc_s.
  - rewrite !length_app_s. done.
Qed.

(** *** Texts *)

Lemma app_eq_empty s t : s +:+ t = "" → s = "" ∧ t = "".
Proof. by destruct s. Qed.

Lemma app_eq_app p u a b :
  p +:+ u = a +:+ b →
  (∃ m, a = p +:+ m ∧ u = m +:+ b) ∨ (∃ m, p = a +:+ m ∧ b = m +:+ u).
Proof.
  revert a. induction p as [|c p IH]; intros a Heq.
  - left. exists a. by rewrite !app_empty_l in *.
  - destruct a as [|c' a].
    + right. exists (String c p). by rewrite app_empty_l in *.
    + rewrite !app_cons in Heq. injection Heq as <- Heq.
      destruct (IH _ Heq) as [(m & -> & ->)|(m & -> & ->)]; [left|right]; by exists m.
Qed.

Lemma forallb_split p s :
  Str.forallb p s = true
  ∨ ∃ w b r, s = w +:+ String b r ∧ Str.forallb p w = true ∧ p b = false.
Proof.
  pose proof (span_app p s) as Hs. pose proof (span_forallb p s) as Hw.
  pose proof (span_stops p s) as Hstop.
  destruct (Str.span p s) as [w [|b r]]; cbn [fst snd] in *.
  - left. by rewrite <- Hs, app_empty_r.
  - right. exists w, b, r. split; [done|]. split; [done|]. by eapply Hstop.
Qed.

Lemma length_lt_app_r s t : s ≠ "" → String.length t < String.length (s +:+ t).
Proof. intros Hs. rewrite length_app_s. destruct s; [done|]. simpl. lia. Qed.

Section names.
Context (first rest : ascii → bool).
Context (first_rest : ∀ c, first c = true → rest c = true).

Lemma name_forallb t : is_name first rest t = true → Str.forallb rest t = true.
Proof.
  destruct t as [|c r]; [done|]. simpl. intros [Hc Hr]%andb_true_iff.
  by rewrite (first_rest c Hc), Hr.
Qed.

(** A name that goes on after a non-empty start consists of [rest]
    characters from there. *)
Lemma name_app_forallb u t :
  u ≠ "" → is_name first rest (u +:+ t) = true →
  Str.forallb rest u = true ∧ Str.forallb rest t = true.
Proof.
  intros Hu Hname. apply name_forallb in Hname.
  rewrite str_forallb_app in Hname. by apply andb_true_iff in Hname.
Qed.

Lemma maximal_left_empty t : maximal_left (is_name first rest) "" t.
Proof. intros p u Heq Hu. symmetry in Heq. by apply app_eq_empty in Heq as [_ ?]. Qed.

Lemma maximal_left_suffix a b t :
  maximal_left (is_name first rest) (a +:+ b) t → maximal_left (is_name first rest) b t.
Proof.
  intros Hmax p u -> Hu. apply (Hmax (a +:+ p) u); [|done]. by rewrite app_assoc_s.
Qed.

(** Before a name there is no start of a longer name when the text in
    front ends with a character outside [rest]. *)
Lemma maximal_left_barrier a b pre t :
  rest b = false →
  maximal_left (is_name first rest) pre t →
  maximal_left (is_name first rest) ((a +:+ String b "") +:+ pre) t.
Proof.
  intros Hb Hmax p u Heq Hu. symmetry in Heq.
  destruct (app_eq_app _ _ _ _ Heq) as [(m & Ha & ->)|(m & -> & ->)].
  - destruct (decide (m = "")) as [->|Hm].
    { rewrite app_empty_l. apply (Hmax "" pre); [done|]. by rewrite app_empty_l in Hu. }
    destruct (is_name first rest ((m +:+ pre) +:+ t)) eqn:Hname; [|done]. exfalso.
    rewrite <- app_assoc_s in Hname.
    apply name_app_forallb in Hname as [Hm' _]; [|done].
    symmetry in Ha.
    destruct (app_eq_app _ _ _ _ Ha) as [(m' & -> & ->)|(m' & -> & Hb')].
    + rewrite str_forallb_app in Hm'. apply andb_true_iff in Hm' as [_ Hm'].
      simpl in Hm'. by rewrite Hb in Hm'.
    + destruct m' as [|c m'].
      * rewrite app_empty_l in Hb'. subst m. simpl in Hm'. by rewrite Hb in Hm'.
      * rewrite app_cons in Hb'. injection Hb' as <- Hb'.
        symmetry in Hb'. apply app_eq_empty in Hb' as [_ ->]. done.
  - by apply (Hmax m u).
Qed.

Lemma maximal_right_stops t post :
  is_name first rest t = true →
  (∀ c r, post = String c r → rest c = false) →
  maximal_right (is_name first rest) t post.
Proof.
  intros Ht Hpost v q -> Hv. destruct v as [|c v]; [done|].
  destruct (is_name first rest (t +:+ String c v)) eqn:Hname; [|done]. exfalso.
  apply name_forallb in Hname. rewrite str_forallb_app in Hname.
  apply andb_true_iff in Hname as [_ Hname]. simpl in Hname.
  rewrite (Hpost c (v +:+ q)) in Hname; done.
Qed.

Lemma maximal_right_head t post c r :
  is_name first rest t = true →
  maximal_right (is_name first rest) t post → post = String c r → rest c = false.
Proof.
  intros Ht Hmax ->. specialize (Hmax (String c "") r eq_refl).
  destruct (rest c) eqn:Hc; [|done].
  rewrite <- Hmax; [|done]. destruct t as [|c0 t]; [done|].
  simpl in *. rewrite str_forallb_app. simpl. rewrite Hc.
  apply andb_true_iff in Ht as [-> ->]. done.
Qed.
End names.

Lemma maximal_left_cons first rest c pre t :
  is_name first rest (String c (pre +:+ t)) = false →
  maximal_left (is_name first rest) pre t →
  maximal_left (is_name first rest) (String c pre) t.
Proof.
  intros Hc Hmax p u Heq Hu. destruct p as [|c' p].
  - rewrite app_empty_l in Heq. subst u. by rewrite app_cons.
  - rewrite app_cons in Heq. injection Heq as <- ->. by apply (Hmax p u).
Qed.

(** *** Metric names: the matches are the maximal names of the line *)

Lemma findall_metric_sound line t :
  t ∈ findall metric_pattern line →
  ∃ pre post, line = pre +:+ t +:+ post
    ∧ is_metric_name t = true
    ∧ maximal_left is_metric_name pre t
    ∧ maximal_right is_metric_name t post.
Proof.
  remember (String.length line) as n eqn:Hn. revert line t Hn.
  induction n as [n IH] using lt_wf_ind. intros [|c s] t -> Hin.
  { by apply elem_of_nil in Hin. }
  rewrite findall_metric_cons in Hin.
  pose proof (span_app metric_rest s) as Hs.
  pose proof (span_forallb metric_rest s) as Hw.
  pose proof (span_stops metric_rest s) as Hstop.
  destruct (Str.span metric_rest s) as [w r]. cbn [fst snd] in *.
  destruct (metric_first c) eqn:Hc.
  - apply elem_of_cons in Hin as [->|Hin].
    + exists "", r. split; [by rewrite <- Hs|].
      assert (Hname : is_metric_name (String c w) = true).
      { unfold is_metric_name. simpl. by rewrite Hc, Hw. }
      split; [done|]. split; [apply maximal_left_empty|].
      apply maximal_right_stops; [apply metric_first_rest|done|done].
    + destruct (IH (String.length r)) with (line := r) (t := t)
        as (pre0 & post & Hr & Hname & Hleft & Hright); [|done|done|].
      { subst s. simpl. rewrite length_app_s. lia. }
      exists (String c w +:+ pre0), post. split; [|split; [done|split; [|done]]].
      { by rewrite <- app_assoc_s, <- Hr, app_cons, Hs. }
      destruct pre0 as [|e pre0].
      * exfalso. rewrite app_empty_l in Hr. destruct t as [|e t]; [done|].
        rewrite app_cons in Hr.
        unfold is_metric_name in Hname. simpl in Hname.
        apply andb_true_iff in Hname as [He _].
        apply metric_first_rest in He. by rewrite (Hstop _ _ Hr) in He.
      * rewrite app_cons in Hr.
        replace (String c w +:+ String e pre0)
          with ((String c w +:+ String e "") +:+ pre0)
          by (by rewrite <- app_assoc_s).
        apply maximal_left_barrier;
          [apply metric_first_rest|by eapply Hstop|].
        by apply (maximal_left_suffix _ _ (String e "") pre0).
  - destruct (IH (String.length s)) with (line := s) (t := t)
      as (pre0 & post & Hs' & Hname & Hleft & Hright); [simpl; lia|done|done|].
    exists (String c pre0), post. split; [by rewrite Hs'|].
    split; [done|]. split; [|done].
    apply maximal_left_cons; [|done]. simpl. by rewrite Hc.
Qed.

Lemma findall_metric_complete pre t post :
  is_metric_name t = true →
  maximal_left is_metric_name pre t →
  maximal_right is_metric_name t post →
  t ∈ findall metric_pattern (pre +:+ t +:+ post).
Proof.
  intros Hname Hleft Hright.
  remember (String.length pre) as n eqn:Hn. revert pre Hleft Hn.
  induction n as [n IH] using lt_wf_ind. intros [|a pre] Hleft ->.
  - rewrite app_empty_l. destruct t as [|c r]; [done|].
    rewrite app_cons, findall_metric_cons.
    pose proof Hname as Hname'. unfold is_metric_name in Hname'. simpl in Hname'.
    apply andb_true_iff in Hname' as [Hc Hr]. rewrite Hc.
    rewrite (span_all metric_rest r post Hr).
    + by left.
    + intros e q ->. by eapply (maximal_right_head metric_first metric_rest).
  - rewrite app_cons, findall_metric_cons.
    destruct (metric_first a) eqn:Ha.
    + right.
      destruct (forallb_split metric_rest pre) as [Hall|(w & b & x & -> & Hw & Hb)].
      { exfalso.
        assert (is_metric_name (String a pre +:+ t) = true) as Htrue.
        { unfold is_metric_name. rewrite app_cons. simpl.
          rewrite Ha, str_forallb_app, Hall. simpl.
          apply (name_forallb metric_first metric_rest metric_first_rest _ Hname). }
        rewrite (Hleft "" (String a pre)) in Htrue; done. }
      rewrite <- app_assoc_s.
      rewrite (span_all metric_rest w _ Hw); [|by intros e q [= <- _]].
      cbn [snd]. rewrite app_cons.
      replace (String b (x +:+ t +:+ post)) with (String b x +:+ t +:+ post) by done.
      apply (IH (String.length (String b x))); [|by eapply maximal_left_suffix with
        (a := String a w)|done].
      simpl. rewrite length_app_s. simpl. lia.
    + apply (IH (String.length pre)); [simpl; lia| |done].
      by apply (maximal_left_suffix _ _ (String a "") pre).
Qed.

Lemma findall_metric_maximal line t :
  t ∈ findall metric_pattern line ↔
  ∃ pre post, line = pre +:+ t +:+ post
    ∧ is_metric_name t = true
    ∧ maximal_left is_metric_name pre t
    ∧ maximal_right is_metric_name t post.
Proof.
  split; [apply findall_metric_sound|].
  intros (pre & post & -> & ? & ? & ?). by apply findall_metric_complete.
Qed.

(** *** Label keys: the matches are the maximal names in front of an equals sign *)

Lemma equals_is_char e : is_char "=" e = true → e = "="%char.
Proof. unfold is_char. apply Ascii.eqb_eq. Qed.

Lemma spaces_then_equals_head ws post e q :
  Str.forallb is_space ws = true →
  ws +:+ "=" +:+ post = String e q → label_rest e = false.
Proof.
  intros Hws Heq. destruct ws as [|c ws].
  - rewrite app_empty_l in Heq. by injection Heq as <- _.
  - rewrite app_cons in Heq. injection Heq as <- _. simpl in Hws.
    apply andb_true_iff in Hws as [Hc _].
    destruct (label_rest c) eqn:Hr; [|done]. by rewrite (label_rest_not_space c Hr) in Hc.
Qed.

Lemma span_spaces_then_equals ws post :
  Str.forallb is_space ws = true →
  Str.span is_space (ws +:+ "=" +:+ post) = (ws, "=" +:+ post).
Proof. intros Hws. apply span_all; [done|]. by intros e q [= <- _]. Qed.

Lemma span_name_then_equals x ws post :
  Str.forallb label_rest x = true → Str.forallb is_space ws = true →
  Str.span label_rest (x +:+ ws +:+ "=" +:+ post) = (x, ws +:+ "=" +:+ post).
Proof.
  intros Hx Hws. apply span_all; [done|]. intros e q Heq.
  by eapply spaces_then_equals_head.
Qed.

(** When the attempt at [c] fails, the text behind [c] does not go on as a
    name up to an equals sign. *)
Lemma label_attempt_fails c s pre l ws post :
  match (Str.span is_space (Str.span label_rest s).2).2 with
  | String e _ => is_char "=" e
  | EmptyString => false
  end = false →
  s = pre +:+ l +:+ ws +:+ "=" +:+ post →
  Str.forallb is_space ws = true →
  is_label_name l = true →
  is_name label_first label_rest (String c (pre +:+ l)) = false.
Proof.
  intros Hfail -> Hws Hl.
  destruct (is_name label_first label_rest (String c (pre +:+ l))) eqn:Hname; [|done].
  exfalso. simpl in Hname. apply andb_true_iff in Hname as [_ Hall].
  rewrite app_assoc_s in Hfail.
  rewrite (span_name_then_equals (pre +:+ l) ws post Hall Hws) in Hfail. cbn [snd] in Hfail.
  rewrite (span_spaces_then_equals ws post Hws) in Hfail. cbn [snd] in Hfail.
  done.
Qed.

Lemma findall_label_sound line l :
  l ∈ findall label_pattern line →
  ∃ pre ws post, line = pre +:+ l +:+ ws +:+ "=" +:+ post
    ∧ is_label_name l = true
    ∧ Str.forallb is_space ws = true
    ∧ maximal_left is_label_name pre l.
Proof.
  remember (String.length line) as n eqn:Hn. revert line l Hn.
  induction n as [n IH] using lt_wf_ind. intros [|c s] l -> Hin.
  { by apply elem_of_nil in Hin. }
  rewrite findall_label_cons in Hin.
  assert (Hskip : l ∈ findall label_pattern s →
    is_name label_first label_rest (String c "") = false
    ∨ match (Str.span is_space (Str.span label_rest s).2).2 with
      | String e _ => is_char "=" e
      | EmptyString => false
      end = false →
    ∃ pre ws post, String c s = pre +:+ l +:+ ws +:+ "=" +:+ post
      ∧ is_label_name l = true
      ∧ Str.forallb is_space ws = true
      ∧ maximal_left is_label_name pre l).
  { intros Hin' Hwhy.
    destruct (IH (String.length s)) with (line := s) (l := l)
      as (pre0 & ws & post & Hs & Hname & Hws & Hleft); [simpl; lia|done|done|].
    exists (String c pre0), ws, post. split; [by rewrite Hs|].
    split; [done|]. split; [done|].
    apply maximal_left_cons; [|done].
    destruct Hwhy as [Hc|Hfail].
    - simpl in *. apply andb_false_iff in Hc as [->|?]; done.
    - by eapply label_attempt_fails. }
  destruct (label_first c) eqn:Hc;
    [|apply Hskip; [done|left; simpl; by rewrite Hc]].
  pose proof (span_app label_rest s) as Hs.
  pose proof (span_forallb label_rest s) as Hw.
  pose proof (span_app is_space (Str.span label_rest s).2) as Hr1.
  pose proof (span_forallb is_space (Str.span label_rest s).2) as Hsp.
  destruct (Str.span is_space (Str.span label_rest s).2).2 as [|e r3] eqn:Hr2;
    [apply Hskip; [done|by right]|].
  destruct (is_char "=" e) eqn:He; [|apply Hskip; [done|by right]].
  apply equals_is_char in He as ->. clear Hskip.
  destruct (Str.span label_rest s) as [w r1]. cbn [fst snd] in *.
  destruct (Str.span is_space r1) as [sp r2]. cbn [fst snd] in *. subst r2 r1 s.
  apply elem_of_cons in Hin as [->|Hin].
  - exists "", sp, r3. split; [done|]. split; [|split; [done|apply maximal_left_empty]].
    unfold is_label_name. simpl. by rewrite Hc, Hw.
  - destruct (IH (String.length r3)) with (line := r3) (l := l)
      as (pre0 & ws & post & Hs & Hname & Hws & Hleft); [|done|done|].
    { simpl. rewrite !length_app_s. simpl. lia. }
    exists (((String c w +:+ sp) +:+ String "=" "") +:+ pre0), ws, post.
    split; [|split; [done|split; [done|]]].
    + rewrite Hs. rewrite <- !app_assoc_s. done.
    + apply maximal_left_barrier; [apply label_first_rest|done|done].
Qed.

Lemma findall_label_complete pre l ws post :
  is_label_name l = true →
  Str.forallb is_space ws = true →
  maximal_left is_label_name pre l →
  l ∈ findall label_pattern (pre +:+ l +:+ ws +:+ "=" +:+ post).
Proof.
  intros Hname Hws Hleft.
  assert (Hl : Str.forallb label_rest l = true)
    by apply (name_forallb label_first label_rest label_first_rest _ Hname).
  remember (String.length pre) as n eqn:Hn. revert pre Hleft Hn.
  induction n as [n IH] using lt_wf_ind. intros [|a pre] Hleft ->.
  - rewrite app_empty_l. destruct l as [|c r]; [done|].
    rewrite app_cons, findall_label_cons.
    pose proof Hname as Hname'. unfold is_label_name in Hname'. simpl in Hname'.
    apply andb_true_iff in Hname' as [Hc Hr]. rewrite Hc.
    rewrite (span_name_then_equals r ws post Hr Hws). cbn [fst snd].
    rewrite (span_spaces_then_equals ws post Hws). cbn [snd].
    change (is_char "=" "=") with true. cbv iota. by left.
  - assert (Hnext : l ∈ findall label_pattern (pre +:+ l +:+ ws +:+ "=" +:+ post)).
    { apply (IH (String.length pre)); [simpl; lia| |done].
      by apply (maximal_left_suffix _ _ (String a "") pre). }
    rewrite app_cons, findall_label_cons.
    destruct (label_first a) eqn:Ha; [|done].
    destruct (Str.span is_space
                (Str.span label_rest (pre +:+ l +:+ ws +:+ "=" +:+ post)).2).2
      as [|e r3] eqn:Hr2; [done|].
    destruct (is_char "=" e) eqn:He; [|done].
    right. apply equals_is_char in He as ->.
    destruct (forallb_split label_rest pre) as [Hall|(w & b & x & -> & Hw & Hb)].
    { exfalso.
      assert (is_label_name (String a pre +:+ l) = true) as Htrue.
      { unfold is_label_name. rewrite app_cons. simpl.
        by rewrite Ha, str_forallb_app, Hall, Hl. }
      rewrite (Hleft "" (String a pre)) in Htrue; done. }
    rewrite <- app_assoc_s in Hr2.
    rewrite (span_all label_rest w _ Hw) in Hr2; [|by intros e q [= <- _]].
    cbn [snd] in Hr2.
    destruct (forallb_split is_space (String b x)) as [Hall|(sp & d & x' & Hbx & Hsp & Hd)].
    + exfalso.
      rewrite (span_all is_space (String b x) _ Hall) in Hr2.
      * cbn [snd] in Hr2. destruct l as [|c r]; [done|].
        rewrite app_cons in Hr2. injection Hr2 as -> _.
        unfold is_label_name, is_name in Hname.
        by rewrite (equals_not_label_first "=") in Hname.
      * intros e q Heq. destruct l as [|c r]; [done|].
        rewrite app_cons in Heq. injection Heq as -> _.
        unfold is_label_name in Hname. simpl in Hname.
        apply andb_true_iff in Hname as [Hc _].
        destruct (is_space e) eqn:Hsp'; [|done].
        by rewrite (space_not_label_first e Hsp') in Hc.
    + assert (Hr2' : String b (x +:+ l +:+ ws +:+ "=" +:+ post)
                     = sp +:+ String d x' +:+ l +:+ ws +:+ "=" +:+ post).
      { change (String b (x +:+ l +:+ ws +:+ "=" +:+ post))
          with (String b x +:+ l +:+ ws +:+ "=" +:+ post).
        rewrite app_assoc_s, Hbx, <- !app_assoc_s. done. }
      rewrite app_cons, Hr2' in Hr2.
      rewrite (span_all is_space sp _ Hsp) in Hr2; [|by intros e q [= <- _]].
      cbn [snd] in Hr2. rewrite app_cons in Hr2. injection Hr2 as -> <-.
      apply (IH (String.length x')).
      * assert (String.length (String b x) = String.length (sp +:+ String "=" x'))
          as Hlen by (by rewrite Hbx).
        simpl. simpl in Hlen. rewrite !length_app_s in *. simpl in *. lia.
      * apply (maximal_left_suffix _ _ ((String a w +:+ sp) +:+ String "=" "")).
        replace (((String a w +:+ sp) +:+ String "=" "") +:+ x')
          with (String a (w +:+ String b x)); [done|].
        rewrite Hbx. rewrite <- !app_assoc_s. done.
      * done.
Qed.

Lemma findall_label_maximal line l :
  l ∈ findall label_pattern line ↔
  ∃ pre ws post, line = pre +:+ l +:+ ws +:+ "=" +:+ post
    ∧ is_label_name l = true
    ∧ Str.forallb is_space ws = true
    ∧ maximal_left is_label_name pre l.
Proof.
  split; [apply findall_label_sound|].
  intros (pre & ws & post & -> & ? & ? & ?). by apply findall_label_complete.
Qed.

(** C3, as the code has it. The metric names that a line contributes are
    its maximal matches of the metric-name pattern: the texts of the shape
    [[A-Za-z_:][A-Za-z0-9_:]*] that occur in the line, anywhere in it,
    and that no longer such text of the line contains at the same place.
    Each of them becomes a key of the index whose source set holds the tag
    of the line, so the list made of that set names the tag exactly once;
    no other key changes. *)
Theorem metric_names_are_maximal_matches
    (source : string) (u : gmap string (gset string) * gset string) (line t : string) :
  (t ∈ findall metric_pattern line ↔
     ∃ pre post, line = pre +:+ t +:+ post
       ∧ is_metric_name t = true
       ∧ maximal_left is_metric_name pre t
       ∧ maximal_right is_metric_name t post)
  ∧ (t ∈ findall metric_pattern line →
     ∃ (sources : gset string) (before after : list string),
       (scan_line source u line).1 !! t = Some sources
       ∧ elements sources = before ++ source :: after
       ∧ (source ∉ before) ∧ (source ∉ after))
  ∧ (t ∉ findall metric_pattern line →
     (scan_line source u line).1 !! t = u.1 !! t).
Proof.
  split; [apply findall_metric_maximal|].
  unfold scan_line. cbn [fst]. rewrite foldl_add_metric_lookup. split; intros Hin.
  - rewrite decide_True by done. eexists.
    assert (Hsrc : source ∈ elements (default ∅ (u.1 !! t) ∪ {[source]})).
    { apply elem_of_elements, elem_of_union_r, elem_of_singleton. reflexivity. }
    apply list_elem_of_split in Hsrc as (before & after & Heq).
    exists before, after. split; [done|]. split; [done|].
    pose proof (NoDup_elements (default ∅ (u.1 !! t) ∪ {[source]})) as Hnd.
    rewrite Heq in Hnd. apply NoDup_app in Hnd as (_ & Hdis & Hnd).
    apply NoDup_cons in Hnd as [Hafter _]. split; [|done].
    intros Hb. apply (Hdis _ Hb). by left.
  - by rewrite decide_False.
Qed.

(** C3 fails as stated: in the line [ab] the text [b] matches the pattern at
    the second position, yet the scan, which resumes behind the match [ab],
    does not capture it. *)
Lemma inner_match_not_captured :
  "ab" = "a" +:+ "b" +:+ ""
  ∧ is_metric_name "b" = true
  ∧ findall metric_pattern "ab" = ["ab"]
  ∧ (scan_line "grafana" (∅, ∅) "ab").1 !! "b" = None.
Proof. repeat split; reflexivity. Qed.

(** C4, as the code has it. A line adds a key to the LabelUsageSet exactly
    when the key occurs in the line as a maximal identifier of the shape
    [[A-Za-z_][A-Za-z0-9_]*] (it is not the tail of a longer one) that is
    followed, after white space only or none, by an equals sign. The key is
    the identifier itself: it holds no white space and no equals sign. *)
Theorem label_keys_precede_equals
    (source : string) (u : gmap string (gset string) * gset string) (line l : string) :
  (l ∈ (scan_line source u line).2 ↔
     l ∈ u.2
     ∨ ∃ pre ws post, line = pre +:+ l +:+ ws +:+ "=" +:+ post
         ∧ is_label_name l = true
         ∧ Str.forallb is_space ws = true
         ∧ maximal_left is_label_name pre l)
  ∧ (l ∈ findall label_pattern line →
     Str.forallb (λ c, negb (is_space c) && negb (is_char "=" c)) l = true).
Proof.
  split.
  - unfold scan_line. cbn [snd].
    rewrite elem_of_union, elem_of_list_to_set, findall_label_maximal. done.
  - intros (pre & ws & post & _ & Hname & _)%findall_label_maximal.
    apply (name_forallb label_first label_rest label_first_rest) in Hname.
    clear -Hname. induction l as [|c l IH]; [done|]. simpl in *.
    apply andb_true_iff in Hname as [Hc Hl].
    by rewrite (label_rest_not_space c Hc), (label_rest_not_equals c Hc), IH.
Qed.

(** C4 fails as stated: in the line [ab=] the text [b] has the shape of an
    identifier and stands right in front of the equals sign, yet the only
    key that the line adds is [ab]. *)
Lemma identifier_tail_not_added :
  "ab=" = "a" +:+ "b" +:+ "" +:+ "=" +:+ ""
  ∧ is_label_name "b" = true
  ∧ Str.forallb is_space "" = true
  ∧ findall label_pattern "ab=" = ["ab"]
  ∧ "b" ∉ (scan_line "grafana" (∅, ∅) "ab=").2.
Proof.
  repeat split; try reflexivity. apply (bool_decide_unpack _). by vm_compute.
Qed.

(** ** Start-up of the dashboard script *)

(** C9 at the input where it fails: with the Grafana URL set and the
    Grafana session cookie unset, the headers would be the empty,
    unauthenticated ones, but the guard raises before any request. *)
Theorem grafana_cookie_absence_is_fatal (answer : bool) (st : state) :
  let e := Dashboards.Environ (Some "http://localhost:3000") None
                              (Some "http://localhost:9093") None in
  Dashboards.headers e = ∅
  ∧ Dashboards.run e answer st
    = (inl (EnvironmentError "GRAFANA_URL and GRAFANA_SESSION_COOKIE must be set"), st).
Proof. done. Qed.

(** The AlertManager cookie, in contrast, may be absent: the alert step
    sends its request without a cookie. *)
Lemma alertmanager_cookie_is_optional (url cookie am_url : string) (st : state) :
  url ≠ "" → cookie ≠ "" → am_url ≠ "" →
  Dashboards.run (Dashboards.Environ (Some url) (Some cookie) (Some am_url) None) true st
  = (inr ({["Cookie" := "grafana_session=" +:+ cookie]}, Some ∅), st).
Proof.
  intros Hurl Hcookie Ham. unfold Dashboards.run, Dashboards.guarded, Dashboards.alert_step,
    Dashboards.headers, Dashboards.alertmanager_headers, truthy. simpl.
  apply String.eqb_neq in Hurl, Hcookie, Ham. by rewrite Hurl, Hcookie, Ham.
Qed.
(** ** The JSON artifact *)

Lemma json_induction (P : json → Prop) :
  P JNull → (∀ b, P (JBool b)) → (∀ z, P (JInt z)) → (∀ s, P (JStr s)) →
  (∀ items, Forall P items → P (JList items)) →
  (∀ members, Forall (λ kv, P kv.2) members → P (JDict members)) →
  ∀ j, P j.
Proof.
  intros Hnull Hbool Hint Hstr Hlist Hdict. fix IH 1. intros [| | | |items|members].
  - exact Hnull.
  - apply Hbool.
  - apply Hint.
  - apply Hstr.
  - apply Hlist. induction items as [|item items IHitems]; constructor; [apply IH|exact IHitems].
  - apply Hdict. induction members as [|[k v] members IHm]; constructor; [apply IH|exact IHm].
Qed.

(** *** String literals *)

Lemma parse_escape_char c t :
  parse_chars (escape_char c +:+ t) =
    match parse_chars t with
    | Some (text, rest) => Some (String c text, rest)
    | None => None
    end.
Proof. destruct c as [[] [] [] [] [] [] [] []]; reflexivity. Qed.

Lemma parse_escape s rest :
  parse_chars (escape s +:+ dquote +:+ rest) = Some (s, rest).
Proof.
  induction s as [|c s IH]; [done|].
  cbn [escape]. rewrite <- app_assoc_s, parse_escape_char, IH. done.
Qed.

(** *** Integer literals *)

Lemma digits_of_uint u : Str.forallb is_digit (NilEmpty.string_of_uint u) = true.
Proof. induction u; simpl; [done|by rewrite IHu..]. Qed.

Lemma span_digits u rest :
  number_stops rest →
  Str.span is_digit (NilEmpty.string_of_uint u +:+ rest)
  = (NilEmpty.string_of_uint u, rest).
Proof.
  intros Hstop. apply span_all; [apply digits_of_uint|].
  intros c r Hr. by destruct (Hstop c r Hr).
Qed.

Lemma to_uint_head p : ∀ d, Pos.to_uint p ≠ Decimal.D0 d.
Proof.
  intros d Hd.
  pose proof (DecimalPos.Unsigned.to_of (Pos.to_uint p)) as Hnorm.
  rewrite DecimalPos.Unsigned.of_to in Hnorm. simpl in Hnorm.
  rewrite Hd in Hnorm. unfold Decimal.unorm in Hnorm. simpl in Hnorm.
  destruct (Decimal.nzhead d) eqn:Hnz.
  - injection Hnorm as ->. exact (DecimalPos.Unsigned.to_uint_nonzero p Hd).
  - exact (nzhead_nonzero d _ Hnz).
  - discriminate.
  - discriminate.
  - discriminate.
  - discriminate.
  - discriminate.
  - discriminate.
  - discriminate.
  - discriminate.
  - discriminate.
Qed.

Lemma of_to_uint p : Z.of_uint (Pos.to_uint p) = Zpos p.
Proof. unfold Z.of_uint. by rewrite DecimalPos.Unsigned.of_to. Qed.

(** The digits of a positive number, read back. *)
Lemma parse_digits_pos p rest :
  number_stops rest →
  ∃ d more, NilEmpty.string_of_uint (Pos.to_uint p) = String d more
    ∧ is_digit d = true ∧ is_char "0" d = false ∧ is_char "-" d = false
    ∧ Str.span is_digit (String d more +:+ rest) = (String d more, rest)
    ∧ NilEmpty.uint_of_string (String d more) = Some (Pos.to_uint p).
Proof.
  intros Hstop.
  pose proof (span_digits (Pos.to_uint p) rest Hstop) as Hspan.
  pose proof (NilEmpty.usu (Pos.to_uint p)) as Husu.
  pose proof (digits_of_uint (Pos.to_uint p)) as Hdig.
  pose proof (to_uint_head p) as Hhead.
  pose proof (DecimalPos.Unsigned.to_uint_nonnil p) as Hnil.
  destruct (Pos.to_uint p) as [|u|u|u|u|u|u|u|u|u|u]; try done;
    try (by destruct (Hhead u)); eexists _, _; (split; [reflexivity|]); done.
Qed.

Lemma integer_only_stops n rest :
  number_stops rest → integer_only (n, rest) = Some (n, rest).
Proof.
  intros Hstop. unfold integer_only. cbn [snd]. destruct rest as [|c r]; [done|].
  destruct (Hstop c r eq_refl) as (_ & -> & -> & ->). done.
Qed.

Lemma parse_natural_zero rest :
  number_stops rest → parse_natural (String "0" rest) = Some (0%Z, rest).
Proof.
  intros Hstop. unfold parse_natural.
  change (String "0" rest) with ("0" +:+ rest).
  rewrite (span_all is_digit "0" rest eq_refl); [done|].
  intros c r Hr. by destruct (Hstop c r Hr).
Qed.

Lemma parse_natural_pos p rest :
  number_stops rest →
  parse_natural (NilEmpty.string_of_uint (Pos.to_uint p) +:+ rest) = Some (Zpos p, rest).
Proof.
  intros Hstop.
  destruct (parse_digits_pos p rest Hstop) as (d & more & Hs & Hd & H0 & Hm & Hspan & Hu).
  unfold parse_natural. rewrite Hs, Hspan. cbv beta iota. rewrite H0, Hu.
  cbn [mbind option_bind]. by rewrite of_to_uint.
Qed.

Lemma int_str_pos p : int_str (Zpos p) = NilEmpty.string_of_uint (Pos.to_uint p).
Proof.
  unfold int_str. simpl Z.to_int. unfold NilZero.string_of_int, NilZero.string_of_uint.
  pose proof (DecimalPos.Unsigned.to_uint_nonnil p). by destruct (Pos.to_uint p).
Qed.

Lemma int_str_neg p :
  int_str (Zneg p) = String "-" (NilEmpty.string_of_uint (Pos.to_uint p)).
Proof.
  unfold int_str. simpl Z.to_int. unfold NilZero.string_of_int, NilZero.string_of_uint.
  pose proof (DecimalPos.Unsigned.to_uint_nonnil p). by destruct (Pos.to_uint p).
Qed.

Lemma parse_int_unsigned d more :
  is_char "-" d = false →
  parse_int (String d more) = parse_natural (String d more) ≫= integer_only.
Proof. intros Hd. unfold parse_int. by rewrite Hd. Qed.

Lemma parse_int_str z rest :
  number_stops rest → parse_int (int_str z +:+ rest) = Some (z, rest).
Proof.
  intros Hstop. destruct z as [|p|p].
  - change (int_str 0 +:+ rest) with (String "0" rest). unfold parse_int.
    change (is_char "-" "0") with false. cbv iota.
    rewrite parse_natural_zero by done. cbn [mbind option_bind].
    by apply integer_only_stops.
  - rewrite int_str_pos.
    destruct (parse_digits_pos p rest Hstop) as (d & more & Hs & Hd & H0 & Hm & Hspan & Hu).
    rewrite Hs, app_cons, (parse_int_unsigned d _ Hm), <- app_cons, <- Hs.
    rewrite parse_natural_pos by done. cbn [mbind option_bind].
    by apply integer_only_stops.
  - rewrite int_str_neg, app_cons. unfold parse_int.
    change (is_char "-" "-") with true. cbv iota.
    rewrite parse_natural_pos by done. cbn [mbind option_bind fst snd].
    by apply integer_only_stops.
Qed.

(** An integer literal starts with a digit or the minus sign. *)
Lemma int_str_head z :
  ∃ c r, int_str z = String c r ∧ (is_digit c = true ∨ c = "-"%char).
Proof.
  destruct z as [|p|p].
  - exists "0"%char, "". by split; [|left].
  - rewrite int_str_pos.
    destruct (parse_digits_pos p "" ltac:(by intros ??)) as (d & more & Hs & Hd & _).
    exists d, more. split; [done|by left].
  - rewrite int_str_neg. eexists _, _. split; [done|by right].
Qed.

(** *** White space and the first character of a value *)

Lemma spaces_are_space n : Str.forallb is_json_space (spaces n) = true.
Proof. induction n as [|n IH]; [done|]. simpl. by rewrite IH. Qed.

Lemma skip_newline_indent level c r :
  is_json_space c = false →
  skip_space (newline_indent level +:+ String c r) = String c r.
Proof.
  intros Hc. unfold skip_space, newline_indent.
  rewrite (span_all is_json_space (nl +:+ spaces (2 * level)) (String c r)); [done| |].
  - rewrite str_forallb_app. by rewrite spaces_are_space.
  - by intros ?? [= <- _].
Qed.

Lemma skip_space_none c r : is_json_space c = false → skip_space (String c r) = String c r.
Proof. intros Hc. unfold skip_space. simpl. by rewrite Hc. Qed.

Lemma digit_or_minus_head c :
  is_digit c = true ∨ c = "-"%char →
  starts_value c ∧ is_char "034" c = false ∧ is_char "[" c = false
  ∧ is_char "{" c = false
  ∧ ∀ r, String.prefix "null" (String c r) = false
         ∧ String.prefix "true" (String c r) = false
         ∧ String.prefix "false" (String c r) = false.
Proof.
  intros [Hc| ->]; [|by repeat split].
  destruct c as [[] [] [] [] [] [] [] []]; try discriminate Hc; by repeat split.
Qed.

Lemma dump_head level j : ∃ c r, dump level j = String c r ∧ starts_value c.
Proof.
  destruct j as [|[]|z|s|[|item items]|[|kv members]];
    try (eexists _, _; split; [reflexivity|by repeat split]).
  destruct (int_str_head z) as (c & r & Hz & Hc). exists c, r. split; [done|].
  by apply digit_or_minus_head.
Qed.

Lemma dump_length level j : 1 ≤ String.length (dump level j).
Proof. destruct (dump_head level j) as (c & r & -> & _). simpl. lia. Qed.

(** *** The descent, one step at a time *)

Lemma parse_value_str fuel s :
  parse_value (S fuel) (String "034" s) =
    match parse_chars s with
    | Some (text, rest) => Some (JStr text, rest)
    | None => None
    end.
Proof. reflexivity. Qed.

Lemma parse_value_list fuel s :
  parse_value (S fuel) (String "[" s) =
    match skip_space s with
    | String e s2 =>
        if is_char "]" e then Some (JList [], s2)
        else match parse_items fuel (String e s2) with
             | Some (items, rest) => Some (JList items, rest)
             | None => None
             end
    | EmptyString => None
    end.
Proof. reflexivity. Qed.

Lemma parse_value_dict fuel s :
  parse_value (S fuel) (String "{" s) =
    match skip_space s with
    | String e s2 =>
        if is_char "}" e then Some (JDict [], s2)
        else match parse_members fuel (String e s2) with
             | Some (pairs, rest) => Some (JDict (dict_of_pairs pairs), rest)
             | None => None
             end
    | EmptyString => None
    end.
Proof. reflexivity. Qed.

Lemma parse_value_int fuel c r :
  is_digit c = true ∨ c = "-"%char →
  parse_value (S fuel) (String c r) =
    match parse_int (String c r) with
    | Some (n, rest) => Some (JInt n, rest)
    | None => None
    end.
Proof.
  intros Hc. destruct (digit_or_minus_head c Hc) as (_ & Hq & Hl & Hd & Hp).
  destruct (Hp r) as (Hn & Ht & Hf).
  cbn [parse_value]. rewrite Hq, Hl, Hd, Hn, Ht, Hf. reflexivity.
Qed.

Lemma parse_items_step fuel s :
  parse_items (S fuel) s =
    match parse_value fuel s with
    | Some (item, rest) =>
        match skip_space rest with
        | String c s1 =>
            if is_char "," c then
              match parse_items fuel (skip_space s1) with
              | Some (items, rest') => Some (item :: items, rest')
              | None => None
              end
            else if is_char "]" c then Some ([item], s1)
            else None
        | EmptyString => None
        end
    | None => None
    end.
Proof. reflexivity. Qed.

Lemma parse_members_step fuel s :
  parse_members (S fuel) (String "034" s) =
    match parse_chars s with
    | Some (key, rest) =>
        match skip_space rest with
        | String c s2 =>
            if is_char ":" c then
              match parse_value fuel (skip_space s2) with
              | Some (value, rest') =>
                  match skip_space rest' with
                  | String d s3 =>
                      if is_char "," d then
                        match parse_members fuel (skip_space s3) with
                        | Some (pairs, rest'') => Some ((key, value) :: pairs, rest'')
                        | None => None
                        end
                      else if is_char "}" d then Some ([(key, value)], s3)
                      else None
                  | EmptyString => None
                  end
              | None => None
              end
            else None
        | EmptyString => None
        end
    | None => None
    end.
Proof. reflexivity. Qed.

(** *** Reading back what [dump] wrote *)

Lemma comma_stops r : number_stops (String "," r).
Proof. by intros c r' [= <- _]. Qed.

Lemma newline_stops level r : number_stops (newline_indent level +:+ r).
Proof. by intros c r' [= <- _]. Qed.

Lemma join_cons2 sep x y l :
  Str.join sep (x :: y :: l) = x +:+ sep +:+ Str.join sep (y :: l).
Proof. reflexivity. Qed.

Lemma dict_set_fresh members k v :
  k ∉ members.*1 → dict_set members k v = members ++ [(k, v)].
Proof.
  induction members as [|[k' v'] members IH]; intros Hk; [done|].
  simpl in *. apply not_elem_of_cons in Hk as [Hne Hk].
  destruct (String.eqb_spec k k') as [->|_]; [done|]. by rewrite IH.
Qed.

Lemma dict_of_pairs_nodup pairs :
  NoDup pairs.*1 → dict_of_pairs pairs = pairs.
Proof.
  unfold dict_of_pairs.
  assert (Hgen : ∀ d : list (string * json),
    NoDup (d ++ pairs).*1 → foldl (λ d kv, dict_set d kv.1 kv.2) d pairs = d ++ pairs).
  { induction pairs as [|[k v] pairs IH]; intros d Hnd; simpl.
    - by rewrite app_nil_r.
    - rewrite dict_set_fresh.
      + rewrite IH; [by rewrite <- app_assoc|]. by rewrite <- app_assoc.
      + rewrite fmap_app in Hnd. apply NoDup_app in Hnd as (_ & Hdis & _).
        intros Hin. apply (Hdis _ Hin). simpl. by left. }
  intros Hnd. by rewrite Hgen.
Qed.

Section read_items.
Context (level : nat).
Let sep := "," +:+ newline_indent (S level).

Lemma parse_items_dump items rest fuel :
  items ≠ [] →
  Forall reads_back items →
  2 * String.length (Str.join sep (map (dump (S level)) items)) + 1 < fuel →
  parse_items fuel (Str.join sep (map (dump (S level)) items)
                    +:+ newline_indent level +:+ "]" +:+ rest)
  = Some (items, rest).
Proof.
  intros Hne Hall. revert fuel. induction Hall as [|item items Hitem Hall IH]; [done|].
  intros [|fuel] Hfuel; [lia|]. rewrite parse_items_step.
  destruct items as [|item2 items].
  - cbn [map Str.join] in *.
    rewrite (Hitem (S level) _ fuel (newline_stops level _)) by lia.
    change (newline_indent level +:+ "]" +:+ rest)
      with (newline_indent level +:+ String "]" rest).
    rewrite skip_newline_indent by done. done.
  - cbn [map] in *. rewrite join_cons2 in *.
    pose proof (dump_length (S level) item) as Hlen.
    set (J := Str.join sep (dump (S level) item2 :: map (dump (S level)) items)) in *.
    rewrite !length_app_s in Hfuel.
    assert (Hsep : 1 ≤ String.length sep) by (unfold sep; rewrite length_app_s; simpl; lia).
    rewrite <- !app_assoc_s. unfold sep at 1. rewrite <- app_assoc_s.
    rewrite (Hitem (S level) ("," +:+ _) fuel (comma_stops _)) by lia.
    change ("," +:+ newline_indent (S level) +:+ J +:+ newline_indent level +:+ "]" +:+ rest)
      with (String "," (newline_indent (S level) +:+ J +:+ newline_indent level
                        +:+ "]" +:+ rest)).
    rewrite skip_space_none by done. change (is_char "," ",") with true. cbv iota.
    destruct (dump_head (S level) item2) as (c & r & Hhead & Hc & _).
    assert (Hskip : ∀ tail,
      skip_space (newline_indent (S level) +:+ J +:+ tail) = J +:+ tail).
    { intros tail.
      assert (∃ r', J +:+ tail = String c r') as [r' ->].
      { unfold J. destruct items; cbn [map Str.join]; rewrite Hhead; eexists; reflexivity. }
      by apply skip_newline_indent. }
    rewrite Hskip, IH; [done|done|lia].
Qed.

Lemma parse_members_dump members rest fuel :
  members ≠ [] →
  Forall (λ kv, reads_back kv.2) members →
  2 * String.length (Str.join sep
        (map (λ kv, encode_str kv.1 +:+ ": " +:+ dump (S level) kv.2) members)) + 1 < fuel →
  parse_members fuel
    (Str.join sep (map (λ kv, encode_str kv.1 +:+ ": " +:+ dump (S level) kv.2) members)
     +:+ newline_indent level +:+ "}" +:+ rest)
  = Some (members, rest).
Proof.
  intros Hne Hall. revert fuel. induction Hall as [|[k v] members Hv Hall IH]; [done|].
  intros [|fuel] Hfuel; [lia|].
  pose proof (dump_length (S level) v) as Hlen.
  destruct (dump_head (S level) v) as (c & r & Hhead & Hc & _).
  assert (Hentry : ∀ tail,
    number_stops tail →
    2 * String.length (dump (S level) v) < fuel →
    ∀ k' : option (list (string * json) * string) → option (list (string * json) * string),
    match parse_chars (escape k +:+ dquote +:+ ": " +:+ dump (S level) v +:+ tail) with
    | Some (key, rest0) =>
        match skip_space rest0 with
        | String c0 s2 =>
            if is_char ":" c0 then
              match parse_value fuel (skip_space s2) with
              | Some (value, rest') => k' (Some ([(key, value)], rest'))
              | None => None
              end
            else None
        | EmptyString => None
        end
    | None => None
    end = k' (Some ([(k, v)], tail))).
  { intros tail Htail Hf k'. rewrite parse_escape.
    change (": " +:+ dump (S level) v +:+ tail)
      with (String ":" (String " " (dump (S level) v +:+ tail))).
    rewrite skip_space_none by done. change (is_char ":" ":") with true. cbv iota.
    assert (skip_space (String " " (dump (S level) v +:+ tail)) = dump (S level) v +:+ tail)
      as ->.
    { rewrite Hhead, app_cons. unfold skip_space. simpl. by rewrite Hc. }
    by rewrite ((Hv : reads_back v) (S level) tail fuel Htail Hf). }
  destruct members as [|[k2 v2] members].
  - cbn [map Str.join fst snd] in *.
    unfold encode_str at 1. rewrite <- !app_assoc_s.
    change (dquote +:+ escape k +:+ dquote +:+ ": " +:+ dump (S level) v
            +:+ newline_indent level +:+ "}" +:+ rest)
      with (String "034" (escape k +:+ dquote +:+ ": " +:+ dump (S level) v
            +:+ newline_indent level +:+ "}" +:+ rest)).
    rewrite parse_members_step.
    unfold encode_str in Hfuel. rewrite !length_app_s in Hfuel.
    rewrite (Hentry _ (newline_stops level _) ltac:(lia)
               (λ o, match o with
                     | Some ([(key, value)], rest') =>
                         match skip_space rest' with
                         | String d s3 =>
                             if is_char "," d then
                               match parse_members fuel (skip_space s3) with
                               | Some (pairs, rest'') => Some ((key, value) :: pairs, rest'')
                               | None => None
                               end
                             else if is_char "}" d then Some ([(key, value)], s3)
                             else None
                         | EmptyString => None
                         end
                     | _ => None
                     end)).
    change (newline_indent level +:+ "}" +:+ rest)
      with (newline_indent level +:+ String "}" rest).
    rewrite skip_newline_indent by done. done.
  - cbn [map fst snd] in *. rewrite join_cons2 in *.
    unfold encode_str at 1. rewrite <- !app_assoc_s. unfold sep at 1.
    rewrite <- !app_assoc_s.
    change (dquote +:+ escape k +:+ dquote +:+ ": " +:+ dump (S level) v +:+ "," +:+ ?x)
      with (String "034" (escape k +:+ dquote +:+ ": " +:+ dump (S level) v
            +:+ String "," x)).
    rewrite parse_members_step.
    unfold encode_str in Hfuel at 1. rewrite !length_app_s in Hfuel.
    match goal with
    | |- context [dump (S level) v +:+ String "," ?x] =>
        rewrite (Hentry (String "," x) (comma_stops _) ltac:(lia)
               (λ o, match o with
                     | Some ([(key, value)], rest') =>
                         match skip_space rest' with
                         | String d s3 =>
                             if is_char "," d then
                               match parse_members fuel (skip_space s3) with
                               | Some (pairs, rest'') => Some ((key, value) :: pairs, rest'')
                               | None => None
                               end
                             else if is_char "}" d then Some ([(key, value)], s3)
                             else None
                         | EmptyString => None
                         end
                     | _ => None
                     end))
    end.
    rewrite skip_space_none by done. change (is_char "," ",") with true. cbv iota.
    assert (Hskip : ∀ tail,
      skip_space (newline_indent (S level)
        +:+ Str.join sep ((encode_str k2 +:+ ": " +:+ dump (S level) v2)
              :: map (λ kv, encode_str kv.1 +:+ ": " +:+ dump (S level) kv.2) members)
        +:+ tail)
      = Str.join sep ((encode_str k2 +:+ ": " +:+ dump (S level) v2)
              :: map (λ kv, encode_str kv.1 +:+ ": " +:+ dump (S level) kv.2) members)
        +:+ tail).
    { intros tail.
      assert (∃ r', Str.join sep ((encode_str k2 +:+ ": " +:+ dump (S level) v2)
              :: map (λ kv, encode_str kv.1 +:+ ": " +:+ dump (S level) kv.2) members)
                    +:+ tail = String "034" r') as [r' ->].
      { destruct members; cbn [map Str.join]; eexists; reflexivity. }
      by apply skip_newline_indent. }
    rewrite Hskip, IH; [done|done|lia].
Qed.
End read_items.

Lemma wf_list_inv items : wf_json (JList items) → Forall wf_json items.
Proof. by inversion 1. Qed.

Lemma wf_dict_inv members :
  wf_json (JDict members) → NoDup members.*1 ∧ Forall (λ kv, wf_json kv.2) members.
Proof. by inversion 1. Qed.

Lemma dump_reads_back j : wf_json j → reads_back j.
Proof.
  induction j as [|b|z|s|items IH|members IH] using json_induction;
    intros Hwf level rest [|fuel] Hrest Hfuel; try lia.
  - cbn [dump]. by destruct rest.
  - cbn [dump]. by destruct b, rest.
  - cbn [dump]. destruct (int_str_head z) as (c & r & Hz & Hc).
    rewrite Hz, app_cons, (parse_value_int fuel c _ Hc), <- app_cons, <- Hz.
    by rewrite parse_int_str.
  - cbn [dump]. unfold encode_str. rewrite <- !app_assoc_s.
    change (dquote +:+ escape s +:+ dquote +:+ rest)
      with (String "034" (escape s +:+ dquote +:+ rest)).
    by rewrite parse_value_str, parse_escape.
  - apply wf_list_inv in Hwf.
    assert (Hall : Forall reads_back items).
    { clear -IH Hwf. induction IH as [|item items Hitem _ IHitems]; [done|].
      apply Forall_cons in Hwf as [? ?]. constructor; auto. }
    destruct items as [|item items]; [reflexivity|].
    destruct (dump_head (S level) item) as (c & r & Hhead & Hc & Hbracket & _).
    set (sep := "," +:+ newline_indent (S level)).
    set (J := Str.join sep (map (dump (S level)) (item :: items))).
    change (dump level (JList (item :: items)))
      with ("[" +:+ newline_indent (S level) +:+ J +:+ newline_indent level +:+ "]") in *.
    rewrite !length_app_s in Hfuel. cbn [String.length] in Hfuel.
    rewrite <- !app_assoc_s.
    change ("[" +:+ newline_indent (S level) +:+ J +:+ newline_indent level +:+ "]" +:+ rest)
      with (String "[" (newline_indent (S level) +:+ J +:+ newline_indent level
                        +:+ "]" +:+ rest)).
    rewrite parse_value_list.
    assert (∃ r', J +:+ newline_indent level +:+ "]" +:+ rest = String c r') as [r' HJ].
    { unfold J. destruct items; cbn [map Str.join]; rewrite Hhead; eexists; reflexivity. }
    rewrite HJ, skip_newline_indent by done. rewrite Hbracket, <- HJ.
    unfold J, sep in *. rewrite parse_items_dump; [done|done|done|lia].
  - apply wf_dict_inv in Hwf as [Hnd Hwf].
    assert (Hall : Forall (λ kv, reads_back kv.2) members).
    { clear -IH Hwf. induction IH as [|kv members Hkv _ IHm]; [done|].
      apply Forall_cons in Hwf as [? ?]. constructor; auto. }
    destruct members as [|kv members]; [reflexivity|].
    set (sep := "," +:+ newline_indent (S level)).
    set (J := Str.join sep
                (map (λ kv, encode_str kv.1 +:+ ": " +:+ dump (S level) kv.2)
                     (kv :: members))).
    change (dump level (JDict (kv :: members)))
      with ("{" +:+ newline_indent (S level) +:+ J +:+ newline_indent level +:+ "}") in *.
    rewrite !length_app_s in Hfuel. cbn [String.length] in Hfuel.
    rewrite <- !app_assoc_s.
    change ("{" +:+ newline_indent (S level) +:+ J +:+ newline_indent level +:+ "}" +:+ rest)
      with (String "{" (newline_indent (S level) +:+ J +:+ newline_indent level
                        +:+ "}" +:+ rest)).
    rewrite parse_value_dict.
    assert (∃ r', J +:+ newline_indent level +:+ "}" +:+ rest = String "034" r') as [r' HJ].
    { unfold J. destruct members; cbn [map Str.join]; eexists; reflexivity. }
    rewrite HJ, skip_newline_indent by done. change (is_char "}" "034") with false.
    cbv iota. rewrite <- HJ.
    unfold J, sep in *. rewrite parse_members_dump; [|done|done|lia].
    by rewrite dict_of_pairs_nodup.
Qed.

(** Parsing the text that [dumps] wrote gives the value back. *)
Lemma loads_dumps j : wf_json j → loads (dumps j) = Some j.
Proof.
  intros Hwf. unfold loads, dumps.
  destruct (dump_head 0 j) as (c & r & Hhead & Hc & _).
  assert (skip_space (dump 0 j) = dump 0 j) as -> by (rewrite Hhead; by apply skip_space_none).
  rewrite <- (app_empty_r (dump 0 j)) at 2.
  rewrite (dump_reads_back j Hwf 0 "" (2 * String.length (dump 0 j) + 1));
    [|by intros ??|lia].
  reflexivity.
Qed.

(** *** The summary, written and read back *)

Lemma all_of_fmap {A B} (f : B → option A) (g : A → B) (l : list A) :
  (∀ x, f (g x) = Some x) → all_of f (g <$> l) = Some l.
Proof.
  intros Hfg. induction l as [|x l IH]; [done|]. cbn [fmap list_fmap all_of].
  fold (g <$> l). by rewrite Hfg, IH.
Qed.

Lemma label_usage_of_json_inv u : label_usage_of_json (label_usage_json u) = Some u.
Proof.
  destruct u as [count used]. unfold label_usage_of_json, label_usage_json, as_len.
  cbn. rewrite (proj2 (Z.leb_le 0 (Z.of_nat count))) by lia. cbn.
  by rewrite Nat2Z.id.
Qed.

Lemma label_entry_of_json_inv (kv : string * label_usage) :
  label_entry_of_json (prod_map id label_usage_json kv) = Some kv.
Proof.
  destruct kv as [k u]. unfold label_entry_of_json. cbn [prod_map fst snd id].
  by rewrite label_usage_of_json_inv.
Qed.

Lemma report_of_json_inv r : report_of_json (report_json r) = Some r.
Proof.
  destruct r as [name count used sources label_map].
  unfold report_of_json, report_json. cbn.
  rewrite (all_of_fmap as_str JStr sources) by done. cbn.
  rewrite (all_of_fmap label_entry_of_json (prod_map id label_usage_json))
    by apply label_entry_of_json_inv.
  cbn. by rewrite list_to_map_to_list.
Qed.

Lemma summary_of_json_inv summary : summary_of_json (summary_json summary) = Some summary.
Proof.
  unfold summary_of_json, summary_json. cbn.
  apply all_of_fmap, report_of_json_inv.
Qed.

Lemma label_usage_json_wf u : wf_json (label_usage_json u).
Proof.
  apply wf_dict.
  - cbn. apply (bool_decide_unpack _). by vm_compute.
  - repeat constructor.
Qed.

Lemma report_json_wf r : wf_json (report_json r).
Proof.
  apply wf_dict.
  - cbn. apply (bool_decide_unpack _). by vm_compute.
  - repeat (apply Forall_cons; split); try apply Forall_nil_2; cbn [snd]; try constructor.
    + apply Forall_fmap, Forall_forall. intros ??. constructor.
    + rewrite <- list_fmap_compose.
      replace (fst ∘ prod_map id label_usage_json) with (fst : string * label_usage → string)
        by done. apply NoDup_fst_map_to_list.
    + apply Forall_fmap, Forall_forall. intros [k u] _. apply label_usage_json_wf.
Qed.

Lemma summary_json_wf summary : wf_json (summary_json summary).
Proof.
  apply wf_list, Forall_fmap, Forall_forall. intros r _. apply report_json_wf.
Qed.

(** C7. The text that [json.dump] writes for a summary, parsed back, gives
    the same list of reports: for each report the metric, the series
    count, the verdict, the list of sources and, for each label, the
    cardinality and the verdict. *)
Theorem summary_round_trip (summary : list MetricReport) :
  load_summary (dumps (summary_json summary)) = Some summary.
Proof.
  unfold load_summary. rewrite loads_dumps by apply summary_json_wf.
  apply summary_of_json_inv.
Qed.

(** ** The written summary *)

(** The file that a completed run leaves, read back, is the summary in the
    order of the main loop. *)
Lemma artifact_loads_back w st :
  truthy (env_PROMETHEUS_URL w) = true →
  get_healthy w = Response () →
  disk (main w st).2 !! METRICS_SUMMARY_PATH ≫= load_summary = Some (summary_of w).
Proof.
  intros Hurl Hhealthy. rewrite (main_completes w st Hurl Hhealthy).
  cbn [snd disk]. rewrite lookup_insert_eq. cbn [mbind option_bind].
  unfold load_summary. rewrite loads_dumps by apply summary_json_wf.
  apply summary_of_json_inv.
Qed.

(** C2, as the code has it. In a run that reaches the digest, the console
    digest lists the reports by descending [series_count], reports of equal
    count in their order of arrival (a stable sort); the summary written to
    [metric_cardinality_summary.json] is the list in the order in which the
    back end returned the top metrics. *)
Theorem digest_sorted_artifact_in_fetch_order (w : world) (st : state) :
  truthy (env_PROMETHEUS_URL w) = true →
  get_healthy w = Response () →
  ∃ (before : list string) (ordered : list MetricReport),
    main w st =
      (inr (), State (stdout st ++ before ++ (console_line <$> ordered)
                      ++ [nl +:+ SAVED_MARK +:+ " Saved metric summary to "
                          +:+ METRICS_SUMMARY_PATH])
                     (<[METRICS_SUMMARY_PATH := dumps (summary_json (summary_of w))]>
                        (disk st)))
    ∧ stably_descending (summary_of w) ordered
    ∧ load_summary (dumps (summary_json (summary_of w))) = Some (summary_of w)
    ∧ emits (fetch_top_cardinality_metrics w NUMBER_TOP_METRICS)
            (top_metrics_of w) (top_metrics_log w)
    ∧ (λ r, (metric r, series_count r)) <$> summary_of w
      = (λ item, (item_metric item, item_series_count item)) <$> top_metrics_of w.
Proof.
  intros Hurl Hhealthy. eexists _, (sorted (λ x, - series_count x)%Z (summary_of w)).
  split; [|split; [|split; [|split]]].
  - rewrite (main_completes w st Hurl Hhealthy), main_log_digest. reflexivity.
  - apply sorted_stably_descending.
  - unfold load_summary. rewrite loads_dumps by apply summary_json_wf.
    apply summary_of_json_inv.
  - apply fetch_top_cardinality_metrics_emits.
  - unfold summary_of. rewrite <- list_fmap_compose. reflexivity.
Qed.

Lemma digest_sorted_artifact_in_fetch_order_witness :
  truthy (env_PROMETHEUS_URL unranked_world) = true
  ∧ get_healthy unranked_world = Response ()
  ∧ ∃ (before : list string) (ordered : list MetricReport),
    main unranked_world start =
      (inr (), State (stdout start ++ before ++ (console_line <$> ordered)
                      ++ [nl +:+ SAVED_MARK +:+ " Saved metric summary to "
                          +:+ METRICS_SUMMARY_PATH])
                     (<[METRICS_SUMMARY_PATH :=
                          dumps (summary_json (summary_of unranked_world))]>
                        (disk start)))
    ∧ stably_descending (summary_of unranked_world) ordered
    ∧ load_summary (dumps (summary_json (summary_of unranked_world)))
      = Some (summary_of unranked_world)
    ∧ emits (fetch_top_cardinality_metrics unranked_world NUMBER_TOP_METRICS)
            (top_metrics_of unranked_world) (top_metrics_log unranked_world)
    ∧ (λ r, (metric r, series_count r)) <$> summary_of unranked_world
      = (λ item, (item_metric item, item_series_count item))
          <$> top_metrics_of unranked_world.
Proof.
  split; [reflexivity|]. split; [reflexivity|].
  apply (digest_sorted_artifact_in_fetch_order unranked_world start); reflexivity.
Defined.

(** C2 fails as stated: when the back end returns [a] with one series
    before [b] with two, the written file, read back, lists [a] before [b],
    which is not descending. *)
Lemma persisted_summary_not_descending :
  truthy (env_PROMETHEUS_URL unranked_world) = true
  ∧ get_healthy unranked_world = Response ()
  ∧ ∃ (text : string) (summary : list MetricReport),
      disk (main unranked_world start).2 !! METRICS_SUMMARY_PATH = Some text
      ∧ load_summary text = Some summary
      ∧ (λ r, (metric r, series_count r)) <$> summary = [("a", 1%Z); ("b", 2%Z)]
      ∧ ¬ StronglySorted count_ge summary.
Proof.
  split; [reflexivity|]. split; [reflexivity|].
  exists (dumps (summary_json (summary_of unranked_world))), (summary_of unranked_world).
  split; [|split; [|split]].
  - rewrite (main_completes unranked_world start) by reflexivity.
    cbn [snd disk]. apply lookup_insert_eq.
  - unfold load_summary. rewrite loads_dumps by apply summary_json_wf.
    apply summary_of_json_inv.
  - reflexivity.
  - intros Hs. apply StronglySorted_inv in Hs as [_ Hs].
    apply Forall_inv in Hs. unfold count_ge in Hs. simpl in Hs. lia.
Qed.

(** * Further properties of the analysis *)

(** ** Label cardinality: the exact count *)

Lemma elem_of_label_values (sd : list series) l v :
  v ∈ label_values sd l ↔ ∃ s, s ∈ sd ∧ s !! l = Some v.
Proof.
  unfold label_values. rewrite elem_of_list_to_set, list_elem_of_omap. done.
Qed.

(** The set counted for a label is the set of the values it takes. *)
Lemma label_counter_lookup (sd : list series) l :
  label_counter_of sd !! l =
    if decide (l ≠ "__name__" ∧ label_values sd l ≠ ∅)
    then Some (label_values sd l) else None.
Proof.
  destruct (label_counter_of sd !! l) as [vs|] eqn:Hlc.
  - destruct (label_counter_values _ _ _ Hlc) as (Hl & Hne & Hin).
    assert (vs = label_values sd l) as ->.
    { apply set_eq. intros v. rewrite elem_of_label_values. split; [apply Hin|].
      intros (s & Hs & Hv).
      destruct (label_counter_member _ _ _ _ Hl Hs Hv) as (vs' & Hvs' & ?).
      by simplify_eq. }
    by rewrite decide_True.
  - rewrite decide_False; [done|]. intros [Hl Hne].
    apply set_choose_L in Hne as [v (s & Hs & Hv)%elem_of_label_values].
    destruct (label_counter_member _ _ _ _ Hl Hs Hv) as (vs' & Hvs' & ?).
    by simplify_eq.
Qed.

(** X1. The cardinality that [analyze_labels] reports for a label is the
    number of distinct values that the label takes in the series: a label
    that no series carries is not in the result, [__name__] never is, and a
    reported cardinality is at least one. *)
Theorem label_cardinality_counts_distinct_values (series_data : list series) (l : string) :
  ∃ result : gmap string nat,
    emits (analyze_labels series_data) result (analyze_labels_log series_data)
    ∧ result !! "__name__" = None
    ∧ (label_values series_data l = ∅ → result !! l = None)
    ∧ (l ≠ "__name__" → label_values series_data l ≠ ∅ →
       result !! l = Some (size (label_values series_data l))
       ∧ 1 ≤ size (label_values series_data l)).
Proof.
  exists (label_cardinality_of series_data). split; [apply analyze_labels_emits|].
  unfold label_cardinality_of. rewrite !lookup_fmap, !label_counter_lookup.
  split; [|split].
  - rewrite decide_False; [done|]. by intros [? _].
  - intros Hnone. rewrite decide_False; [done|]. by intros [_ ?].
  - intros Hl Hne. rewrite decide_True by done. split; [done|].
    apply set_choose_L in Hne as [v Hv].
    assert (size (label_values series_data l) ≠ 0); [|lia].
    intros Hz%size_empty_inv. set_solver.
Qed.

(** X2. The result of [analyze_labels] does not depend on the order of the
    series nor on how often a series occurs: two sequences with the same
    series give the same cardinalities. *)
Theorem label_cardinality_ignores_order_and_repeats (sd1 sd2 : list series) :
  (∀ s, s ∈ sd1 ↔ s ∈ sd2) →
  ∃ result : gmap string nat,
    emits (analyze_labels sd1) result (analyze_labels_log sd1)
    ∧ emits (analyze_labels sd2) result (analyze_labels_log sd2).
Proof.
  intros Hsame. exists (label_cardinality_of sd1).
  split; [apply analyze_labels_emits|].
  eapply emits_proper; [apply analyze_labels_emits| |done].
  unfold label_cardinality_of. f_equal. apply map_eq. intros l.
  rewrite !label_counter_lookup.
  assert (label_values sd2 l = label_values sd1 l) as ->; [|done].
  apply set_eq. intros v. rewrite !elem_of_label_values. naive_solver.
Qed.

Lemma label_cardinality_ignores_order_and_repeats_witness :
  (∀ s, s ∈ [api_series; api_series] ↔ s ∈ [api_series])
  ∧ ∃ result : gmap string nat,
      emits (analyze_labels [api_series; api_series]) result
            (analyze_labels_log [api_series; api_series])
      ∧ emits (analyze_labels [api_series]) result (analyze_labels_log [api_series]).
Proof.
  assert (Hsame : ∀ s, s ∈ [api_series; api_series] ↔ s ∈ [api_series]).
  { intros s. rewrite !elem_of_cons. tauto. }
  split; [exact Hsame|].
  exact (label_cardinality_ignores_order_and_repeats
           [api_series; api_series] [api_series] Hsame).
Defined.


(** ** The sources of a report *)

(** X3. The list [used_in] of a report names no source twice, and it names
    [grafana], [specific] or [alertmanager] exactly when the metric is
    matched in a line of the query file of that name; no other tag occurs. *)
Theorem used_in_names_the_query_files (w : world) (item : top_item) (source : string) :
  let r := report_of w item in
  NoDup (used_in r)
  ∧ (source ∈ used_in r ↔
       (source = "grafana"
        ∧ found_in metric_pattern w QUERIES_PATHS
                   "results/grafana_promql_queries.txt" (metric r))
       ∨ (source = "specific"
          ∧ found_in metric_pattern w QUERIES_PATHS
                     "results/grafana_specific_metric.txt" (metric r))
       ∨ (source = "alertmanager"
          ∧ found_in metric_pattern w QUERIES_PATHS
                     "results/alertmanager_promql_expressions.txt" (metric r))).
Proof.
  cbv zeta. unfold report_of, make_report, used_metrics_of. cbn [used_in metric].
  rewrite lookup_fmap.
  assert (Hin : source ∈ default [] (elements <$> (usage_of w QUERIES_PATHS).1
                                                    !! item_metric item)
                ↔ source ∈ default ∅ ((usage_of w QUERIES_PATHS).1 !! item_metric item)).
  { destruct ((usage_of w QUERIES_PATHS).1 !! item_metric item);
      cbn [fmap option_fmap option_map default].
    - apply elem_of_elements.
    - rewrite elem_of_nil. set_solver. }
  split.
  - destruct ((usage_of w QUERIES_PATHS).1 !! item_metric item);
      cbn [fmap option_fmap option_map default].
    + apply NoDup_elements.
    + constructor.
  - rewrite Hin, usage_of_sources. unfold found_in, QUERIES_PATHS. split.
    + intros (path & (Hpath & Hline) & <-).
      repeat (apply elem_of_cons in Hpath as [->|Hpath]);
        [left|right; left|right; right|by apply elem_of_nil in Hpath];
        (split; [reflexivity|]); (split; [|done]);
        apply (bool_decide_unpack _); by vm_compute.
    + intros [[-> [_ Hline]]|[[-> [_ Hline]]|[-> [_ Hline]]]]; eexists;
        (split; [split; [|exact Hline]|reflexivity]);
        apply (bool_decide_unpack _); by vm_compute.
Qed.

(** ** Runs with a failing ranking query or a failing query file *)

(** X4. When the ranking query fails, [main] reports the error, goes on
    without a metric, prints the heading of the digest and nothing under it,
    and writes the empty list as the summary. *)
Theorem failed_ranking_leaves_an_empty_summary (w : world) (st : state) (msg : string) :
  truthy (env_PROMETHEUS_URL w) = true →
  get_healthy w = Response () →
  get_top w NUMBER_TOP_METRICS = Failed msg →
  main w st =
    (inr (),
     State (stdout st
            ++ ["Prometheus is healthy. Proceeding with cardinality analysis...";
                "Fetching top 10 high-cardinality metrics via PromQL...";
                "Error fetching top metrics: " +:+ msg]
            ++ concat (scan_file_log w <$> QUERIES_PATHS)
            ++ [nl +:+ "High-cardinality metrics in use:";
                nl +:+ SAVED_MARK +:+ " Saved metric summary to " +:+ METRICS_SUMMARY_PATH])
           (<[METRICS_SUMMARY_PATH := "[]"]> (disk st))).
Proof.
  intros Hurl Hhealthy Htop. rewrite (main_completes w st Hurl Hhealthy).
  unfold main_log, top_metrics_log, summary_of, top_metrics_of. rewrite Htop.
  cbn [fmap list_fmap concat digest_of]. reflexivity.
Qed.

Lemma failed_ranking_leaves_an_empty_summary_witness :
  truthy (env_PROMETHEUS_URL deaf_world) = true
  ∧ get_healthy deaf_world = Response ()
  ∧ get_top deaf_world NUMBER_TOP_METRICS = Failed "timeout"
  ∧ main deaf_world start =
      (inr (),
       State (stdout start
              ++ ["Prometheus is healthy. Proceeding with cardinality analysis...";
                  "Fetching top 10 high-cardinality metrics via PromQL...";
                  "Error fetching top metrics: " +:+ "timeout"]
              ++ concat (scan_file_log deaf_world <$> QUERIES_PATHS)
              ++ [nl +:+ "High-cardinality metrics in use:";
                  nl +:+ SAVED_MARK +:+ " Saved metric summary to "
                  +:+ METRICS_SUMMARY_PATH])
             (<[METRICS_SUMMARY_PATH := "[]"]> (disk start))).
Proof.
  split; [reflexivity|]. split; [reflexivity|]. split; [reflexivity|].
  apply (failed_ranking_leaves_an_empty_summary deaf_world start "timeout"); reflexivity.
Defined.


(** X5. When the reading of a query file fails part-way, the failure is
    reported, and the lines read before it count: a metric matched in one
    of them is in use with the tag of the file among its sources, and a
    label key matched in one of them is in the set of used labels. *)
Theorem lines_before_a_read_error_count (w : world) (path err : string)
    (lines : list string) :
  path ∈ QUERIES_PATHS →
  fs w path = Failing lines err →
  (ERROR_MARK +:+ " Error reading " +:+ path +:+ ": " +:+ err) ∈ main_log w
  ∧ (∀ line item, line ∈ lines → item_metric item ∈ findall metric_pattern line →
       in_use (report_of w item) = true
       ∧ source_of path ∈ used_in (report_of w item))
  ∧ (∀ line l, line ∈ lines → l ∈ findall label_pattern line → l ∈ used_labels_of w).
Proof.
  intros Hpath Hfs. split; [|split].
  - apply (elem_of_main_log_scan w path); [done|].
    unfold scan_file_log. rewrite Hfs. by left.
  - intros line item Hline Hmatch.
    assert (Hsrc : source_of path
                   ∈ default ∅ ((usage_of w QUERIES_PATHS).1 !! item_metric item)).
    { apply usage_of_sources. exists path. split; [|done]. split; [done|].
      exists line. by rewrite Hfs. }
    unfold report_of, make_report, used_metrics_of. cbn [in_use used_in].
    rewrite lookup_fmap.
    destruct ((usage_of w QUERIES_PATHS).1 !! item_metric item) as [sources|];
      cbn [fmap option_fmap option_map default] in *.
    + split; [by apply bool_decide_eq_true|]. by apply elem_of_elements.
    + by apply not_elem_of_empty in Hsrc.
  - intros line l Hline Hmatch. apply usage_of_labels. exists path. split; [done|].
    exists line. by rewrite Hfs.
Qed.

Lemma lines_before_a_read_error_count_witness :
  "results/grafana_promql_queries.txt" ∈ QUERIES_PATHS
  ∧ fs torn_world "results/grafana_promql_queries.txt"
    = Failing ["up{job='api'}"] "bad byte"
  ∧ (ERROR_MARK +:+ " Error reading " +:+ "results/grafana_promql_queries.txt"
     +:+ ": " +:+ "bad byte") ∈ main_log torn_world
  ∧ (∀ line item, line ∈ ["up{job='api'}"] →
       item_metric item ∈ findall metric_pattern line →
       in_use (report_of torn_world item) = true
       ∧ source_of "results/grafana_promql_queries.txt"
         ∈ used_in (report_of torn_world item))
  ∧ (∀ line l, line ∈ ["up{job='api'}"] → l ∈ findall label_pattern line →
       l ∈ used_labels_of torn_world).
Proof.
  assert (Hpath : "results/grafana_promql_queries.txt" ∈ QUERIES_PATHS) by (by left).
  split; [exact Hpath|]. split; [reflexivity|].
  exact (lines_before_a_read_error_count torn_world
           "results/grafana_promql_queries.txt" "bad byte" ["up{job='api'}"]
           Hpath eq_refl).
Defined.


(** ** The characters of the written summary *)

Lemma plain_int_str z : Str.forallb is_plain (int_str z) = true.
Proof.
  assert (Hd : ∀ s, Str.forallb is_digit s = true → Str.forallb is_plain s = true).
  { induction s as [|c s IH]; [done|]. simpl. intros [Hc Hs]%andb_true_iff.
    rewrite (IH Hs), andb_true_r. clear -Hc. unfold is_plain, is_digit, in_range in *.
    destruct (code c) as [|p] eqn:E; [done|]. unfold is_char.
    apply andb_true_iff in Hc as [H1 H2]. apply N.leb_le in H1, H2.
    apply orb_true_iff. right. apply andb_true_iff. split; apply N.leb_le; lia. }
  destruct z as [|p|p].
  - done.
  - rewrite int_str_pos. apply Hd, digits_of_uint.
  - rewrite int_str_neg. simpl. apply Hd, digits_of_uint.
Qed.

Lemma plain_escape s : Str.forallb is_plain (escape s) = true.
Proof.
  induction s as [|c s IH]; [done|]. cbn [escape]. rewrite str_forallb_app, IH, andb_true_r.
  clear. by destruct c as [[] [] [] [] [] [] [] []].
Qed.

Lemma plain_encode_str s : Str.forallb is_plain (encode_str s) = true.
Proof.
  unfold encode_str. by rewrite !str_forallb_app, plain_escape.
Qed.

Lemma plain_spaces n : Str.forallb is_plain (spaces n) = true.
Proof. induction n as [|n IH]; [done|]. simpl. by rewrite IH. Qed.

Lemma plain_newline_indent level : Str.forallb is_plain (newline_indent level) = true.
Proof. unfold newline_indent. by rewrite str_forallb_app, plain_spaces. Qed.

Lemma plain_join sep parts :
  Str.forallb is_plain sep = true →
  Forall (λ p, Str.forallb is_plain p = true) parts →
  Str.forallb is_plain (Str.join sep parts) = true.
Proof.
  intros Hsep. induction 1 as [|p parts Hp Hparts IH]; [done|].
  destruct parts as [|q parts]; [done|].
  change (Str.join sep (p :: q :: parts)) with (p +:+ sep +:+ Str.join sep (q :: parts)).
  by rewrite !str_forallb_app, Hp, Hsep, IH.
Qed.

Lemma plain_dump j : ∀ level, Str.forallb is_plain (dump level j) = true.
Proof.
  induction j as [|b|z|s|items IH|members IH] using json_induction; intros level.
  - done.
  - by destruct b.
  - apply plain_int_str.
  - apply plain_encode_str.
  - destruct items as [|item items]; [done|].
    change (dump level (JList (item :: items)))
      with ("[" +:+ newline_indent (S level)
            +:+ Str.join ("," +:+ newline_indent (S level))
                  (map (dump (S level)) (item :: items))
            +:+ newline_indent level +:+ "]").
    rewrite !str_forallb_app, !plain_newline_indent, plain_join; [done| |].
    + by rewrite str_forallb_app, plain_newline_indent.
    + apply Forall_map, Forall_forall. intros x Hx.
      rewrite Forall_forall in IH. by apply IH.
  - destruct members as [|member members]; [done|].
    change (dump level (JDict (member :: members)))
      with ("{" +:+ newline_indent (S level)
            +:+ Str.join ("," +:+ newline_indent (S level))
                  (map (λ kv, encode_str kv.1 +:+ ": " +:+ dump (S level) kv.2)
                       (member :: members))
            +:+ newline_indent level +:+ "}").
    rewrite !str_forallb_app, !plain_newline_indent, plain_join; [done| |].
    + by rewrite str_forallb_app, plain_newline_indent.
    + apply Forall_map, Forall_forall. intros x Hx.
      rewrite Forall_forall in IH. rewrite !str_forallb_app, plain_encode_str.
      by rewrite (IH x Hx).
Qed.

(** X6. The summary that [main] writes holds only line feeds and the
    characters from space to tilde, whatever the names of metrics and
    labels hold. *)
Theorem written_summary_is_plain_ascii (w : world) (st : state) :
  truthy (env_PROMETHEUS_URL w) = true →
  get_healthy w = Response () →
  ∃ text, disk (main w st).2 !! METRICS_SUMMARY_PATH = Some text
          ∧ Str.forallb is_plain text = true.
Proof.
  intros Hurl Hhealthy. rewrite (main_completes w st Hurl Hhealthy). cbn [snd disk].
  rewrite lookup_insert_eq. eexists. split; [done|]. apply plain_dump.
Qed.

Lemma written_summary_is_plain_ascii_witness :
  truthy (env_PROMETHEUS_URL unranked_world) = true
  ∧ get_healthy unranked_world = Response ()
  ∧ ∃ text, disk (main unranked_world start).2 !! METRICS_SUMMARY_PATH = Some text
            ∧ Str.forallb is_plain text = true.
Proof.
  split; [reflexivity|]. split; [reflexivity|].
  exact (written_summary_is_plain_ascii unranked_world start eq_refl eq_refl).
Defined.

(** * Properties of the dashboard script *)

(** ** [extract_queries]: what it returns *)

Section dashboards.
Import GetAllDashboards.

Lemma fold_res_app {A B} (body : B → A → res B) acc xs ys :
  fold_res body acc (xs ++ ys) =
    match fold_res body acc xs with
    | inr acc' => fold_res body acc' ys
    | inl e => inl e
    end.
Proof.
  revert acc. induction xs as [|x xs IH]; intros acc; [done|]. simpl.
  destruct (body acc x); [done|]. apply IH.
Qed.

(** A target adds its expression, under the title, when it shows one. *)
Lemma scan_target_shown j title queries target :
  title_of j = inr title → is_dict target →
  scan_target j queries target
  = inr (queries ++ match shown_expr target with
                    | Some expr => [py_str title +:+ ": " +:+ py_str expr]
                    | None => []
                    end).
Proof.
  intros Htitle [members ->]. unfold scan_target, shown_expr. cbn [py_get mbind res_bind].
  destruct (py_truthy (default JNull (dict_get "expr" members))).
  - unfold title_of in Htitle.
    destruct (py_item j "dashboard") as [e|dashboard]; [done|].
    cbn [mbind res_bind] in *. by rewrite Htitle.
  - by rewrite app_nil_r.
Qed.

Lemma scan_targets_shown j title queries targets :
  title_of j = inr title → Forall is_dict targets →
  fold_res (scan_target j) queries targets
  = inr (queries ++ ((λ expr, py_str title +:+ ": " +:+ py_str expr)
                     <$> omap shown_expr targets)).
Proof.
  intros Htitle Htargets. revert queries.
  induction Htargets as [|target targets Ht _ IH]; intros queries.
  - by rewrite app_nil_r.
  - cbn [fold_res]. rewrite (scan_target_shown _ _ _ _ Htitle Ht), IH.
    cbn [omap list_omap]. destruct (shown_expr target); cbn [fmap list_fmap];
      by rewrite <- app_assoc.
Qed.

Lemma scan_panel_shown j title queries panel :
  title_of j = inr title → plain_panel panel →
  scan_panel j queries panel
  = inr (queries ++ ((λ expr, py_str title +:+ ": " +:+ py_str expr)
                     <$> panel_exprs panel)).
Proof.
  intros Htitle (members & -> & Htargets). unfold scan_panel, panel_exprs.
  cbn [py_get mbind res_bind].
  destruct Htargets as [->|(targets & -> & Hdicts)]; cbn [default id py_iter fold_res].
  - by rewrite app_nil_r.
  - by apply scan_targets_shown.
Qed.

Lemma scan_panels_shown j title queries panels :
  title_of j = inr title → Forall plain_panel panels →
  fold_res (scan_panel j) queries panels
  = inr (queries ++ ((λ expr, py_str title +:+ ": " +:+ py_str expr)
                     <$> concat (panel_exprs <$> panels))).
Proof.
  intros Htitle Hpanels. revert queries.
  induction Hpanels as [|panel panels Hp _ IH]; intros queries.
  - by rewrite app_nil_r.
  - cbn [fold_res]. rewrite (scan_panel_shown _ _ _ _ Htitle Hp), IH.
    cbn [fmap list_fmap concat]. by rewrite fmap_app, <- app_assoc.
Qed.

(** X7. For a dashboard whose panels are objects and whose targets are
    lists of objects, [extract_queries] returns one line for each target
    whose [expr] is neither missing nor empty, in the order of the panels
    and of their targets, each line made of the title of the dashboard, a
    colon, a space and the expression. *)
Theorem extract_queries_lists_titled_expressions
    (top dashboard : list (string * json)) (title : json) (panels : list json) :
  dict_get "dashboard" top = Some (JDict dashboard) →
  dict_get "title" dashboard = Some title →
  dict_get "panels" dashboard = Some (JList panels) →
  Forall plain_panel panels →
  extract_queries (JDict top)
  = inr ((λ expr, py_str title +:+ ": " +:+ py_str expr)
         <$> concat (panel_exprs <$> panels)).
Proof.
  intros Hdash Htitle Hpanels Hplain. unfold extract_queries.
  cbn [py_get mbind res_bind]. rewrite Hdash. cbn [default id py_get mbind res_bind].
  rewrite Hpanels. cbn [default id py_iter mbind res_bind].
  rewrite (scan_panels_shown _ title); [done| |done].
  unfold title_of. cbn [py_item mbind res_bind]. rewrite Hdash.
  cbn [py_item mbind res_bind]. by rewrite Htitle.
Qed.

Lemma extract_queries_lists_titled_expressions_witness :
  dict_get "dashboard" [("dashboard", JDict sample_dashboard)]
  = Some (JDict sample_dashboard)
  ∧ dict_get "title" sample_dashboard = Some (JStr "A")
  ∧ dict_get "panels" sample_dashboard = Some (JList sample_panels)
  ∧ Forall plain_panel sample_panels
  ∧ extract_queries (JDict [("dashboard", JDict sample_dashboard)])
    = inr ((λ expr, py_str (JStr "A") +:+ ": " +:+ py_str expr)
           <$> concat (panel_exprs <$> sample_panels)).
Proof.
  assert (Hplain : Forall plain_panel sample_panels).
  { repeat constructor. eexists. split; [reflexivity|]. right. eexists.
    split; [reflexivity|]. repeat constructor. by eexists. }
  split; [reflexivity|]. split; [reflexivity|]. split; [reflexivity|].
  split; [exact Hplain|].
  exact (extract_queries_lists_titled_expressions
           [("dashboard", JDict sample_dashboard)] sample_dashboard (JStr "A")
           sample_panels eq_refl eq_refl eq_refl Hplain).
Defined.


(** Every query that a target adds carries the title. *)
Lemma scan_target_titled j (P : string → Prop) queries queries' target :
  (∀ title expr, title_of j = inr title → py_truthy expr = true →
                 P (py_str title +:+ ": " +:+ py_str expr)) →
  Forall P queries →
  scan_target j queries target = inr queries' → Forall P queries'.
Proof.
  intros HP Hq. unfold scan_target. destruct (py_get target "expr" JNull) as [e|expr];
    cbn [mbind res_bind]; [done|].
  destruct (py_truthy expr) eqn:Hexpr.
  - pose proof (HP) as HP'. unfold title_of in HP'. cbn [mbind res_bind] in HP'.
    destruct (py_item j "dashboard") as [e|dashboard]; cbn [mbind res_bind] in *; [done|].
    destruct (py_item dashboard "title") as [e|title]; cbn [mbind res_bind] in *; [done|].
    intros [= <-]. apply Forall_app. split; [done|]. constructor; [|done]. by apply HP'.
  - by intros [= <-].
Qed.

Lemma fold_res_invariant {A B} (body : B → A → res B) (I : B → Prop) xs :
  (∀ acc acc' x, I acc → body acc x = inr acc' → I acc') →
  ∀ acc acc', I acc → fold_res body acc xs = inr acc' → I acc'.
Proof.
  intros Hbody. induction xs as [|x xs IH]; intros acc acc' Hacc; cbn [fold_res].
  - by intros [= <-].
  - destruct (body acc x) as [e|acc1] eqn:Hx; [done|]. apply IH. by eapply Hbody.
Qed.

Lemma extract_queries_titled j (P : string → Prop) qs :
  (∀ title expr, title_of j = inr title → py_truthy expr = true →
                 P (py_str title +:+ ": " +:+ py_str expr)) →
  extract_queries j = inr qs → Forall P qs.
Proof.
  intros HP. unfold extract_queries.
  destruct (py_get j "dashboard" (JDict [])) as [e|dashboard]; cbn [mbind res_bind]; [done|].
  destruct (py_get dashboard "panels" (JList [])) as [e|panels]; cbn [mbind res_bind]; [done|].
  destruct (py_iter panels) as [e|items]; cbn [mbind res_bind]; [done|].
  apply (fold_res_invariant _ (Forall P)); [|done].
  intros acc acc' panel Hacc. unfold scan_panel.
  destruct (py_get panel "targets" (JList [])) as [e|targets]; cbn [mbind res_bind]; [done|].
  destruct (py_iter targets) as [e|ts]; cbn [mbind res_bind]; [done|].
  apply (fold_res_invariant _ (Forall P)); [|done].
  intros ???. by apply scan_target_titled.
Qed.

(** X8. Every query that [extract_queries] returns is the title of the
    dashboard, a colon, a space and an expression that is not empty; so a
    dashboard without a title, if it gives a result at all, gives no
    query. *)
Theorem queries_carry_the_title (dashboard_json : json) (queries : list string) :
  extract_queries dashboard_json = inr queries →
  Forall (λ query, ∃ title expr,
            title_of dashboard_json = inr title
            ∧ py_truthy expr = true
            ∧ query = py_str title +:+ ": " +:+ py_str expr) queries
  ∧ (∀ e, title_of dashboard_json = inl e → queries = []).
Proof.
  intros Hqs. split.
  - apply (extract_queries_titled dashboard_json); [|done]. eauto.
  - intros e He.
    assert (Hnone : Forall (λ _, False) queries).
    { apply (extract_queries_titled dashboard_json); [|done].
      intros title expr Htitle. by rewrite He in Htitle. }
    destruct queries as [|q queries]; [done|]. by apply Forall_cons in Hnone as [[] _].
Qed.

Lemma queries_carry_the_title_witness :
  extract_queries sample_answer = inr ["A: up"]
  ∧ Forall (λ query, ∃ title expr,
              title_of sample_answer = inr title
              ∧ py_truthy expr = true
              ∧ query = py_str title +:+ ": " +:+ py_str expr) ["A: up"]
  ∧ (∀ e, title_of sample_answer = inl e → ["A: up"] = []).
Proof.
  split; [reflexivity|].
  exact (queries_carry_the_title sample_answer ["A: up"] eq_refl).
Defined.

End dashboards.

(** ** [extract_queries]: what it skips and what it raises *)

Section dashboard_panels.
Import GetAllDashboards.

Lemma fold_res_error {A B} (body : B → A → res B) (P : error → Prop) xs :
  (∀ acc x e, body acc x = inl e → P e) →
  ∀ acc e, fold_res body acc xs = inl e → P e.
Proof.
  intros Hbody. induction xs as [|x xs IH]; intros acc e; cbn [fold_res]; [done|].
  destruct (body acc x) as [e'|acc'] eqn:Hx.
  - intros [= <-]. by eapply Hbody.
  - apply IH.
Qed.

(** The exceptions of [extract_queries]: a value without the method [get],
    a value that cannot be iterated over, a dashboard without a title. *)
Lemma extract_queries_error j e :
  extract_queries j = inl e → e = AttributeError ∨ e = TypeError ∨ e = KeyError "title".
Proof.
  assert (Hget : ∀ v k d e, py_get v k d = inl e → e = AttributeError).
  { intros [] ???; simpl; congruence. }
  assert (Hiter : ∀ v e, py_iter v = inl e → e = TypeError).
  { intros [] ?; simpl; congruence. }
  destruct j as [| | | | |top]; try (intros [= <-]; by left).
  unfold extract_queries. cbn [py_get mbind res_bind].
  destruct (dict_get "dashboard" top) as [dashboard|] eqn:Hd; cbn [default id]; [|done].
  destruct (py_get dashboard "panels" (JList [])) as [e2|panels] eqn:H2;
    cbn [mbind res_bind].
  { intros [= <-]. left. by eapply Hget. }
  destruct (py_iter panels) as [e3|items] eqn:H3; cbn [mbind res_bind].
  { intros [= <-]. right. left. by eapply Hiter. }
  apply (fold_res_error _ (λ e, e = AttributeError ∨ e = TypeError ∨ e = KeyError "title")).
  intros acc panel e'. unfold scan_panel.
  destruct (py_get panel "targets" (JList [])) as [e4|targets] eqn:H4; cbn [mbind res_bind].
  { intros [= <-]. left. by eapply Hget. }
  destruct (py_iter targets) as [e5|ts] eqn:H5; cbn [mbind res_bind].
  { intros [= <-]. right. left. by eapply Hiter. }
  apply (fold_res_error _ (λ e, e = AttributeError ∨ e = TypeError ∨ e = KeyError "title")).
  intros acc' target e''. unfold scan_target.
  destruct (py_get target "expr" JNull) as [e6|expr] eqn:H6; cbn [mbind res_bind].
  { intros [= <-]. left. by eapply Hget. }
  destruct (py_truthy expr); [|done].
  cbn [py_item]. rewrite Hd. cbn [mbind res_bind].
  destruct dashboard as [| | | | |members]; try done. cbn [py_item].
  destruct (dict_get "title" members); cbn [mbind res_bind]; [done|].
  intros [= <-]. by right; right.
Qed.

Lemma scan_target_title j j' queries target :
  title_of j = title_of j' →
  scan_target j queries target = scan_target j' queries target.
Proof.
  intros Htitle. unfold scan_target, title_of in *.
  destruct (py_get target "expr" JNull) as [e|expr]; cbn [mbind res_bind]; [done|].
  destruct (py_truthy expr); [|done].
  destruct (py_item j "dashboard") as [e|d], (py_item j' "dashboard") as [e'|d'];
    cbn [mbind res_bind] in *;
    first [by rewrite Htitle | by rewrite <- Htitle | congruence].
Qed.

Lemma fold_res_ext {A B} (f g : B → A → res B) xs :
  (∀ acc x, f acc x = g acc x) → ∀ acc, fold_res f acc xs = fold_res g acc xs.
Proof.
  intros Hfg. induction xs as [|x xs IH]; intros acc; [done|]. cbn [fold_res].
  rewrite Hfg. destruct (g acc x); [done|]. apply IH.
Qed.

Lemma scan_panel_title j j' queries panel :
  title_of j = title_of j' →
  scan_panel j queries panel = scan_panel j' queries panel.
Proof.
  intros Htitle. unfold scan_panel.
  destruct (py_get panel "targets" (JList [])) as [e|targets]; cbn [mbind res_bind]; [done|].
  destruct (py_iter targets) as [e|items]; cbn [mbind res_bind]; [done|].
  apply fold_res_ext. intros acc x. by apply scan_target_title.
Qed.

(** X9. A panel without a [targets] key adds no query, whatever else it
    holds: a dashboard gives the same result with and without it. A row
    that keeps its panels under a [panels] key of its own is such a panel,
    so the queries of the panels it nests are not extracted. *)
Theorem panels_without_targets_are_skipped
    (top top' dashboard dashboard' row : list (string * json))
    (before after : list json) :
  dict_get "dashboard" top = Some (JDict dashboard) →
  dict_get "dashboard" top' = Some (JDict dashboard') →
  dict_get "title" dashboard' = dict_get "title" dashboard →
  dict_get "panels" dashboard = Some (JList (before ++ JDict row :: after)) →
  dict_get "panels" dashboard' = Some (JList (before ++ after)) →
  dict_get "targets" row = None →
  extract_queries (JDict top) = extract_queries (JDict top').
Proof.
  intros Hd Hd' Htitle Hpanels Hpanels' Hrow.
  assert (Hsame : title_of (JDict top) = title_of (JDict top')).
  { unfold title_of. cbn [py_item]. rewrite Hd, Hd'. cbn [mbind res_bind py_item].
    by rewrite Htitle. }
  unfold extract_queries. cbn [py_get mbind res_bind]. rewrite Hd, Hd'.
  cbn [default id py_get mbind res_bind]. rewrite Hpanels, Hpanels'.
  cbn [default id py_iter mbind res_bind]. rewrite !fold_res_app.
  rewrite (fold_res_ext _ (scan_panel (JDict top')) before)
    by (intros; by apply scan_panel_title).
  destruct (fold_res (scan_panel (JDict top')) [] before) as [e|queries]; [done|].
  cbn [fold_res]. unfold scan_panel at 1. cbn [py_get]. rewrite Hrow.
  cbn [default id py_iter mbind res_bind fold_res].
  apply fold_res_ext. intros; by apply scan_panel_title.
Qed.

Lemma panels_without_targets_are_skipped_witness :
  dict_get "dashboard" [("dashboard", JDict sample_dashboard_with_row)]
  = Some (JDict sample_dashboard_with_row)
  ∧ dict_get "dashboard" [("dashboard", JDict sample_dashboard)]
    = Some (JDict sample_dashboard)
  ∧ dict_get "title" sample_dashboard = dict_get "title" sample_dashboard_with_row
  ∧ dict_get "panels" sample_dashboard_with_row
    = Some (JList ([] ++ JDict sample_row :: sample_panels))
  ∧ dict_get "panels" sample_dashboard = Some (JList ([] ++ sample_panels))
  ∧ dict_get "targets" sample_row = None
  ∧ extract_queries (JDict [("dashboard", JDict sample_dashboard_with_row)])
    = extract_queries (JDict [("dashboard", JDict sample_dashboard)]).
Proof.
  do 6 (split; [reflexivity|]).
  exact (panels_without_targets_are_skipped
           [("dashboard", JDict sample_dashboard_with_row)]
           [("dashboard", JDict sample_dashboard)]
           sample_dashboard_with_row sample_dashboard sample_row [] sample_panels
           eq_refl eq_refl eq_refl eq_refl eq_refl eq_refl).
Defined.


(** X10. [extract_queries] raises nothing but [AttributeError], [TypeError]
    and [KeyError] for the title. A response that is no object raises the
    first, a dashboard whose [panels] is [null] the second. *)
Theorem extract_queries_raises_three_exceptions (dashboard_json : json) :
  (∀ e, extract_queries dashboard_json = inl e →
        e = AttributeError ∨ e = TypeError ∨ e = KeyError "title")
  ∧ ((∀ members, dashboard_json ≠ JDict members) →
     extract_queries dashboard_json = inl AttributeError)
  ∧ (∀ top dashboard,
       dashboard_json = JDict top →
       dict_get "dashboard" top = Some (JDict dashboard) →
       dict_get "panels" dashboard = Some JNull →
       extract_queries dashboard_json = inl TypeError).
Proof.
  split; [apply extract_queries_error|]. split.
  - intros Hnot. destruct dashboard_json as [| | | | |members]; try done.
    by destruct (Hnot members).
  - intros top dashboard -> Hd Hpanels. unfold extract_queries.
    cbn [py_get mbind res_bind]. rewrite Hd. cbn [default id py_get mbind res_bind].
    by rewrite Hpanels.
Qed.
End dashboard_panels.

(** ** The dashboard script up to the end of its loop *)

Section dashboard_runs.
Import GetAllDashboards.

Lemma bind_inr {A B} (m : D A) (k : A → D B) st a st' :
  m st = (inr a, st') → (m ≫= k) st = k a st'.
Proof. intros Hm. unfold mbind, D_bind, bind. by rewrite Hm. Qed.

Lemma bind_inl {A B} (m : D A) (k : A → D B) st e st' :
  m st = (inl e, st') → (m ≫= k) st = (inl e, st').
Proof. intros Hm. unfold mbind, D_bind, bind. by rewrite Hm. Qed.

Lemma contains_slash_app s t : Str.contains "/" (s +:+ "/" +:+ t) = true.
Proof.
  induction s as [|c s IH]; [by destruct t|]. rewrite app_cons. cbn [Str.contains].
  rewrite IH. by rewrite orb_true_r.
Qed.

Lemma makedirs_runs path st :
  path ∉ dom (stored st) →
  makedirs path st
  = (inr (), Host (console st) (typed st) (folders st ∪ {[path]}) (stored st)).
Proof. intros Hpath. unfold makedirs. by rewrite decide_False. Qed.

Lemma write_file_runs path content st :
  path ∉ folders st →
  write_file path content st
  = (inr (), Host (console st) (typed st) (folders st) (<[path := content]> (stored st))).
Proof. intros Hpath. unfold write_file. by rewrite decide_False. Qed.

Lemma plain_folders_free st dir name :
  plain_folders st → (dir +:+ "/" +:+ name) ∉ folders st.
Proof.
  intros [_ Hplain] Hin. apply Hplain in Hin. by rewrite contains_slash_app in Hin.
Qed.

(** One turn of the loop over the listing. *)
Lemma fetch_step_runs w url all_queries dash st :
  Dashboards.GRAFANA_URL (environment w) = Some url →
  listed w dash →
  dump_path dash ∉ folders st →
  fetch_step w all_queries dash st
  = (inr (all_queries ++ queries_of w dash),
     Host (console st ++ fetch_log w dash) (typed st) (folders st)
          (keep_dump w (stored st) dash)).
Proof.
  intros Hurl ([uid Huid] & [title Htitle] & Hqueries) Hfree.
  unfold fetch_step, queries_of, fetch_log, keep_dump, dump_path, answer_for, field in *.
  rewrite Huid, Htitle in *. rewrite Hurl in *. cbn [default id] in *.
  unfold try_request, fetch_specific_dashboard, lift, rstrip_url, get. rewrite Hurl.
  unfold mbind, D_bind, bind, print, write_file, mret, D_ret, ret, raise.
  cbn [console typed folders stored].
  destruct (http_get w _ _) as [dashboard_json|msg] eqn:Hget.
  - destruct (Hqueries dashboard_json eq_refl) as [queries Hq]. rewrite Hq.
    cbn [console typed folders stored]. case_decide; [done|reflexivity].
  - cbn [console typed folders stored]. by rewrite app_nil_r, <- app_assoc.
Qed.

Lemma fetch_loop_runs w url dashes :
  Dashboards.GRAFANA_URL (environment w) = Some url →
  Forall (listed w) dashes →
  ∀ all_queries st,
    (∀ dash, dash ∈ dashes → dump_path dash ∉ folders st) →
    for_each dashes all_queries (fetch_step w) st
    = (inr (all_queries ++ concat (queries_of w <$> dashes)),
       Host (console st ++ concat (fetch_log w <$> dashes)) (typed st) (folders st)
            (foldl (keep_dump w) (stored st) dashes)).
Proof.
  intros Hurl. induction 1 as [|dash dashes Hdash _ IH]; intros all_queries st Hfree.
  - destruct st. cbn. by rewrite !app_nil_r.
  - cbn [for_each fmap list_fmap concat foldl].
    rewrite (bind_inr _ _ _ _ _ (fetch_step_runs w url all_queries dash st Hurl Hdash
                                   (Hfree _ ltac:(left)))).
    rewrite IH.
    + cbn [console typed folders stored]. by rewrite <- !app_assoc.
    + intros d Hd. cbn [folders]. apply Hfree. by right.
Qed.

Lemma dump_path_free st dash :
  plain_folders st →
  dump_path dash ∉ folders st ∪ {[OUTPUT_DIR]} ∪ {[FOLDER_FOR_RESULTS]}.
Proof.
  intros Hplain. unfold dump_path.
  rewrite !elem_of_union, !elem_of_singleton. intros [[Hin|Heq]|Heq].
  - by apply (plain_folders_free st OUTPUT_DIR _ Hplain) in Hin.
  - apply (f_equal (Str.contains "/")) in Heq. by rewrite contains_slash_app in Heq.
  - apply (f_equal (Str.contains "/")) in Heq. by rewrite contains_slash_app in Heq.
Qed.

Lemma results_path_free st name :
  plain_folders st →
  (FOLDER_FOR_RESULTS +:+ "/" +:+ name)
    ∉ folders st ∪ {[OUTPUT_DIR]} ∪ {[FOLDER_FOR_RESULTS]}.
Proof.
  intros Hplain.
  rewrite !elem_of_union, !elem_of_singleton. intros [[Hin|Heq]|Heq].
  - by apply (plain_folders_free st FOLDER_FOR_RESULTS _ Hplain) in Hin.
  - apply (f_equal (Str.contains "/")) in Heq. by rewrite contains_slash_app in Heq.
  - apply (f_equal (Str.contains "/")) in Heq. by rewrite contains_slash_app in Heq.
Qed.

(** [main] up to the end of its loop, when the listing arrives. *)
Lemma gather_runs w url dashboards dashes st :
  ready st →
  Dashboards.GRAFANA_URL (environment w) = Some url →
  http_get w (rstrip "/" url +:+ "/api/search") (Dashboards.headers (environment w))
  = Response dashboards →
  py_iter dashboards = inr dashes →
  Forall (listed w) dashes →
  gather w st = (inr (concat (queries_of w <$> dashes)), gathered w dashboards dashes st).
Proof.
  intros (Hout & Hres & Hplain) Hurl Hget Hiter Hlisted. unfold gather.
  erewrite bind_inr by (by apply makedirs_runs). cbv beta.
  erewrite bind_inr by (by apply makedirs_runs). cbv beta.
  cbn [console typed folders stored].
  unfold load_dashboard_metadata, lift, rstrip_url, get. rewrite Hurl.
  unfold mbind at 1 2 3 4 5 6, D_bind, bind. rewrite Hget.
  unfold mret, D_ret, ret, write_file, print. cbn [console typed folders stored].
  pose proof (results_path_free st DASHBOARDS_FILE Hplain) as Hfree.
  case_decide; [done|]. rewrite Hiter. cbn [console typed folders stored].
  rewrite (fetch_loop_runs w url dashes Hurl Hlisted).
  - unfold gathered. cbn [console typed folders stored app]. by rewrite <- app_assoc.
  - intros dash _. cbn [folders]. by apply dump_path_free.
Qed.

Lemma host_typing_ready lines : ready (host_typing lines).
Proof.
  unfold ready, plain_folders, host_typing. cbn [stored folders].
  rewrite dom_empty_L. repeat split; try apply not_elem_of_empty.
  intros path Hpath. by apply not_elem_of_empty in Hpath.
Qed.

Lemma sample_listed about_a :
  (∀ dashboard_json, about_a = Response dashboard_json →
     ∃ queries, extract_queries dashboard_json = inr queries) →
  Forall (listed (site_answering about_a))
         [JDict [("uid", JStr "a"); ("title", JStr "A")];
          JDict [("uid", JStr "b"); ("title", JStr "B")]].
Proof.
  intros Ha. constructor; [|constructor; [|constructor]].
  - split; [by eexists|]. split; [by eexists|]. exact Ha.
  - split; [by eexists|]. split; [by eexists|]. intros dashboard_json Hb.
    vm_compute in Hb. discriminate Hb.
Qed.

Lemma sample_site_listed :
  Forall (listed sample_site)
         [JDict [("uid", JStr "a"); ("title", JStr "A")];
          JDict [("uid", JStr "b"); ("title", JStr "B")]].
Proof. apply sample_listed. intros dashboard_json [= <-]. by eexists. Qed.

(** X11. When the listing arrives, every entry has a uid and a title, and
    [extract_queries] returns for every dashboard that is fetched, [main]
    gets to its second half with the queries of the dashboards that could
    be fetched, in the order of the listing: a dashboard whose request
    fails adds a message and no query, and the others are kept on disk. *)
Theorem main_gathers_the_fetched_dashboards
    (w : site) (url : string) (dashboards : json) (dashes : list json) (st : host) :
  ready st →
  Dashboards.GRAFANA_URL (environment w) = Some url →
  http_get w (rstrip "/" url +:+ "/api/search") (Dashboards.headers (environment w))
  = Response dashboards →
  py_iter dashboards = inr dashes →
  Forall (λ dash, (∃ uid, py_item dash "uid" = inr uid)
                  ∧ (∃ title, py_item dash "title" = inr title)) dashes →
  Forall (λ dash, ∀ dashboard_json,
            answer_for w dash = Response dashboard_json →
            ∃ queries, extract_queries dashboard_json = inr queries) dashes →
  main w st
  = conclude w (concat (queries_of w <$> dashes)) (gathered w dashboards dashes st).
Proof.
  intros Hready Hurl Hget Hiter Hentries Hshaped. unfold main.
  assert (Hlisted : Forall (listed w) dashes).
  { rewrite Forall_forall in Hentries, Hshaped. apply Forall_forall. intros dash Hdash.
    destruct (Hentries dash Hdash) as [Huid Htitle].
    split; [done|]. split; [done|]. by apply Hshaped. }
  by rewrite (bind_inr _ _ _ _ _ (gather_runs w url dashboards dashes st
                                    Hready Hurl Hget Hiter Hlisted)).
Qed.

Lemma main_gathers_the_fetched_dashboards_witness :
  ready (host_typing ["n"; "n"])
  ∧ Dashboards.GRAFANA_URL (environment sample_site) = Some "http://localhost:3000/"
  ∧ http_get sample_site (rstrip "/" "http://localhost:3000/" +:+ "/api/search")
             (Dashboards.headers (environment sample_site))
    = Response sample_listing
  ∧ py_iter sample_listing
    = inr [JDict [("uid", JStr "a"); ("title", JStr "A")];
           JDict [("uid", JStr "b"); ("title", JStr "B")]]
  ∧ Forall (λ dash, (∃ uid, py_item dash "uid" = inr uid)
                    ∧ (∃ title, py_item dash "title" = inr title))
           [JDict [("uid", JStr "a"); ("title", JStr "A")];
            JDict [("uid", JStr "b"); ("title", JStr "B")]]
  ∧ Forall (λ dash, ∀ dashboard_json,
              answer_for sample_site dash = Response dashboard_json →
              ∃ queries, extract_queries dashboard_json = inr queries)
           [JDict [("uid", JStr "a"); ("title", JStr "A")];
            JDict [("uid", JStr "b"); ("title", JStr "B")]]
  ∧ main sample_site (host_typing ["n"; "n"])
    = conclude sample_site
        (concat (queries_of sample_site
                 <$> [JDict [("uid", JStr "a"); ("title", JStr "A")];
                      JDict [("uid", JStr "b"); ("title", JStr "B")]]))
        (gathered sample_site sample_listing
           [JDict [("uid", JStr "a"); ("title", JStr "A")];
            JDict [("uid", JStr "b"); ("title", JStr "B")]]
           (host_typing ["n"; "n"])).
Proof.
  assert (Hentries :
    Forall (λ dash, (∃ uid, py_item dash "uid" = inr uid)
                    ∧ (∃ title, py_item dash "title" = inr title))
           [JDict [("uid", JStr "a"); ("title", JStr "A")];
            JDict [("uid", JStr "b"); ("title", JStr "B")]]).
  { eapply Forall_impl; [apply sample_site_listed|]. by intros dash (? & ? & _). }
  assert (Hshaped :
    Forall (λ dash, ∀ dashboard_json,
              answer_for sample_site dash = Response dashboard_json →
              ∃ queries, extract_queries dashboard_json = inr queries)
           [JDict [("uid", JStr "a"); ("title", JStr "A")];
            JDict [("uid", JStr "b"); ("title", JStr "B")]]).
  { eapply Forall_impl; [apply sample_site_listed|]. by intros dash (_ & _ & ?). }
  split; [apply host_typing_ready|]. split; [reflexivity|]. split; [reflexivity|].
  split; [reflexivity|]. split; [exact Hentries|]. split; [exact Hshaped|].
  exact (main_gathers_the_fetched_dashboards sample_site "http://localhost:3000/"
           sample_listing _ (host_typing ["n"; "n"])
           (host_typing_ready _) eq_refl eq_refl eq_refl Hentries Hshaped).
Defined.


(** X12. When the request for the listing fails, [main] raises the
    [RequestException] after making its two folders: nothing is printed,
    no file is written and no question is asked. *)
Theorem failed_listing_aborts_the_run (w : site) (url msg : string) (st : host) :
  (OUTPUT_DIR ∉ dom (stored st)) →
  (FOLDER_FOR_RESULTS ∉ dom (stored st)) →
  Dashboards.GRAFANA_URL (environment w) = Some url →
  http_get w (rstrip "/" url +:+ "/api/search") (Dashboards.headers (environment w))
  = Failed msg →
  main w st
  = (inl (Raised (RequestException msg)),
     Host (console st) (typed st)
          (folders st ∪ {[OUTPUT_DIR]} ∪ {[FOLDER_FOR_RESULTS]}) (stored st)).
Proof.
  intros Hout Hres Hurl Hget. unfold main.
  apply bind_inl. unfold gather.
  erewrite bind_inr by (by apply makedirs_runs). cbv beta.
  erewrite bind_inr by (by apply makedirs_runs). cbv beta.
  cbn [console typed folders stored].
  apply bind_inl. unfold load_dashboard_metadata, lift, rstrip_url, get. rewrite Hurl.
  unfold mbind, D_bind, bind. by rewrite Hget.
Qed.

Lemma failed_listing_aborts_the_run_witness :
  (OUTPUT_DIR ∉ dom (stored (host_typing [])))
  ∧ (FOLDER_FOR_RESULTS ∉ dom (stored (host_typing [])))
  ∧ Dashboards.GRAFANA_URL (environment offline_site) = Some "http://localhost:3000/"
  ∧ http_get offline_site (rstrip "/" "http://localhost:3000/" +:+ "/api/search")
             (Dashboards.headers (environment offline_site))
    = Failed "offline"
  ∧ main offline_site (host_typing [])
    = (inl (Raised (RequestException "offline")),
       Host (console (host_typing [])) (typed (host_typing []))
            (folders (host_typing []) ∪ {[OUTPUT_DIR]} ∪ {[FOLDER_FOR_RESULTS]})
            (stored (host_typing []))).
Proof.
  destruct (host_typing_ready []) as (Hout & Hres & _).
  split; [exact Hout|]. split; [exact Hres|]. split; [reflexivity|].
  split; [reflexivity|].
  exact (failed_listing_aborts_the_run offline_site "http://localhost:3000/" "offline"
           (host_typing []) Hout Hres eq_refl eq_refl).
Defined.

End dashboard_runs.

(** ** A dashboard that cannot be read *)

Section dashboard_failures.
Import GetAllDashboards.

Lemma for_each_app {A B} (xs ys : list A) (body : B → A → D B) :
  ∀ acc st,
    for_each (xs ++ ys) acc body st
    = match for_each xs acc body st with
      | (inr acc', st') => for_each ys acc' body st'
      | (inl e, st') => (inl e, st')
      end.
Proof.
  induction xs as [|x xs IH]; intros acc st; [done|].
  cbn [app for_each]. unfold mbind, D_bind, bind.
  destruct (body acc x st) as [[e|acc'] st']; [done|]. apply IH.
Qed.

(** A turn of the loop in which the extraction raises. *)
Lemma fetch_step_raises w url all_queries dash st uid title dashboard_json err :
  Dashboards.GRAFANA_URL (environment w) = Some url →
  py_item dash "uid" = inr uid →
  py_item dash "title" = inr title →
  answer_for w dash = Response dashboard_json →
  extract_queries dashboard_json = inl err →
  dump_path dash ∉ folders st →
  fetch_step w all_queries dash st
  = (inl err,
     Host (console st ++ ["Fetching dashboard: " +:+ py_str title
                          +:+ " (UID: " +:+ py_str uid +:+ ")"])
          (typed st) (folders st)
          (<[dump_path dash := dumps dashboard_json]> (stored st))).
Proof.
  intros Hurl Huid Htitle Hget Herr Hfree.
  unfold fetch_step, dump_path, answer_for, field in *.
  rewrite Huid, Htitle in *. rewrite Hurl in *. cbn [default id] in *.
  unfold try_request, fetch_specific_dashboard, lift, rstrip_url, get. rewrite Hurl.
  unfold mbind, D_bind, bind, print, write_file, mret, D_ret, ret, raise.
  cbn [console typed folders stored]. rewrite Hget, Herr.
  cbn [console typed folders stored]. case_decide; [done|].
  by destruct (extract_queries_error _ _ Herr) as [->|[->| ->]].
Qed.

Lemma keep_dump_lookup w dashes path :
  (∀ dash, dump_path dash ≠ path) →
  ∀ files, foldl (keep_dump w) files dashes !! path = files !! path.
Proof.
  intros Hpath. induction dashes as [|dash dashes IH]; intros files; [done|].
  cbn [foldl]. rewrite IH. unfold keep_dump.
  destruct (answer_for w dash); [|done]. by rewrite lookup_insert_ne.
Qed.

Lemma dump_path_not_results dash name :
  dump_path dash ≠ FOLDER_FOR_RESULTS +:+ "/" +:+ name.
Proof. by intros [=]. Qed.

(** X13. Only a failed request is caught in the loop. When a dashboard
    arrives but [extract_queries] raises on it, the exception ends the run:
    the dashboard has been written to its file, no question is asked, and
    the query file is not written. *)
Theorem malformed_dashboard_aborts_the_run
    (w : site) (url : string) (dashboards dash uid title dashboard_json : json)
    (before after : list json) (err : error) (st : host) :
  ready st →
  Dashboards.GRAFANA_URL (environment w) = Some url →
  http_get w (rstrip "/" url +:+ "/api/search") (Dashboards.headers (environment w))
  = Response dashboards →
  py_iter dashboards = inr (before ++ dash :: after) →
  Forall (listed w) before →
  py_item dash "uid" = inr uid →
  py_item dash "title" = inr title →
  answer_for w dash = Response dashboard_json →
  extract_queries dashboard_json = inl err →
  ∃ st', main w st = (inl err, st')
    ∧ typed st' = typed st
    ∧ stored st' !! dump_path dash = Some (dumps dashboard_json)
    ∧ stored st' !! QUERY_PATH = stored st !! QUERY_PATH.
Proof.
  intros (Hout & Hres & Hplain) Hurl Hget Hiter Hlisted Huid Htitle Hanswer Herr.
  eexists. split.
  - unfold main. apply bind_inl. unfold gather.
    erewrite bind_inr by (by apply makedirs_runs). cbv beta.
    erewrite bind_inr by (by apply makedirs_runs). cbv beta.
    cbn [console typed folders stored].
    unfold load_dashboard_metadata, lift, rstrip_url, get. rewrite Hurl.
    unfold mbind at 1 2 3 4 5 6, D_bind, bind. rewrite Hget.
    unfold mret, D_ret, ret, write_file, print. cbn [console typed folders stored].
    pose proof (results_path_free st DASHBOARDS_FILE Hplain) as Hfree.
    case_decide; [done|]. rewrite Hiter. cbn [console typed folders stored].
    rewrite for_each_app, (fetch_loop_runs w url before Hurl Hlisted).
    + cbn [for_each]. apply bind_inl.
      eapply fetch_step_raises; [done..|]. cbn [folders]. by apply dump_path_free.
    + intros d _. cbn [folders]. by apply dump_path_free.
  - cbn [typed stored]. split; [done|]. split; [by rewrite lookup_insert_eq|].
    rewrite lookup_insert_ne by apply dump_path_not_results.
    rewrite keep_dump_lookup by (intros d; apply dump_path_not_results).
    by rewrite lookup_insert_ne.
Qed.

Lemma malformed_dashboard_aborts_the_run_witness :
  ready (host_typing ["n"; "n"])
  ∧ Dashboards.GRAFANA_URL (environment broken_site) = Some "http://localhost:3000/"
  ∧ http_get broken_site (rstrip "/" "http://localhost:3000/" +:+ "/api/search")
             (Dashboards.headers (environment broken_site))
    = Response sample_listing
  ∧ py_iter sample_listing
    = inr ([] ++ JDict [("uid", JStr "a"); ("title", JStr "A")]
              :: [JDict [("uid", JStr "b"); ("title", JStr "B")]])
  ∧ Forall (listed broken_site) []
  ∧ py_item (JDict [("uid", JStr "a"); ("title", JStr "A")]) "uid" = inr (JStr "a")
  ∧ py_item (JDict [("uid", JStr "a"); ("title", JStr "A")]) "title" = inr (JStr "A")
  ∧ answer_for broken_site (JDict [("uid", JStr "a"); ("title", JStr "A")])
    = Response dashboard_without_panels
  ∧ extract_queries dashboard_without_panels = inl TypeError
  ∧ ∃ st', main broken_site (host_typing ["n"; "n"]) = (inl TypeError, st')
      ∧ typed st' = typed (host_typing ["n"; "n"])
      ∧ stored st' !! dump_path (JDict [("uid", JStr "a"); ("title", JStr "A")])
        = Some (dumps dashboard_without_panels)
      ∧ stored st' !! QUERY_PATH = stored (host_typing ["n"; "n"]) !! QUERY_PATH.
Proof.
  split; [apply host_typing_ready|]. do 3 (split; [reflexivity|]).
  split; [constructor|]. do 4 (split; [reflexivity|]).
  exact (malformed_dashboard_aborts_the_run broken_site "http://localhost:3000/"
           sample_listing (JDict [("uid", JStr "a"); ("title", JStr "A")])
           (JStr "a") (JStr "A") dashboard_without_panels []
           [JDict [("uid", JStr "b"); ("title", JStr "B")]] TypeError
           (host_typing ["n"; "n"]) (host_typing_ready _)
           eq_refl eq_refl eq_refl (List.Forall_nil _) eq_refl eq_refl eq_refl eq_refl).
Defined.

End dashboard_failures.

(** ** Answers and names *)

Section dashboard_prompts.
Import GetAllDashboards.

Lemma input_runs prompt line rest st :
  typed st = line :: rest →
  input prompt st
  = (inr line, Host (console st ++ [prompt]) rest (folders st) (stored st)).
Proof. intros Htyped. unfold input. by rewrite Htyped. Qed.

Lemma lower_char_y c : lower_char c = "y"%char ↔ c = "y"%char ∨ c = "Y"%char.
Proof.
  split; [|by intros [-> | ->]].
  destruct c as [[] [] [] [] [] [] [] []]; vm_compute; intros [=]; auto.
Qed.

(** Only [y] and [Y] are lowered to [y]. *)
Lemma lower_yes answer : String.eqb (lower answer) "y" = true ↔ yes answer.
Proof.
  rewrite String.eqb_eq. unfold yes. split.
  - destruct answer as [|c [|c' rest]]; [done| |done]. cbn [lower].
    intros [= [-> | ->]%lower_char_y]; auto.
  - by intros [-> | ->].
Qed.

Lemma lower_not_yes answer : ¬ yes answer → String.eqb (lower answer) "y" = false.
Proof.
  intros Hno. destruct (String.eqb (lower answer) "y") eqn:Heq; [|done].
  by apply lower_yes in Heq.
Qed.

Lemma str_prefix_app p s : String.prefix p s = true ↔ ∃ post, s = p +:+ post.
Proof.
  revert s. induction p as [|a p IH]; intros s.
  - split; [by exists s|]. by destruct s.
  - destruct s as [|b s]; cbn [String.prefix].
    + split; [done|]. by intros [post [=]].
    + destruct (ascii_dec a b) as [->|Hab].
      * rewrite IH. split; intros [post Hpost]; exists post.
        -- by rewrite Hpost.
        -- by injection Hpost.
      * split; [done|]. intros [post [=]]. done.
Qed.

(** [needle in hay] holds exactly when the needle is a part of the hay. *)
Lemma contains_occurs needle hay :
  Str.contains needle hay = true ↔ occurs_in needle hay.
Proof.
  unfold occurs_in. induction hay as [|c hay IH]; cbn [Str.contains].
  - rewrite orb_false_r, str_prefix_app. split.
    + intros [post Hpost]. by exists "", post.
    + intros (pre & post & Heq). destruct pre; [by exists post|done].
  - rewrite orb_true_iff, str_prefix_app, IH. split.
    + intros [[post Hpost]|(pre & post & ->)].
      * by exists "", post.
      * by exists (String c pre), post.
    + intros (pre & post & Heq). destruct pre as [|c' pre].
      * left. by exists post.
      * right. injection Heq as -> ->. by exists pre, post.
Qed.
End dashboard_prompts.

(** ** The clean-up *)

Section dashboard_cleanup.
Import GetAllDashboards.

Lemma entry_of_path dir path name :
  entry_of dir path = Some name → path = dir +:+ "/" +:+ name.
Proof.
  unfold entry_of. destruct (String.prefix (dir +:+ "/") path) eqn:Hp; [|done].
  apply str_prefix_app in Hp as [post ->].
  assert (String.length dir + 1 = String.length (dir +:+ "/")) as ->.
  { by rewrite length_app_s. }
  rewrite drop_app_length. destruct (_ || _); [done|]. intros [= <-].
  by rewrite app_assoc_s.
Qed.

Lemma remove_if_file_runs name st :
  remove_if_file () name st
  = (inr (), Host (console st) (typed st) (folders st)
                  (delete (OUTPUT_DIR +:+ "/" +:+ name) (stored st))).
Proof.
  unfold remove_if_file, isfile, remove, mbind, D_bind, bind, mret, D_ret, ret.
  case_bool_decide as Hin.
  - by rewrite decide_True.
  - destruct st as [c t f files]. cbn [console typed folders stored] in *.
    by rewrite (delete_id files) by (by apply not_elem_of_dom).
Qed.

(** The loop of [clean_up_temp_files] leaves none of the listed names as a
    regular file. *)
Lemma sweep_loop_runs names :
  ∀ st,
    for_each names () remove_if_file st
    = (inr (), Host (console st) (typed st) (folders st)
                    (foldl (λ files name, delete (OUTPUT_DIR +:+ "/" +:+ name) files)
                           (stored st) names)).
Proof.
  induction names as [|name names IH]; intros st; [by destruct st|].
  cbn [for_each foldl]. rewrite (bind_inr _ _ _ _ _ (remove_if_file_runs name st)).
  by rewrite IH.
Qed.

Lemma sweep_lookup (names : list string) (files : gmap string string) path :
  foldl (λ files name, delete (OUTPUT_DIR +:+ "/" +:+ name) files) files names !! path
  = if decide (path ∈ (λ name, OUTPUT_DIR +:+ "/" +:+ name) <$> names)
    then None else files !! path.
Proof.
  revert files. induction names as [|name names IH]; intros files; cbn [foldl].
  - rewrite decide_False; [done|]. cbn. apply not_elem_of_nil.
  - rewrite IH. cbn [fmap list_fmap].
    destruct (decide (path ∈ (λ name, OUTPUT_DIR +:+ "/" +:+ name) <$> names)) as [Hin|Hin].
    + rewrite decide_True; [done|]. by right.
    + destruct (decide (path = OUTPUT_DIR +:+ "/" +:+ name)) as [->|Hne].
      * rewrite lookup_delete_eq. rewrite decide_True; [done|]. by left.
      * rewrite lookup_delete_ne by done. rewrite decide_False; [done|].
        by intros [?|?]%elem_of_cons.
Qed.

(** [clean_up_temp_files] where the output folder exists. *)
Lemma clean_up_runs st :
  OUTPUT_DIR ∈ folders st →
  ALERTS_FILE ∉ folders st →
  clean_up_temp_files st
  = (inr (),
     Host (console st
           ++ [CHECK_MARK +:+ " Cleaned up folder: " +:+ OUTPUT_DIR]
           ++ (if decide (ALERTS_FILE ∈ dom (stored st))
               then [CHECK_MARK +:+ " Cleaned up file: alertmanager_alerts.json"]
               else []))
          (typed st) (folders st) (swept (stored st))).
Proof.
  intros Hdir Halerts. unfold clean_up_temp_files.
  erewrite bind_inr by reflexivity. cbv beta.
  rewrite bool_decide_eq_true_2 by (by left).
  erewrite (bind_inr (_ ≫= _)); cycle 1.
  { erewrite bind_inr by (unfold listdir; by rewrite decide_True).
    erewrite bind_inr by apply sweep_loop_runs. reflexivity. }
  cbv beta. cbn [console typed folders stored].
  erewrite bind_inr by reflexivity. cbv beta. cbn [console typed folders stored].
  unfold print, mbind, D_bind, bind, mret, D_ret, ret, remove.
  cbn [console typed folders stored].
  set (names := omap (entry_of OUTPUT_DIR) (elements (folders st ∪ dom (stored st)))).
  set (files := foldl _ (stored st) names).
  assert (Hlookup : ∀ path,
    files !! path = if decide (entry_of OUTPUT_DIR path = None) then stored st !! path
                    else None).
  { intros path. unfold files. rewrite sweep_lookup.
    destruct (decide (entry_of OUTPUT_DIR path = None)) as [Hnone|Hsome].
    - rewrite decide_False; [done|].
      intros (name & -> & (q & Hq & Hname)%list_elem_of_omap)%list_elem_of_fmap.
      apply entry_of_path in Hname as Heq. rewrite <- Heq in Hnone. congruence.
    - destruct (stored st !! path) as [content|] eqn:Hpath; [|by destruct (decide _)].
      rewrite decide_True; [done|].
      destruct (entry_of OUTPUT_DIR path) as [name|] eqn:Hname; [|done].
      apply list_elem_of_fmap. exists name. split; [by apply entry_of_path|].
      apply list_elem_of_omap. exists path. split; [|done].
      apply elem_of_elements, elem_of_union_r, elem_of_dom. eauto. }
  assert (Hsame : ALERTS_FILE ∈ dom files ↔ ALERTS_FILE ∈ dom (stored st)).
  { rewrite !elem_of_dom, Hlookup. by rewrite decide_True. }
  assert (Hswept : delete ALERTS_FILE files = swept (stored st)).
  { apply map_eq. intros path. unfold swept. rewrite map_lookup_filter.
    destruct (decide (path = ALERTS_FILE)) as [->|Hne].
    - rewrite lookup_delete_eq. destruct (stored st !! ALERTS_FILE); [|done].
      cbn. rewrite option_guard_False; [done|]. by intros [_ ?].
    - rewrite lookup_delete_ne by done. rewrite Hlookup.
      destruct (stored st !! path) as [content|]; [|by destruct (decide _)].
      cbn. destruct (decide (entry_of OUTPUT_DIR path = None)).
      + by rewrite option_guard_True.
      + rewrite option_guard_False; [done|]. by intros [? _]. }
  case_bool_decide as Hfound.
  - destruct Hfound as [?|Hfound]; [done|].
    rewrite decide_True by done. cbn [console typed folders stored].
    rewrite decide_True by (by apply Hsame). rewrite Hswept. by rewrite <- app_assoc.
  - rewrite decide_False by (intros ?; apply Hfound; right; by apply Hsame).
    rewrite <- Hswept, delete_id; [done|].
    apply not_elem_of_dom. intros ?. apply Hfound. by right.
Qed.
End dashboard_cleanup.

(** ** The second half of the dashboard script *)

Section dashboard_conclusion.
Import GetAllDashboards.

Lemma contains_char_app c s t :
  Str.contains (String c "") (s +:+ t)
  = Str.contains (String c "") s || Str.contains (String c "") t.
Proof.
  induction s as [|a s IH].
  - cbn. by destruct t.
  - rewrite app_cons. cbn [Str.contains String.prefix]. rewrite IH.
    destruct (ascii_dec c a); [|done]. by destruct s, t.
Qed.

Lemma entry_of_name dir name :
  name ≠ "" → Str.contains "/" name = false →
  entry_of dir (dir +:+ "/" +:+ name) = Some name.
Proof.
  intros Hname Hslash. unfold entry_of.
  assert (String.prefix (dir +:+ "/") (dir +:+ "/" +:+ name) = true) as ->.
  { apply str_prefix_app. exists name. by rewrite app_assoc_s. }
  assert (String.length dir + 1 = String.length (dir +:+ "/")) as ->.
  { by rewrite length_app_s. }
  rewrite app_assoc_s, drop_app_length, Hslash, orb_false_r.
  by apply String.eqb_neq in Hname as ->.
Qed.

Lemma entry_of_plain dir path name :
  entry_of dir path = Some name → name ≠ "" ∧ Str.contains "/" name = false.
Proof.
  unfold entry_of. destruct (String.prefix _ _); [|done].
  destruct (String.eqb _ "") eqn:Hname; [done|].
  destruct (Str.contains "/" _) eqn:Hslash; [done|]. intros [= <-].
  by apply String.eqb_neq in Hname.
Qed.

Lemma swept_lookup files path :
  swept files !! path
  = if decide (entry_of OUTPUT_DIR path = None ∧ path ≠ ALERTS_FILE)
    then files !! path else None.
Proof.
  unfold swept. rewrite map_lookup_filter.
  destruct (files !! path) as [content|]; cbn; [|by destruct (decide _)].
  destruct (decide _).
  - by rewrite option_guard_True.
  - by rewrite option_guard_False.
Qed.

(** X14. [clean_up_temp_files], where the output folder exists, removes
    the regular files that lie directly in it and the alerts file, reports
    both, and leaves every other file and every folder as it was. *)
Theorem clean_up_removes_the_temporary_files (st : host) :
  OUTPUT_DIR ∈ folders st →
  (ALERTS_FILE ∉ folders st) →
  ∃ files,
    clean_up_temp_files st
    = (inr (),
       Host (console st
             ++ [CHECK_MARK +:+ " Cleaned up folder: " +:+ OUTPUT_DIR]
             ++ (if decide (ALERTS_FILE ∈ dom (stored st))
                 then [CHECK_MARK +:+ " Cleaned up file: alertmanager_alerts.json"]
                 else []))
            (typed st) (folders st) files)
    ∧ (∀ name, name ≠ "" → Str.contains "/" name = false →
         files !! (OUTPUT_DIR +:+ "/" +:+ name) = None)
    ∧ files !! ALERTS_FILE = None
    ∧ (∀ path, path ≠ ALERTS_FILE →
         (∀ name, Str.contains "/" name = false → path ≠ OUTPUT_DIR +:+ "/" +:+ name) →
         files !! path = stored st !! path).
Proof.
  intros Hdir Halerts. exists (swept (stored st)).
  split; [by apply clean_up_runs|]. split; [|split].
  - intros name Hname Hslash. rewrite swept_lookup, decide_False; [done|].
    rewrite (entry_of_name _ _ Hname Hslash). by intros [? _].
  - rewrite swept_lookup, decide_False; [done|]. by intros [_ ?].
  - intros path Hpath Hout. rewrite swept_lookup, decide_True; [done|].
    split; [|done]. destruct (entry_of OUTPUT_DIR path) as [name|] eqn:Hname; [|done].
    destruct (entry_of_plain _ _ _ Hname) as [_ Hslash].
    apply entry_of_path in Hname. by destruct (Hout name Hslash).
Qed.

Lemma clean_up_removes_the_temporary_files_witness :
  OUTPUT_DIR ∈ folders littered_host
  ∧ (ALERTS_FILE ∉ folders littered_host)
  ∧ ∃ files,
      clean_up_temp_files littered_host
      = (inr (),
         Host (console littered_host
               ++ [CHECK_MARK +:+ " Cleaned up folder: " +:+ OUTPUT_DIR]
               ++ (if decide (ALERTS_FILE ∈ dom (stored littered_host))
                   then [CHECK_MARK +:+ " Cleaned up file: alertmanager_alerts.json"]
                   else []))
              (typed littered_host) (folders littered_host) files)
      ∧ (∀ name, name ≠ "" → Str.contains "/" name = false →
           files !! (OUTPUT_DIR +:+ "/" +:+ name) = None)
      ∧ files !! ALERTS_FILE = None
      ∧ (∀ path, path ≠ ALERTS_FILE →
           (∀ name, Str.contains "/" name = false →
                    path ≠ OUTPUT_DIR +:+ "/" +:+ name) →
           files !! path = stored littered_host !! path).
Proof.
  assert (Hdir : OUTPUT_DIR ∈ folders littered_host)
    by (apply (bool_decide_unpack _); by vm_compute).
  assert (Halerts : ALERTS_FILE ∉ folders littered_host)
    by (apply (bool_decide_unpack _); by vm_compute).
  split; [exact Hdir|]. split; [exact Halerts|].
  exact (clean_up_removes_the_temporary_files littered_host Hdir Halerts).
Defined.


Lemma specific_metric_step_declined all_queries answer rest st :
  typed st = answer :: rest → ¬ yes answer →
  specific_metric_step all_queries st
  = (inr (),
     Host (console st ++ ["Do you want to get a specific metric from the queries? (y/n): "])
          rest (folders st) (stored st)).
Proof.
  intros Htyped Hno. unfold specific_metric_step.
  erewrite bind_inr by (by apply input_runs). cbv beta.
  by rewrite (lower_not_yes _ Hno).
Qed.

Lemma alert_manager_step_declined w answer rest st :
  typed st = answer :: rest → ¬ yes answer →
  alert_manager_step w st
  = (inr (),
     Host (console st ++ ["Do you want to get alerts from AlertManager? (y/n): "])
          rest (folders st) (stored st)).
Proof.
  intros Htyped Hno. unfold alert_manager_step.
  erewrite bind_inr by (by apply input_runs). cbv beta.
  by rewrite (lower_not_yes _ Hno).
Qed.

(** The lines that [conclude] prints before its first question. *)
Lemma conclude_saves w all_queries st :
  QUERY_PATH ∉ folders st →
  conclude w all_queries st
  = (specific_metric_step all_queries;; alert_manager_step w;; clean_up_temp_files)
      (Host (console st
             ++ [nl +:+ CHECK_MARK +:+ " Extracted " +:+ len_str (length all_queries)
                 +:+ " PromQL queries.";
                 DISK_MARK +:+ " Saved to " +:+ QUERY_FILE])
            (typed st) (folders st)
            (<[QUERY_PATH := Str.join nl all_queries]> (stored st))).
Proof.
  intros Hfree. unfold conclude.
  erewrite bind_inr by (by apply write_file_runs). cbv beta.
  erewrite bind_inr by reflexivity. cbv beta.
  erewrite bind_inr by reflexivity. cbv beta.
  cbn [console typed folders stored]. by rewrite <- app_assoc.
Qed.

Lemma conclude_declined w all_queries first second rest st :
  plain_folders st → OUTPUT_DIR ∈ folders st →
  typed st = first :: second :: rest → ¬ yes first → ¬ yes second →
  conclude w all_queries st
  = (inr (),
     Host (console st
           ++ [nl +:+ CHECK_MARK +:+ " Extracted " +:+ len_str (length all_queries)
               +:+ " PromQL queries.";
               DISK_MARK +:+ " Saved to " +:+ QUERY_FILE;
               "Do you want to get a specific metric from the queries? (y/n): ";
               "Do you want to get alerts from AlertManager? (y/n): ";
               CHECK_MARK +:+ " Cleaned up folder: " +:+ OUTPUT_DIR]
           ++ (if decide (ALERTS_FILE ∈ dom (stored st))
               then [CHECK_MARK +:+ " Cleaned up file: alertmanager_alerts.json"]
               else []))
          rest (folders st)
          (swept (<[QUERY_PATH := Str.join nl all_queries]> (stored st)))).
Proof.
  intros Hplain Hdir Htyped Hfirst Hsecond.
  rewrite conclude_saves by (by apply plain_folders_free).
  erewrite bind_inr by (eapply specific_metric_step_declined; [exact Htyped|done]).
  cbv beta.
  erewrite bind_inr by (eapply alert_manager_step_declined; [reflexivity|done]).
  cbv beta.
  rewrite clean_up_runs by (done || apply Hplain).
  cbn [console typed folders stored]. rewrite <- !app_assoc. cbn [app].
  destruct (decide (ALERTS_FILE ∈ dom (stored st))) as [Hin|Hin],
           (decide (ALERTS_FILE ∈ dom (<[QUERY_PATH := Str.join nl all_queries]>
                                        (stored st)))) as [Hin'|Hin'];
    try done; exfalso.
  - apply Hin'. rewrite dom_insert_L. by apply elem_of_union_r.
  - apply Hin. rewrite dom_insert_L in Hin'.
    by apply elem_of_union in Hin' as [[=]%elem_of_singleton|?].
Qed.
End dashboard_conclusion.

(** ** Whole runs of the dashboard script *)

Section dashboard_runs_to_the_end.
Import GetAllDashboards.

Lemma gathered_plain w dashboards dashes st :
  plain_folders st →
  plain_folders (gathered w dashboards dashes st)
  ∧ OUTPUT_DIR ∈ folders (gathered w dashboards dashes st).
Proof.
  intros [Halerts Hplain]. unfold gathered. cbn [folders]. split; [split|].
  - by intros [[?|[=]%elem_of_singleton]%elem_of_union
                |[=]%elem_of_singleton]%elem_of_union.
  - intros path [[?| ->%elem_of_singleton]%elem_of_union
                 | ->%elem_of_singleton]%elem_of_union; [by apply Hplain|done..].
  - apply elem_of_union_l, elem_of_union_r. by apply elem_of_singleton.
Qed.

(** X15. A run in which both questions are answered with something else
    than [y] or [Y] ends normally. It leaves the listing and the query
    file, which holds the queries joined by line feeds; the dashboards
    that the loop wrote into the output folder are removed again, and
    there is no alerts file. *)
Theorem declined_run_keeps_the_results_only
    (w : site) (url : string) (dashboards : json) (dashes : list json)
    (first second : string) (rest : list string) (st : host) :
  ready st →
  Dashboards.GRAFANA_URL (environment w) = Some url →
  http_get w (rstrip "/" url +:+ "/api/search") (Dashboards.headers (environment w))
  = Response dashboards →
  py_iter dashboards = inr dashes →
  Forall (listed w) dashes →
  typed st = first :: second :: rest →
  ¬ yes first → ¬ yes second →
  ∃ out files,
    main w st
    = (inr (), Host (console st ++ out) rest
                    (folders st ∪ {[OUTPUT_DIR]} ∪ {[FOLDER_FOR_RESULTS]}) files)
    ∧ files !! DASHBOARDS_PATH = Some (dumps dashboards)
    ∧ files !! QUERY_PATH = Some (Str.join nl (concat (queries_of w <$> dashes)))
    ∧ (∀ dash, dash ∈ dashes →
         Str.contains "/" (py_str (field "uid" dash)) = false →
         files !! dump_path dash = None)
    ∧ files !! ALERTS_FILE = None.
Proof.
  intros Hready Hurl Hget Hiter Hlisted Htyped Hfirst Hsecond.
  pose proof Hready as (_ & _ & Hplain).
  destruct (gathered_plain w dashboards dashes st Hplain) as [Hplain' Hdir].
  unfold main.
  rewrite (bind_inr _ _ _ _ _ (gather_runs w url dashboards dashes st
                                 Hready Hurl Hget Hiter Hlisted)).
  rewrite (conclude_declined w _ first second rest _ Hplain' Hdir Htyped Hfirst Hsecond).
  unfold gathered at 1 2 3. cbn [console typed folders stored].
  rewrite <- !app_assoc. eexists _, _. split; [reflexivity|].
  rewrite !swept_lookup. split; [|split; [|split]].
  - rewrite decide_True by done. rewrite lookup_insert_ne by done.
    unfold gathered. cbn [stored].
    rewrite keep_dump_lookup by (intros d; apply dump_path_not_results).
    by rewrite lookup_insert_eq.
  - rewrite decide_True by done. by rewrite lookup_insert_eq.
  - intros dash _ Hslash. rewrite swept_lookup, decide_False; [done|]. intros [Hnone _].
    unfold dump_path in Hnone. rewrite entry_of_name in Hnone; [done| |].
    + by destruct (py_str (field "uid" dash)).
    + by rewrite (contains_char_app "/"), Hslash.
  - rewrite decide_False; [done|]. by intros [_ ?].
Qed.

Lemma declined_run_keeps_the_results_only_witness :
  ready (host_typing ["n"; "n"])
  ∧ Dashboards.GRAFANA_URL (environment sample_site) = Some "http://localhost:3000/"
  ∧ http_get sample_site (rstrip "/" "http://localhost:3000/" +:+ "/api/search")
             (Dashboards.headers (environment sample_site))
    = Response sample_listing
  ∧ py_iter sample_listing
    = inr [JDict [("uid", JStr "a"); ("title", JStr "A")];
           JDict [("uid", JStr "b"); ("title", JStr "B")]]
  ∧ Forall (listed sample_site)
           [JDict [("uid", JStr "a"); ("title", JStr "A")];
            JDict [("uid", JStr "b"); ("title", JStr "B")]]
  ∧ typed (host_typing ["n"; "n"]) = "n" :: "n" :: []
  ∧ ¬ yes "n" ∧ ¬ yes "n"
  ∧ ∃ out files,
      main sample_site (host_typing ["n"; "n"])
      = (inr (), Host (console (host_typing ["n"; "n"]) ++ out) []
                      (folders (host_typing ["n"; "n"])
                       ∪ {[OUTPUT_DIR]} ∪ {[FOLDER_FOR_RESULTS]}) files)
      ∧ files !! DASHBOARDS_PATH = Some (dumps sample_listing)
      ∧ files !! QUERY_PATH
        = Some (Str.join nl
                  (concat (queries_of sample_site
                           <$> [JDict [("uid", JStr "a"); ("title", JStr "A")];
                                JDict [("uid", JStr "b"); ("title", JStr "B")]])))
      ∧ (∀ dash, dash ∈ [JDict [("uid", JStr "a"); ("title", JStr "A")];
                         JDict [("uid", JStr "b"); ("title", JStr "B")]] →
           Str.contains "/" (py_str (field "uid" dash)) = false →
           files !! dump_path dash = None)
      ∧ files !! ALERTS_FILE = None.
Proof.
  assert (Hno : ¬ yes "n") by (by intros [[=]|[=]]).
  split; [apply host_typing_ready|]. do 3 (split; [reflexivity|]).
  split; [apply sample_site_listed|]. split; [reflexivity|].
  split; [exact Hno|]. split; [exact Hno|].
  exact (declined_run_keeps_the_results_only sample_site "http://localhost:3000/"
           sample_listing _ "n" "n" [] (host_typing ["n"; "n"])
           (host_typing_ready _) eq_refl eq_refl eq_refl sample_site_listed
           eq_refl Hno Hno).
Defined.


Lemma specific_metric_step_answered all_queries answer metric_name rest st :
  SPECIFIC_PATH ∉ folders st →
  typed st = specific_answers answer metric_name ++ rest →
  ∃ out files,
    specific_metric_step all_queries st
    = (inr (), Host (console st ++ out) rest (folders st) files)
    ∧ ∀ path, path ≠ SPECIFIC_PATH → files !! path = stored st !! path.
Proof.
  intros Hfree Htyped. unfold specific_answers in Htyped. unfold specific_metric_step.
  destruct (String.eqb (lower answer) "y") eqn:Hy; cbn [app] in Htyped.
  - erewrite bind_inr by (by apply input_runs). cbv beta. rewrite Hy.
    erewrite bind_inr by (by apply input_runs). cbv beta zeta.
    destruct (filter _ all_queries) as [|q qs].
    + eexists _, _. split; [|done].
      unfold print. cbn [console typed folders stored]. by rewrite <- !app_assoc.
    + erewrite bind_inr by reflexivity. cbv beta.
      erewrite bind_inr by (by apply write_file_runs). cbv beta.
      eexists _, _. split.
      * unfold print. cbn [console typed folders stored]. by rewrite <- !app_assoc.
      * intros path Hpath. by rewrite lookup_insert_ne.
  - erewrite bind_inr by (by apply input_runs). cbv beta. rewrite Hy.
    by eexists _, _.
Qed.

Lemma keep_dump_kept w dashes dash dashboard_json files :
  dash ∈ dashes → answer_for w dash = Response dashboard_json →
  is_Some (foldl (keep_dump w) files dashes !! dump_path dash).
Proof.
  intros Hin Hanswer. induction dashes as [|d dashes IH] using rev_ind.
  - by apply elem_of_nil in Hin.
  - rewrite foldl_app. cbn [foldl]. unfold keep_dump at 1.
    apply elem_of_app in Hin as [Hin|Hin].
    + destruct (answer_for w d); [|by apply IH].
      destruct (decide (dump_path d = dump_path dash)) as [->|Hne].
      * rewrite lookup_insert_eq. by eexists.
      * rewrite lookup_insert_ne by done. by apply IH.
    + apply list_elem_of_singleton in Hin as ->. rewrite Hanswer.
      rewrite lookup_insert_eq. by eexists.
Qed.

(** X16. When the AlertManager question is answered with yes and
    [ALERTMANAGER_URL] is unset or empty, [main] raises [EnvironmentError]
    at that point, whatever was answered to the question before it: the
    last line of the console is the AlertManager question, the query file
    has been written, and the clean-up does not run, so the file of every
    dashboard that was fetched is still in the output folder and, the file
    of the specific metric apart, the files are those that the loop left. *)
Theorem missing_alertmanager_url_stops_before_the_clean_up
    (w : site) (url : string) (dashboards : json) (dashes : list json)
    (first metric_name second : string) (rest : list string) (st : host) :
  ready st →
  Dashboards.GRAFANA_URL (environment w) = Some url →
  http_get w (rstrip "/" url +:+ "/api/search") (Dashboards.headers (environment w))
  = Response dashboards →
  py_iter dashboards = inr dashes →
  Forall (listed w) dashes →
  typed st = specific_answers first metric_name ++ second :: rest →
  yes second →
  truthy (Dashboards.ALERTMANAGER_URL (environment w)) = false →
  ∃ out files,
    main w st
    = (inl (Raised (EnvironmentError "ALERTMANAGER_URL must be set")),
       Host (console st ++ out
             ++ ["Do you want to get alerts from AlertManager? (y/n): "])
            rest (folders st ∪ {[OUTPUT_DIR]} ∪ {[FOLDER_FOR_RESULTS]}) files)
    ∧ files !! QUERY_PATH = Some (Str.join nl (concat (queries_of w <$> dashes)))
    ∧ (∀ dash dashboard_json, dash ∈ dashes →
         answer_for w dash = Response dashboard_json →
         is_Some (files !! dump_path dash))
    ∧ (∀ path, path ≠ QUERY_PATH → path ≠ SPECIFIC_PATH →
         files !! path = stored (gathered w dashboards dashes st) !! path).
Proof.
  intros Hready Hurl Hget Hiter Hlisted Htyped Hsecond Ham.
  pose proof Hready as (_ & _ & Hplain).
  destruct (gathered_plain w dashboards dashes st Hplain) as [Hplain' Hdir].
  unfold main.
  rewrite (bind_inr _ _ _ _ _ (gather_runs w url dashboards dashes st
                                 Hready Hurl Hget Hiter Hlisted)).
  rewrite conclude_saves by (by apply plain_folders_free).
  lazymatch goal with
  | |- context [(specific_metric_step ?queries ≫= _) ?st1] =>
      destruct (specific_metric_step_answered queries first metric_name
                  (second :: rest) st1) as (out & files & Hstep & Hframe);
        [by apply (plain_folders_free _ FOLDER_FOR_RESULTS)|exact Htyped|]
  end.
  erewrite bind_inr by exact Hstep. cbv beta. cbn [console typed folders stored] in *.
  exists ([CHECK_MARK +:+ " Saved dashboards metadata to " +:+ DASHBOARDS_FILE]
          ++ concat (fetch_log w <$> dashes)
          ++ [nl +:+ CHECK_MARK +:+ " Extracted "
              +:+ len_str (length (concat (queries_of w <$> dashes)))
              +:+ " PromQL queries.";
              DISK_MARK +:+ " Saved to " +:+ QUERY_FILE]
          ++ out), files.
  split; [|split; [|split]].
  - apply bind_inl. unfold alert_manager_step.
    erewrite bind_inr by (by apply input_runs). cbv beta.
    apply lower_yes in Hsecond as ->. rewrite Ham. cbn [negb].
    unfold raise, gathered. cbn [console typed folders stored].
    by rewrite <- !app_assoc.
  - rewrite Hframe by done. by rewrite lookup_insert_eq.
  - intros dash dashboard_json Hdash Hanswer.
    rewrite Hframe by apply dump_path_not_results.
    rewrite lookup_insert_ne by (apply not_eq_sym, dump_path_not_results).
    unfold gathered. cbn [stored]. by eapply keep_dump_kept.
  - intros path Hquery Hspecific. rewrite Hframe by done. by rewrite lookup_insert_ne.
Qed.
Lemma missing_alertmanager_url_stops_before_the_clean_up_witness :
  ready (host_typing ["y"; "up"; "y"])
  ∧ Dashboards.GRAFANA_URL (environment sample_site) = Some "http://localhost:3000/"
  ∧ http_get sample_site (rstrip "/" "http://localhost:3000/" +:+ "/api/search")
             (Dashboards.headers (environment sample_site))
    = Response sample_listing
  ∧ py_iter sample_listing
    = inr [JDict [("uid", JStr "a"); ("title", JStr "A")];
           JDict [("uid", JStr "b"); ("title", JStr "B")]]
  ∧ Forall (listed sample_site)
           [JDict [("uid", JStr "a"); ("title", JStr "A")];
            JDict [("uid", JStr "b"); ("title", JStr "B")]]
  ∧ typed (host_typing ["y"; "up"; "y"]) = specific_answers "y" "up" ++ "y" :: []
  ∧ yes "y"
  ∧ truthy (Dashboards.ALERTMANAGER_URL (environment sample_site)) = false
  ∧ ∃ out files,
      main sample_site (host_typing ["y"; "up"; "y"])
      = (inl (Raised (EnvironmentError "ALERTMANAGER_URL must be set")),
         Host (console (host_typing ["y"; "up"; "y"]) ++ out
               ++ ["Do you want to get alerts from AlertManager? (y/n): "])
              [] (folders (host_typing ["y"; "up"; "y"])
                  ∪ {[OUTPUT_DIR]} ∪ {[FOLDER_FOR_RESULTS]}) files)
      ∧ files !! QUERY_PATH
        = Some (Str.join nl
                  (concat (queries_of sample_site
                           <$> [JDict [("uid", JStr "a"); ("title", JStr "A")];
                                JDict [("uid", JStr "b"); ("title", JStr "B")]])))
      ∧ (∀ dash dashboard_json,
           dash ∈ [JDict [("uid", JStr "a"); ("title", JStr "A")];
                   JDict [("uid", JStr "b"); ("title", JStr "B")]] →
           answer_for sample_site dash = Response dashboard_json →
           is_Some (files !! dump_path dash))
      ∧ (∀ path, path ≠ QUERY_PATH → path ≠ SPECIFIC_PATH →
           files !! path
           = stored (gathered sample_site sample_listing
                       [JDict [("uid", JStr "a"); ("title", JStr "A")];
                        JDict [("uid", JStr "b"); ("title", JStr "B")]]
                       (host_typing ["y"; "up"; "y"])) !! path).
Proof.
  assert (Hyes : yes "y") by (by left).
  split; [apply host_typing_ready|]. do 3 (split; [reflexivity|]).
  split; [apply sample_site_listed|]. split; [reflexivity|].
  split; [exact Hyes|]. split; [reflexivity|].
  exact (missing_alertmanager_url_stops_before_the_clean_up sample_site
           "http://localhost:3000/" sample_listing _ "y" "up" "y" []
           (host_typing ["y"; "up"; "y"]) (host_typing_ready _) eq_refl eq_refl eq_refl
           sample_site_listed eq_refl Hyes eq_refl).
Defined.

End dashboard_runs_to_the_end.

(** ** The specific metric, the saved listing, the URL *)

Section dashboard_steps.
Import GetAllDashboards.

(** X17. After a yes to the first question, the file of the specific
    metric holds, joined by line feeds and in their order, the queries in
    which the name that was typed occurs anywhere, the title included; an
    empty name keeps every query. When no query matches, the file is left
    as it was and a message says so. *)
Theorem specific_metric_step_saves_the_matching_queries
    (all_queries : list string) (answer metric_name : string) (rest : list string)
    (st : host) :
  (SPECIFIC_PATH ∉ folders st) →
  typed st = answer :: metric_name :: rest →
  yes answer →
  let matching := filter (λ query, Str.contains metric_name query = true) all_queries in
  (∀ query, query ∈ matching ↔ query ∈ all_queries ∧ occurs_in metric_name query)
  ∧ (metric_name = "" → matching = all_queries)
  ∧ specific_metric_step all_queries st
    = (inr (),
       Host (console st
             ++ ["Do you want to get a specific metric from the queries? (y/n): ";
                 "Enter the metric name: "]
             ++ match matching with
                | [] => ["No queries found with metric '" +:+ metric_name +:+ "'."]
                | _ => ["Found " +:+ len_str (length matching)
                        +:+ " queries with metric '" +:+ metric_name +:+ "':";
                        DISK_MARK +:+ " Saved to " +:+ SPECIFIC_METRIC]
                end)
            rest (folders st)
            match matching with
            | [] => stored st
            | _ => <[SPECIFIC_PATH := Str.join nl matching]> (stored st)
            end).
Proof.
  intros Hfree Htyped Hyes. cbv zeta. split; [|split].
  - intros query. rewrite list_elem_of_filter, contains_occurs. tauto.
  - intros ->. induction all_queries as [|q qs IH]; [done|].
    rewrite filter_cons_True; [by rewrite IH|]. by destruct q.
  - unfold specific_metric_step.
    erewrite bind_inr by (by apply input_runs). cbv beta.
    apply lower_yes in Hyes as ->.
    erewrite bind_inr by (by apply input_runs). cbv beta zeta.
    destruct (filter _ all_queries) as [|q qs].
    + unfold print. cbn [console typed folders stored]. by rewrite <- !app_assoc.
    + erewrite bind_inr by reflexivity. cbv beta.
      erewrite bind_inr by (by apply write_file_runs). cbv beta.
      unfold print. cbn [console typed folders stored]. by rewrite <- !app_assoc.
Qed.

Lemma specific_metric_step_saves_the_matching_queries_witness :
  (SPECIFIC_PATH ∉ folders (host_typing ["Y"; "up"]))
  ∧ typed (host_typing ["Y"; "up"]) = "Y" :: "up" :: []
  ∧ yes "Y"
  ∧ (∀ query,
       query ∈ filter (λ query, Str.contains "up" query = true) ["A: up"; "B: rate(x[5m])"]
       ↔ query ∈ ["A: up"; "B: rate(x[5m])"] ∧ occurs_in "up" query)
  ∧ ("up" = "" →
     filter (λ query, Str.contains "up" query = true) ["A: up"; "B: rate(x[5m])"]
     = ["A: up"; "B: rate(x[5m])"])
  ∧ specific_metric_step ["A: up"; "B: rate(x[5m])"] (host_typing ["Y"; "up"])
    = (inr (),
       Host (console (host_typing ["Y"; "up"])
             ++ ["Do you want to get a specific metric from the queries? (y/n): ";
                 "Enter the metric name: "]
             ++ match filter (λ query, Str.contains "up" query = true)
                             ["A: up"; "B: rate(x[5m])"] with
                | [] => ["No queries found with metric '" +:+ "up" +:+ "'."]
                | _ => ["Found "
                        +:+ len_str (length (filter (λ query, Str.contains "up" query = true)
                                                    ["A: up"; "B: rate(x[5m])"]))
                        +:+ " queries with metric '" +:+ "up" +:+ "':";
                        DISK_MARK +:+ " Saved to " +:+ SPECIFIC_METRIC]
                end)
            [] (folders (host_typing ["Y"; "up"]))
            match filter (λ query, Str.contains "up" query = true)
                         ["A: up"; "B: rate(x[5m])"] with
            | [] => stored (host_typing ["Y"; "up"])
            | _ => <[SPECIFIC_PATH :=
                       Str.join nl (filter (λ query, Str.contains "up" query = true)
                                           ["A: up"; "B: rate(x[5m])"])]>
                     (stored (host_typing ["Y"; "up"]))
            end).
Proof.
  assert (Hfree : SPECIFIC_PATH ∉ folders (host_typing ["Y"; "up"]))
    by apply not_elem_of_empty.
  assert (Hyes : yes "Y") by (by right).
  split; [exact Hfree|]. split; [reflexivity|]. split; [exact Hyes|].
  exact (specific_metric_step_saves_the_matching_queries
           ["A: up"; "B: rate(x[5m])"] "Y" "up" [] (host_typing ["Y"; "up"])
           Hfree eq_refl Hyes).
Defined.


(** X18. The listing that [load_dashboard_metadata] saves reads back, with
    [json.load], as the listing that it returns. *)
Theorem saved_listing_reads_back (w : site) (url : string) (dashboards : json) (st : host) :
  Dashboards.GRAFANA_URL (environment w) = Some url →
  http_get w (rstrip "/" url +:+ "/api/search") (Dashboards.headers (environment w))
  = Response dashboards →
  wf_json dashboards →
  (DASHBOARDS_PATH ∉ folders st) →
  ∃ text,
    load_dashboard_metadata w st
    = (inr dashboards,
       Host (console st ++ [CHECK_MARK +:+ " Saved dashboards metadata to "
                            +:+ DASHBOARDS_FILE])
            (typed st) (folders st) (<[DASHBOARDS_PATH := text]> (stored st)))
    ∧ loads text = Some dashboards.
Proof.
  intros Hurl Hget Hwf Hfree. exists (dumps dashboards). split; [|by apply loads_dumps].
  unfold load_dashboard_metadata, lift, rstrip_url, get. rewrite Hurl.
  unfold mbind, D_bind, bind. rewrite Hget.
  unfold mret, D_ret, ret, write_file, print. cbn [console typed folders stored].
  by case_decide.
Qed.

Lemma saved_listing_reads_back_witness :
  Dashboards.GRAFANA_URL (environment sample_site) = Some "http://localhost:3000/"
  ∧ http_get sample_site (rstrip "/" "http://localhost:3000/" +:+ "/api/search")
             (Dashboards.headers (environment sample_site))
    = Response sample_listing
  ∧ wf_json sample_listing
  ∧ (DASHBOARDS_PATH ∉ folders (host_typing []))
  ∧ ∃ text,
      load_dashboard_metadata sample_site (host_typing [])
      = (inr sample_listing,
         Host (console (host_typing [])
               ++ [CHECK_MARK +:+ " Saved dashboards metadata to " +:+ DASHBOARDS_FILE])
              (typed (host_typing [])) (folders (host_typing []))
              (<[DASHBOARDS_PATH := text]> (stored (host_typing []))))
      ∧ loads text = Some sample_listing.
Proof.
  assert (Hwf : wf_json sample_listing).
  { repeat constructor; apply (bool_decide_unpack _); by vm_compute. }
  assert (Hfree : DASHBOARDS_PATH ∉ folders (host_typing []))
    by apply not_elem_of_empty.
  split; [reflexivity|]. split; [reflexivity|]. split; [exact Hwf|].
  split; [exact Hfree|].
  exact (saved_listing_reads_back sample_site "http://localhost:3000/" sample_listing
           (host_typing []) eq_refl eq_refl Hwf Hfree).
Defined.


Lemma rstrip_run c s n :
  (∀ t, s ≠ t +:+ String c "") → rstrip c (s +:+ run_of c n) = s.
Proof.
  intros Hend.
  assert (Htail : rstrip c (run_of c n) = "").
  { induction n as [|n IH]; [done|]. cbn [run_of rstrip]. rewrite IH.
    by rewrite Ascii.eqb_refl. }
  induction s as [|a s IH]; [done|]. rewrite app_cons. cbn [rstrip].
  destruct s as [|b s].
  - rewrite app_empty_l, Htail. destruct (Ascii.eqb a c) eqn:Hac; [|done].
    apply Ascii.eqb_eq in Hac as ->. by destruct (Hend "").
  - rewrite IH; [done|]. intros t Ht. apply (Hend (String a t)). by rewrite app_cons, <- Ht.
Qed.

Lemma rstrip_stripped c s t : rstrip c s ≠ t +:+ String c "".
Proof.
  revert t. induction s as [|a s IH]; intros t; cbn [rstrip].
  - by destruct t.
  - destruct (rstrip c s) as [|b r] eqn:Hr.
    + destruct (Ascii.eqb a c) eqn:Hac; [by destruct t|].
      destruct t as [|a' [|??]]; try done. cbn. intros [= ->].
      by rewrite Ascii.eqb_refl in Hac.
    + destruct t as [|a' t]; [by intros [=]|]. rewrite app_cons. intros [= _ Heq].
      by apply (IH t).
Qed.

(** X19. The slashes at the end of [GRAFANA_URL] do not count: the requests
    go to the URL without them, followed by the path of the API. *)
Theorem trailing_slashes_of_the_url_are_dropped
    (w : site) (base : string) (n : nat) (uid : json) (st : host) :
  rstrip "/" base = base →
  Dashboards.GRAFANA_URL (environment w) = Some (base +:+ run_of "/" n) →
  fetch_specific_dashboard w uid st
  = get w (base +:+ "/api/dashboards/uid/" +:+ py_str uid)
        (Dashboards.headers (environment w)) st
  ∧ (∀ msg, http_get w (base +:+ "/api/search") (Dashboards.headers (environment w))
            = Failed msg →
            load_dashboard_metadata w st = (inl (Raised (RequestException msg)), st))
  ∧ (∀ dashboards,
       http_get w (base +:+ "/api/search") (Dashboards.headers (environment w))
       = Response dashboards →
       (DASHBOARDS_PATH ∉ folders st) →
       load_dashboard_metadata w st
       = (inr dashboards,
          Host (console st ++ [CHECK_MARK +:+ " Saved dashboards metadata to "
                               +:+ DASHBOARDS_FILE])
               (typed st) (folders st)
               (<[DASHBOARDS_PATH := dumps dashboards]> (stored st)))).
Proof.
  intros Hbase Hurl.
  assert (Hend : ∀ t, base ≠ t +:+ "/").
  { intros t Heq. apply (rstrip_stripped "/" base t). by rewrite Hbase. }
  assert (Hstrip : rstrip "/" (base +:+ run_of "/" n) = base) by (by apply rstrip_run).
  split; [|split].
  - unfold fetch_specific_dashboard, lift, rstrip_url. rewrite Hurl.
    unfold mbind, D_bind, bind. by rewrite Hstrip.
  - intros msg Hget. unfold load_dashboard_metadata, lift, rstrip_url, get. rewrite Hurl.
    unfold mbind, D_bind, bind. by rewrite Hstrip, Hget.
  - intros dashboards Hget Hfree.
    unfold load_dashboard_metadata, lift, rstrip_url, get. rewrite Hurl.
    unfold mbind, D_bind, bind. rewrite Hstrip, Hget.
    unfold mret, D_ret, ret, write_file, print. cbn [console typed folders stored].
    by case_decide.
Qed.

Lemma trailing_slashes_of_the_url_are_dropped_witness :
  rstrip "/" "http://localhost:3000" = "http://localhost:3000"
  ∧ Dashboards.GRAFANA_URL (environment sample_site)
    = Some ("http://localhost:3000" +:+ run_of "/" 1)
  ∧ fetch_specific_dashboard sample_site (JStr "a") (host_typing [])
    = get sample_site ("http://localhost:3000" +:+ "/api/dashboards/uid/" +:+ py_str (JStr "a"))
          (Dashboards.headers (environment sample_site)) (host_typing [])
  ∧ (∀ msg, http_get sample_site ("http://localhost:3000" +:+ "/api/search")
                     (Dashboards.headers (environment sample_site))
            = Failed msg →
            load_dashboard_metadata sample_site (host_typing [])
            = (inl (Raised (RequestException msg)), host_typing []))
  ∧ (∀ dashboards,
       http_get sample_site ("http://localhost:3000" +:+ "/api/search")
                (Dashboards.headers (environment sample_site))
       = Response dashboards →
       (DASHBOARDS_PATH ∉ folders (host_typing [])) →
       load_dashboard_metadata sample_site (host_typing [])
       = (inr dashboards,
          Host (console (host_typing [])
                ++ [CHECK_MARK +:+ " Saved dashboards metadata to " +:+ DASHBOARDS_FILE])
               (typed (host_typing [])) (folders (host_typing []))
               (<[DASHBOARDS_PATH := dumps dashboards]> (stored (host_typing []))))).
Proof.
  split; [reflexivity|]. split; [reflexivity|].
  exact (trailing_slashes_of_the_url_are_dropped sample_site "http://localhost:3000" 1
           (JStr "a") (host_typing []) eq_refl eq_refl).
Defined.

End dashboard_steps.

(** ** The expressions of the alerts *)

Section alert_expressions.
Import GetAllDashboards.

Lemma code_inj a b : code a = code b → a = b.
Proof.
  unfold code. intros Heq. rewrite <- (ascii_N_embedding a), <- (ascii_N_embedding b).
  by rewrite Heq.
Qed.

Lemma str_leb_total s t : str_leb s t = true ∨ str_leb t s = true.
Proof.
  revert t. induction s as [|a s IH]; intros [|b t]; cbn [str_leb]; auto.
  destruct (N.ltb_spec (code a) (code b)), (N.ltb_spec (code b) (code a)); auto.
Qed.

Lemma str_leb_antisym s t : str_leb s t = true → str_leb t s = true → s = t.
Proof.
  revert t. induction s as [|a s IH]; intros [|b t]; cbn [str_leb]; try done.
  destruct (N.ltb_spec (code a) (code b)), (N.ltb_spec (code b) (code a));
    try done; try lia.
  intros Hst Hts. assert (a = b) as -> by (apply code_inj; lia).
  f_equal. by apply IH.
Qed.

Lemma str_leb_trans s t u : str_leb s t = true → str_leb t u = true → str_leb s u = true.
Proof.
  revert t u. induction s as [|a s IH]; intros [|b t] [|c u]; cbn [str_leb]; try done.
  destruct (N.ltb_spec (code a) (code b)), (N.ltb_spec (code b) (code a)),
           (N.ltb_spec (code b) (code c)), (N.ltb_spec (code c) (code b)),
           (N.ltb_spec (code a) (code c)), (N.ltb_spec (code c) (code a));
    try done; try lia.
  apply IH.
Qed.

Lemma insort_str_perm x l : insort_str x l ≡ₚ x :: l.
Proof.
  induction l as [|y l IH]; [done|]. cbn [insort_str].
  destruct (str_leb x y); [done|]. by rewrite IH, Permutation_swap.
Qed.

Lemma sorted_str_perm l : sorted_str l ≡ₚ l.
Proof.
  induction l as [|x l IH]; [done|]. unfold sorted_str in *. cbn [foldr].
  by rewrite insort_str_perm, IH.
Qed.

Lemma insort_str_sorted x l :
  StronglySorted (λ s t, str_leb s t = true) l →
  StronglySorted (λ s t, str_leb s t = true) (insort_str x l).
Proof.
  induction 1 as [|y l Hl IH Hy]; cbn [insort_str].
  - by repeat constructor.
  - destruct (str_leb x y) eqn:Hxy.
    + constructor; [by constructor|]. constructor; [done|].
      eapply Forall_impl; [exact Hy|]. intros z Hz. by eapply str_leb_trans.
    + constructor; [done|]. rewrite insort_str_perm. constructor; [|done].
      by destruct (str_leb_total x y) as [Hle|Hle]; [rewrite Hle in Hxy|].
Qed.

Lemma sorted_str_sorted l : StronglySorted (λ s t, str_leb s t = true) (sorted_str l).
Proof.
  induction l as [|x l IH]; [constructor|]. by apply insort_str_sorted.
Qed.

Lemma sorted_str_strict l : NoDup l → StronglySorted str_lt (sorted_str l).
Proof.
  intros Hnd. rewrite <- sorted_str_perm in Hnd.
  induction (sorted_str_sorted l) as [|x m _ IH Hx]; [constructor|].
  apply NoDup_cons in Hnd as [Hx' Hnd]. constructor; [by apply IH|].
  apply Forall_forall. intros y Hy. split.
  - rewrite Forall_forall in Hx. by apply Hx.
  - by intros ->.
Qed.

(** The set that the loop over the alerts builds. *)
Lemma collect_expressions_spec w items :
  ∀ acc exprs,
    fold_res (collect_expression w) acc items = inr exprs →
    ∀ e, e ∈ exprs ↔
         e ∈ acc
         ∨ (e ≠ "" ∧ ∃ alert generator_url,
              alert ∈ items
              ∧ py_get alert "generatorURL" (JStr "") = inr generator_url
              ∧ promql_of w generator_url = inr (Some e)).
Proof.
  induction items as [|alert items IH]; intros acc exprs; cbn [fold_res].
  - intros [= <-] e. split; [by left|]. intros [?|(_ & ? & ? & []%elem_of_nil & _)]. done.
  - destruct (collect_expression w acc alert) as [err|acc'] eqn:Hstep; [done|].
    intros Hfold e. rewrite (IH _ _ Hfold).
    unfold collect_expression, extract_promql_expression in Hstep.
    destruct (py_get alert "generatorURL" (JStr "")) as [err|generator_url] eqn:Hget;
      cbn [mbind res_bind] in Hstep; [done|].
    destruct (promql_of w generator_url) as [err|[found|]] eqn:Hexpr;
      cbn [mbind res_bind] in Hstep; [done| |].
    + destruct (String.eqb found "") eqn:Hfound; injection Hstep as <-.
      * apply String.eqb_eq in Hfound as ->. split.
        -- intros [?|(? & a & u & ? & ? & ?)]; [by left|right]. split; [done|].
           exists a, u. split; [by right|done].
        -- intros [?|(Hne & a & u & [->|?]%elem_of_cons & Ha & Hu)]; [by left| |].
           ++ rewrite Hget in Ha. injection Ha as <-. rewrite Hexpr in Hu.
              by injection Hu as <-.
           ++ right. split; [done|]. by exists a, u.
      * apply String.eqb_neq in Hfound. rewrite elem_of_union, elem_of_singleton. split.
        -- intros [[?| ->]|(? & a & u & ? & ? & ?)].
           ++ by left.
           ++ right. split; [done|]. exists alert, generator_url. split; [by left|done].
           ++ right. split; [done|]. exists a, u. split; [by right|done].
        -- intros [?|(Hne & a & u & [->|?]%elem_of_cons & Ha & Hu)].
           ++ by left; left.
           ++ rewrite Hget in Ha. injection Ha as <-. rewrite Hexpr in Hu.
              injection Hu as <-. by left; right.
           ++ right. split; [done|]. by exists a, u.
    + injection Hstep as <-. split.
      * intros [?|(? & a & u & ? & ? & ?)]; [by left|right]. split; [done|].
        exists a, u. split; [by right|done].
      * intros [?|(Hne & a & u & [->|?]%elem_of_cons & Ha & Hu)]; [by left| |].
        -- rewrite Hget in Ha. injection Ha as <-. by rewrite Hexpr in Hu.
        -- right. split; [done|]. by exists a, u.
Qed.

(** [get_alertmanager_metrics] when the alerts arrive and can be gone
    through. *)
Lemma get_alertmanager_metrics_runs w alertmanager_url alerts items exprs st :
  http_get w (rstrip "/" alertmanager_url +:+ "/api/v2/alerts")
           (Dashboards.alertmanager_headers (environment w))
  = Response alerts →
  py_iter alerts = inr items →
  fold_res (collect_expression w) ∅ items = inr exprs →
  ALERTS_FILE ∉ folders st →
  EXPRESSIONS_PATH ∉ folders st →
  get_alertmanager_metrics w alertmanager_url st
  = (inr (),
     Host (console st
           ++ [CHECK_MARK +:+ " Saved raw AlertManager alerts to alertmanager_alerts.json";
               if decide (exprs ≠ ∅)
               then CHECK_MARK +:+ " Full PromQL expressions written to "
                    +:+ "alertmanager_promql_expressions.txt"
               else WARNING_MARK +:+ " No PromQL expressions found in alerts."])
          (typed st) (folders st)
          (if decide (exprs ≠ ∅)
           then <[EXPRESSIONS_PATH := Str.join (nl +:+ nl) (sorted_str (elements exprs))]>
                  (<[ALERTS_FILE := dumps alerts]> (stored st))
           else <[ALERTS_FILE := dumps alerts]> (stored st))).
Proof.
  intros Hget Hiter Hfold Halerts Hexprs.
  unfold get_alertmanager_metrics, get. rewrite Hget.
  erewrite bind_inr by reflexivity. cbv beta.
  erewrite bind_inr by (by apply write_file_runs). cbv beta.
  erewrite bind_inr by reflexivity. cbv beta.
  erewrite bind_inr by (unfold lift; by rewrite Hiter). cbv beta.
  erewrite bind_inr by (unfold lift; by rewrite Hfold). cbv beta.
  cbn [console typed folders stored]. destruct (decide (exprs ≠ ∅)).
  - erewrite bind_inr by (by apply write_file_runs). cbv beta.
    unfold print. cbn [console typed folders stored]. by rewrite <- app_assoc.
  - unfold print. cbn [console typed folders stored]. by rewrite <- app_assoc.
Qed.

(** X20. [get_alertmanager_metrics] saves the alerts, then the expressions
    of the alerts: each expression that is not empty once, in ascending
    order of [str], separated by an empty line. When no alert has an
    expression, no expression file is written and a message says so. *)
Theorem alert_expressions_are_saved_sorted_and_once
    (w : site) (alertmanager_url : string) (alerts : json) (items : list json)
    (exprs : gset string) (st : host) :
  http_get w (rstrip "/" alertmanager_url +:+ "/api/v2/alerts")
           (Dashboards.alertmanager_headers (environment w))
  = Response alerts →
  py_iter alerts = inr items →
  fold_res (collect_expression w) ∅ items = inr exprs →
  (ALERTS_FILE ∉ folders st) →
  (EXPRESSIONS_PATH ∉ folders st) →
  (∀ e, e ∈ exprs ↔
        e ≠ "" ∧ ∃ alert generator_url,
          alert ∈ items
          ∧ py_get alert "generatorURL" (JStr "") = inr generator_url
          ∧ promql_of w generator_url = inr (Some e))
  ∧ ∃ ordered,
      StronglySorted str_lt ordered
      ∧ (∀ e, e ∈ ordered ↔ e ∈ exprs)
      ∧ get_alertmanager_metrics w alertmanager_url st
        = (inr (),
           Host (console st
                 ++ [CHECK_MARK
                     +:+ " Saved raw AlertManager alerts to alertmanager_alerts.json";
                     match ordered with
                     | [] => WARNING_MARK +:+ " No PromQL expressions found in alerts."
                     | _ => CHECK_MARK +:+ " Full PromQL expressions written to "
                            +:+ "alertmanager_promql_expressions.txt"
                     end])
                (typed st) (folders st)
                match ordered with
                | [] => <[ALERTS_FILE := dumps alerts]> (stored st)
                | _ => <[EXPRESSIONS_PATH := Str.join (nl +:+ nl) ordered]>
                         (<[ALERTS_FILE := dumps alerts]> (stored st))
                end).
Proof.
  intros Hget Hiter Hfold Halerts Hexprs. split.
  - intros e. rewrite (collect_expressions_spec w items ∅ exprs Hfold e).
    split; [|by right]. by intros [?%not_elem_of_empty|?].
  - exists (sorted_str (elements exprs)).
    assert (Hmem : ∀ e, e ∈ sorted_str (elements exprs) ↔ e ∈ exprs).
    { intros e. by rewrite sorted_str_perm, elem_of_elements. }
    split; [apply sorted_str_strict, NoDup_elements|]. split; [done|].
    rewrite (get_alertmanager_metrics_runs w _ alerts items exprs st
               Hget Hiter Hfold Halerts Hexprs).
    destruct (sorted_str (elements exprs)) as [|e0 ordered] eqn:Hsorted.
    + rewrite !decide_False; [done|..]; intros Hne;
        apply set_choose_L in Hne as [e He]; apply Hmem in He;
        by apply elem_of_nil in He.
    + rewrite !decide_True; [done|..]; intros Hempty;
        (assert (e0 ∈ exprs) as He by (apply Hmem; by left));
        rewrite Hempty in He; by apply not_elem_of_empty in He.
Qed.

Lemma alert_expressions_are_saved_sorted_and_once_witness :
  http_get sample_site (rstrip "/" "http://localhost:9093/" +:+ "/api/v2/alerts")
           (Dashboards.alertmanager_headers (environment sample_site))
  = Response sample_alerts
  ∧ py_iter sample_alerts
    = inr [JDict [("generatorURL", JStr sample_generator_url)]; JDict []]
  ∧ fold_res (collect_expression sample_site) ∅
             [JDict [("generatorURL", JStr sample_generator_url)]; JDict []]
    = inr (∅ ∪ {["up == 0"]})
  ∧ (ALERTS_FILE ∉ folders (host_typing []))
  ∧ (EXPRESSIONS_PATH ∉ folders (host_typing []))
  ∧ (∀ e, e ∈ (∅ ∪ {["up == 0"]} : gset string) ↔
          e ≠ "" ∧ ∃ alert generator_url,
            alert ∈ [JDict [("generatorURL", JStr sample_generator_url)]; JDict []]
            ∧ py_get alert "generatorURL" (JStr "") = inr generator_url
            ∧ promql_of sample_site generator_url = inr (Some e))
  ∧ ∃ ordered,
      StronglySorted str_lt ordered
      ∧ (∀ e, e ∈ ordered ↔ e ∈ (∅ ∪ {["up == 0"]} : gset string))
      ∧ get_alertmanager_metrics sample_site "http://localhost:9093/" (host_typing [])
        = (inr (),
           Host (console (host_typing [])
                 ++ [CHECK_MARK
                     +:+ " Saved raw AlertManager alerts to alertmanager_alerts.json";
                     match ordered with
                     | [] => WARNING_MARK +:+ " No PromQL expressions found in alerts."
                     | _ => CHECK_MARK +:+ " Full PromQL expressions written to "
                            +:+ "alertmanager_promql_expressions.txt"
                     end])
                (typed (host_typing [])) (folders (host_typing []))
                match ordered with
                | [] => <[ALERTS_FILE := dumps sample_alerts]> (stored (host_typing []))
                | _ => <[EXPRESSIONS_PATH := Str.join (nl +:+ nl) ordered]>
                         (<[ALERTS_FILE := dumps sample_alerts]>
                            (stored (host_typing [])))
                end).
Proof.
  assert (Hfree : ∀ path, path ∉ folders (host_typing []))
    by (intros path; apply not_elem_of_empty).
  split; [reflexivity|]. split; [reflexivity|]. split; [reflexivity|].
  split; [apply Hfree|]. split; [apply Hfree|].
  exact (alert_expressions_are_saved_sorted_and_once sample_site "http://localhost:9093/"
           sample_alerts _ _ (host_typing []) eq_refl eq_refl eq_refl
           (Hfree _) (Hfree _)).
Defined.

End alert_expressions.

(** ** The query lines under the metric pattern *)

Lemma maximal_right_prefix name t post more :
  maximal_right name t (post +:+ more) → maximal_right name t post.
Proof.
  intros Hmax v q -> Hv. apply (Hmax v (q +:+ more)); [|done]. by rewrite app_assoc_s.
Qed.

(** The matches of a text with a character in it that no name holds are
    the matches in front of the character and those behind it. *)
Lemma findall_metric_split a c b t :
  metric_rest c = false →
  t ∈ findall metric_pattern (a +:+ String c b)
  ↔ t ∈ findall metric_pattern a ∨ t ∈ findall metric_pattern b.
Proof.
  intros Hc. rewrite !findall_metric_maximal. split.
  - intros (pre & post & Hline & Hname & Hleft & Hright).
    pose proof (name_forallb _ _ metric_first_rest t Hname) as Hrest.
    symmetry in Hline.
    destruct (app_eq_app _ _ _ _ Hline) as [(m & -> & Hm)|(m & -> & Hm)].
    + destruct (app_eq_app _ _ _ _ Hm) as [(m' & -> & ->)|(m' & -> & Hm')].
      * left. exists pre, m'. split; [done|]. split; [done|]. split; [done|].
        by eapply maximal_right_prefix.
      * destruct m' as [|c' m'].
        -- rewrite app_empty_l in Hm'. subst post. rewrite app_empty_r in *.
           left. exists pre, "". rewrite app_empty_r. split; [done|]. split; [done|].
           split; [done|]. intros v q Heq Hv. symmetry in Heq.
           by apply app_eq_empty in Heq as [? _].
        -- rewrite app_cons in Hm'. injection Hm' as <- _.
           rewrite str_forallb_app in Hrest. apply andb_true_iff in Hrest as [_ Hrest].
           simpl in Hrest. by rewrite Hc in Hrest.
    + destruct m as [|c' m].
      * rewrite app_empty_l in Hm. destruct t as [|c0 t]; [done|].
        rewrite app_cons in Hm. injection Hm as <- _. simpl in Hrest. by rewrite Hc in Hrest.
      * rewrite app_cons in Hm. injection Hm as <- ->.
        right. exists m, post. split; [done|]. split; [done|]. split; [|done].
        apply (maximal_left_suffix metric_first metric_rest (a +:+ String c "")).
        by rewrite <- app_assoc_s.
  - intros [(pre & post & -> & Hname & Hleft & Hright)
           |(pre & post & -> & Hname & Hleft & Hright)].
    + exists pre, (post +:+ String c b). split; [by rewrite <- !app_assoc_s|].
      split; [done|]. split; [done|].
      apply (maximal_right_stops metric_first metric_rest metric_first_rest); [done|].
      intros c' r Heq. destruct post as [|c0 post].
      * rewrite app_empty_l in Heq. by injection Heq as <- _.
      * rewrite app_cons in Heq. injection Heq as <- _.
        by eapply (maximal_right_head metric_first metric_rest).
    + exists ((a +:+ String c "") +:+ pre), post. split.
      { rewrite <- !app_assoc_s. by rewrite app_cons, app_empty_l. }
      split; [done|]. split; [|done].
      by apply (maximal_left_barrier metric_first metric_rest metric_first_rest).
Qed.

Section query_lines.
Import GetAllDashboards.

(** X21. A query that [extract_queries] returns, scanned as a line by the
    analysis, gives the metric names of its expression and those of the
    title with the colon behind it, and no others. *)
Theorem query_lines_name_the_title_and_the_expression
    (dashboard_json : json) (queries : list string) :
  extract_queries dashboard_json = inr queries →
  Forall (λ query, ∃ title expr,
            title_of dashboard_json = inr title
            ∧ query = py_str title +:+ ": " +:+ py_str expr
            ∧ ∀ t, t ∈ findall metric_pattern query
                   ↔ t ∈ findall metric_pattern (py_str title +:+ ":")
                     ∨ t ∈ findall metric_pattern (py_str expr)) queries.
Proof.
  apply extract_queries_titled. intros title expr Htitle _.
  exists title, expr. split; [done|]. split; [done|]. intros t.
  rewrite <- (findall_metric_split _ " " _ t eq_refl).
  by rewrite <- !app_assoc_s.
Qed.

Lemma query_lines_name_the_title_and_the_expression_witness :
  extract_queries sample_answer = inr ["A: up"]
  ∧ Forall (λ query, ∃ title expr,
              title_of sample_answer = inr title
              ∧ query = py_str title +:+ ": " +:+ py_str expr
              ∧ ∀ t, t ∈ findall metric_pattern query
                     ↔ t ∈ findall metric_pattern (py_str title +:+ ":")
                       ∨ t ∈ findall metric_pattern (py_str expr)) ["A: up"].
Proof.
  split; [reflexivity|].
  exact (query_lines_name_the_title_and_the_expression sample_answer ["A: up"] eq_refl).
Defined.

End query_lines.

(** ** A run that fetches the alerts *)

Section alerts_run.
Import GetAllDashboards.

Lemma alerting_site_listed :
  Forall (listed alerting_site)
         [JDict [("uid", JStr "a"); ("title", JStr "A")];
          JDict [("uid", JStr "b"); ("title", JStr "B")]].
Proof.
  constructor; [|constructor; [|constructor]].
  - split; [by eexists|]. split; [by eexists|]. intros dashboard_json [= <-].
    by eexists.
  - split; [by eexists|]. split; [by eexists|]. intros dashboard_json Hb.
    vm_compute in Hb. discriminate Hb.
Qed.

(** X22. The file of the raw alerts does not outlive the run that writes
    it. In a run that answers the AlertManager question with yes, whatever
    was answered to the question before it, with the AlertManager
    configured and answering, [get_alertmanager_metrics] writes
    [alertmanager_alerts.json] and the clean-up at the end of [main]
    removes it; the query file and, if an alert has an expression, the
    expression file stay. *)
Theorem raw_alerts_do_not_outlive_the_run
    (w : site) (url alertmanager_url : string) (dashboards alerts : json)
    (dashes items : list json) (exprs : gset string)
    (first metric_name second : string) (rest : list string) (st : host) :
  ready st →
  Dashboards.GRAFANA_URL (environment w) = Some url →
  http_get w (rstrip "/" url +:+ "/api/search") (Dashboards.headers (environment w))
  = Response dashboards →
  py_iter dashboards = inr dashes →
  Forall (listed w) dashes →
  typed st = specific_answers first metric_name ++ second :: rest →
  yes second →
  Dashboards.ALERTMANAGER_URL (environment w) = Some alertmanager_url →
  alertmanager_url ≠ "" →
  http_get w (rstrip "/" alertmanager_url +:+ "/api/v2/alerts")
           (Dashboards.alertmanager_headers (environment w))
  = Response alerts →
  py_iter alerts = inr items →
  fold_res (collect_expression w) ∅ items = inr exprs →
  ∃ out files,
    main w st
    = (inr (), Host (console st ++ out) rest
                    (folders st ∪ {[OUTPUT_DIR]} ∪ {[FOLDER_FOR_RESULTS]}) files)
    ∧ (CHECK_MARK +:+ " Saved raw AlertManager alerts to alertmanager_alerts.json") ∈ out
    ∧ (CHECK_MARK +:+ " Cleaned up file: alertmanager_alerts.json") ∈ out
    ∧ files !! ALERTS_FILE = None
    ∧ files !! QUERY_PATH = Some (Str.join nl (concat (queries_of w <$> dashes)))
    ∧ files !! EXPRESSIONS_PATH
      = if decide (exprs ≠ ∅)
        then Some (Str.join (nl +:+ nl) (sorted_str (elements exprs)))
        else stored st !! EXPRESSIONS_PATH.
Proof.
  intros Hready Hurl Hget Hiter Hlisted Htyped Hsecond Ham Hne Halerts Hitems Hfold.
  pose proof Hready as (_ & _ & Hplain).
  destruct (gathered_plain w dashboards dashes st Hplain) as [Hplain' Hdir].
  unfold main.
  rewrite (bind_inr _ _ _ _ _ (gather_runs w url dashboards dashes st
                                 Hready Hurl Hget Hiter Hlisted)).
  rewrite conclude_saves by (by apply plain_folders_free).
  lazymatch goal with
  | |- context [(specific_metric_step ?queries ≫= _) ?st1] =>
      destruct (specific_metric_step_answered queries first metric_name
                  (second :: rest) st1) as (out & files & Hstep & Hframe);
        [by apply (plain_folders_free _ FOLDER_FOR_RESULTS)|exact Htyped|]
  end.
  erewrite bind_inr by exact Hstep. cbv beta. cbn [console typed folders stored] in *.
  erewrite (bind_inr (alert_manager_step w)); cycle 1.
  { unfold alert_manager_step.
    erewrite bind_inr by (by apply input_runs). cbv beta.
    apply lower_yes in Hsecond as ->. unfold truthy. rewrite Ham.
    apply String.eqb_neq in Hne as ->. cbn [negb default id].
    apply (get_alertmanager_metrics_runs w alertmanager_url alerts items exprs);
      [done..| |]; cbn [folders]; [apply Hplain'|].
    by apply (plain_folders_free _ FOLDER_FOR_RESULTS). }
  cbv beta. rewrite clean_up_runs by (done || apply Hplain').
  cbn [console typed folders stored]. unfold gathered at 1 2.
  cbn [console typed folders stored]. rewrite <- !app_assoc.
  eexists _, _. split; [reflexivity|]. rewrite !swept_lookup.
  split; [|split; [|split; [|split]]].
  - rewrite !elem_of_app. do 5 right. left. by left.
  - rewrite !elem_of_app. do 7 right. rewrite decide_True; [by left|].
    destruct (decide (exprs ≠ ∅)); rewrite !dom_insert_L; set_solver.
  - rewrite decide_False; [done|]. by intros [_ ?].
  - rewrite decide_True by done.
    destruct (decide (exprs ≠ ∅)); rewrite !lookup_insert_ne by done;
      rewrite Hframe by done; by rewrite lookup_insert_eq.
  - rewrite decide_True by done. destruct (decide (exprs ≠ ∅)).
    + by rewrite lookup_insert_eq.
    + rewrite lookup_insert_ne by done. rewrite Hframe by done.
      rewrite lookup_insert_ne by done. unfold gathered. cbn [stored].
      rewrite keep_dump_lookup by (intros d; apply dump_path_not_results).
      by rewrite lookup_insert_ne.
Qed.
Lemma raw_alerts_do_not_outlive_the_run_witness :
  ready (host_typing ["y"; "up"; "y"])
  ∧ Dashboards.GRAFANA_URL (environment alerting_site) = Some "http://localhost:3000/"
  ∧ http_get alerting_site (rstrip "/" "http://localhost:3000/" +:+ "/api/search")
             (Dashboards.headers (environment alerting_site))
    = Response sample_listing
  ∧ py_iter sample_listing
    = inr [JDict [("uid", JStr "a"); ("title", JStr "A")];
           JDict [("uid", JStr "b"); ("title", JStr "B")]]
  ∧ Forall (listed alerting_site)
           [JDict [("uid", JStr "a"); ("title", JStr "A")];
            JDict [("uid", JStr "b"); ("title", JStr "B")]]
  ∧ typed (host_typing ["y"; "up"; "y"]) = specific_answers "y" "up" ++ "y" :: []
  ∧ yes "y"
  ∧ Dashboards.ALERTMANAGER_URL (environment alerting_site)
    = Some "http://localhost:9093/"
  ∧ "http://localhost:9093/" ≠ ""
  ∧ http_get alerting_site (rstrip "/" "http://localhost:9093/" +:+ "/api/v2/alerts")
             (Dashboards.alertmanager_headers (environment alerting_site))
    = Response sample_alerts
  ∧ py_iter sample_alerts
    = inr [JDict [("generatorURL", JStr sample_generator_url)]; JDict []]
  ∧ fold_res (collect_expression alerting_site) ∅
             [JDict [("generatorURL", JStr sample_generator_url)]; JDict []]
    = inr (∅ ∪ {["up == 0"]})
  ∧ ∃ out files,
      main alerting_site (host_typing ["y"; "up"; "y"])
      = (inr (), Host (console (host_typing ["y"; "up"; "y"]) ++ out) []
                      (folders (host_typing ["y"; "up"; "y"])
                       ∪ {[OUTPUT_DIR]} ∪ {[FOLDER_FOR_RESULTS]}) files)
      ∧ (CHECK_MARK +:+ " Saved raw AlertManager alerts to alertmanager_alerts.json")
        ∈ out
      ∧ (CHECK_MARK +:+ " Cleaned up file: alertmanager_alerts.json") ∈ out
      ∧ files !! ALERTS_FILE = None
      ∧ files !! QUERY_PATH
        = Some (Str.join nl
                  (concat (queries_of alerting_site
                           <$> [JDict [("uid", JStr "a"); ("title", JStr "A")];
                                JDict [("uid", JStr "b"); ("title", JStr "B")]])))
      ∧ files !! EXPRESSIONS_PATH
        = if decide ((∅ ∪ {["up == 0"]} : gset string) ≠ ∅)
          then Some (Str.join (nl +:+ nl)
                       (sorted_str (elements (∅ ∪ {["up == 0"]} : gset string))))
          else stored (host_typing ["y"; "up"; "y"]) !! EXPRESSIONS_PATH.
Proof.
  assert (Hyes : yes "y") by (by left).
  assert (Hne : "http://localhost:9093/" ≠ "") by done.
  split; [apply host_typing_ready|]. do 3 (split; [reflexivity|]).
  split; [apply alerting_site_listed|]. split; [reflexivity|].
  split; [exact Hyes|]. split; [reflexivity|].
  split; [exact Hne|]. do 3 (split; [reflexivity|]).
  exact (raw_alerts_do_not_outlive_the_run alerting_site "http://localhost:3000/"
           "http://localhost:9093/" sample_listing sample_alerts _ _ _ "y" "up" "y" []
           (host_typing ["y"; "up"; "y"]) (host_typing_ready _) eq_refl eq_refl eq_refl
           alerting_site_listed eq_refl Hyes eq_refl Hne eq_refl eq_refl eq_refl).
Defined.
End alerts_run.

(** ** The first name of an expression *)

Section first_metric.
Import GetAllDashboards.

Lemma match_group_metric s :
  match_group metric_pattern s =
    match s with
    | String c s' =>
        if metric_first c then Some (String c (Str.span metric_rest s').1) else None
    | EmptyString => None
    end.
Proof.
  unfold match_group. rewrite match_metric. destruct s as [|c s']; [done|].
  destruct (metric_first c); [|done]. cbn [mbind option_bind pat_group metric_pattern].
  cbn [firstn sum_list foldr Nat.add id]. rewrite Nat.add_0_r.
  cbn [Nat.add Str.take]. by rewrite take_span.
Qed.

(** X23. For a generator URL with an expression,
    [extract_metric_from_generator_url] returns the longest text at the head
    of the expression that has the shape of a metric name, and [None] when
    the expression starts with another character than a letter, an
    underscore or a colon. What follows the name does not count: of an
    expression that starts with the call of a function it is the name of
    the function. *)
Theorem first_metric_is_the_leading_name
    (w : site) (generator_url : json) (expr : string) :
  promql_of w generator_url = inr (Some expr) →
  (∀ m, extract_metric_from_generator_url w generator_url = inr (Some m)
        ↔ is_metric_name m = true
          ∧ ∃ rest, expr = m +:+ rest ∧ ∀ c r, rest = String c r → metric_rest c = false)
  ∧ (extract_metric_from_generator_url w generator_url = inr None
     ↔ ∀ c r, expr = String c r → metric_first c = false).
Proof.
  intros Hexpr. unfold extract_metric_from_generator_url. rewrite Hexpr.
  cbn [mbind res_bind mret res_ret]. rewrite match_group_metric. split.
  - intros m. split.
    + destruct expr as [|c s]; [done|]. destruct (metric_first c) eqn:Hc; [|done].
      intros [= <-]. split.
      * cbn [is_metric_name is_name]. by rewrite Hc, span_forallb.
      * exists (Str.span metric_rest s).2. split.
        -- by rewrite app_cons, span_app.
        -- intros c' r. apply span_stops.
    + intros (Hname & rest & -> & Hstop). destruct m as [|c m]; [done|].
      cbn [is_metric_name is_name] in Hname. apply andb_true_iff in Hname as [Hc Hm].
      rewrite app_cons, Hc. by rewrite (span_all metric_rest m rest Hm Hstop).
  - destruct expr as [|c s].
    + split; [by intros _ c r [=]|done].
    + destruct (metric_first c) eqn:Hc.
      * split; [done|]. intros Hall. by rewrite (Hall c s eq_refl) in Hc.
      * split; [|done]. by intros _ c' r [= <- _].
Qed.

Lemma first_metric_is_the_leading_name_witness :
  promql_of sample_site (JStr sample_generator_url) = inr (Some "up == 0")
  ∧ (∀ m, extract_metric_from_generator_url sample_site (JStr sample_generator_url) = inr (Some m)
          ↔ is_metric_name m = true
            ∧ ∃ rest, "up == 0" = m +:+ rest
                      ∧ ∀ c r, rest = String c r → metric_rest c = false)
  ∧ (extract_metric_from_generator_url sample_site (JStr sample_generator_url) = inr None
     ↔ ∀ c r, "up == 0" = String c r → metric_first c = false).
Proof.
  split; [reflexivity|].
  exact (first_metric_is_the_leading_name sample_site (JStr sample_generator_url)
           "up == 0" eq_refl).
Defined.
End first_metric.
